(** * Guardian: alert generation and delivery pipeline

    A shallow embedding of the Python backend (the three predictors,
    [AlertEngine.send_alert] and its channel helpers, the WebSocket fan-out,
    the live-data handler and the two background loops of [app.py], and the
    validation of sensor readings) together with the properties its
    specification states about them and further properties read off the
    code.

    Conventions.
    - Python dicts are [gmap string pyval]; Python sets are [gset].
    - Python floats are modelled by rationals ([Q]); a decimal literal of
      the source denotes the rational it spells, and arithmetic on floats
      is exact: rounding, infinities and NaN are outside the model.  The
      conversion of an int to a float, which raises [OverflowError] beyond
      the float range, is modelled ([int_overflows]).
    - Code that can raise lives in the monad [M]: a computation takes the
      world and returns either a value or the raised exception, with the
      world as it is at that point.
    - Everything the code obtains from outside (uuid4, the clock, the
      WebSocket transport, modules of the repository that are not part of
      the sources) is a field of the class [Env]. *)

From Stdlib Require Import QArith Lqa.
From stdpp Require Import gmap strings list fin_maps pretty.

Set Warnings "-register-all,-clear-no-such-hyp".
Local Open Scope string_scope.
Local Open Scope list_scope.

(* ===================================================================== *)
(** ** Python values, exceptions, results *)
(* ===================================================================== *)

Inductive pyval :=
| PNone
| PBool (b : bool)
| PInt (z : Z)
| PNum (q : Q)
| PStr (s : string)
| PList (l : list pyval)
| PDict (d : gmap string pyval).

Abbreviation dict := (gmap string pyval).

(** Exceptions (all of them subclasses of [Exception]).  [HTTPException]
    carries the exception whose [str] is its [detail]. *)
Inductive exn :=
| AttributeError (what : string)
| TypeError (what : string)
| KeyError (key : string)
| RuntimeError (what : string)
| HTTPException (status_code : Z) (detail : exn).

Inductive result (A : Type) :=
| Ok (a : A)
| Raise (e : exn).
Arguments Ok {A} a.
Arguments Raise {A} e.

(** [d.get(key, dflt)] *)
Definition dict_get (d : dict) (key : string) (dflt : pyval) : pyval :=
  default dflt (d !! key).

(** [v == "s"] for a string literal [s] *)
Definition py_eq_str (v : pyval) (s : string) : bool :=
  match v with
  | PStr s' => String.eqb s' s
  | _ => false
  end.

(** [v in ["s1", "s2", ...]] *)
Definition py_in_strs (v : pyval) (l : list string) : bool :=
  existsb (py_eq_str v) l.

(** The number a value stands for in an ordering comparison such as
    [bp_lo <= v <= bp_hi] ([bool] is an [int]); [None] for the values on
    which the comparison raises [TypeError].  An int is compared with a
    float exactly, whatever its size. *)
Definition py_num (v : pyval) : option Q :=
  match v with
  | PBool b => Some (if b then 1 else 0)%Q
  | PInt z => Some (inject_Z z)
  | PNum q => Some q
  | _ => None
  end.

(** Converting an int to a float, which arithmetic between an int and a
    float does first, raises [OverflowError] when the int rounds to
    [2**1024] or beyond. *)
Definition float_range_bound : Z := (2 ^ 1024 - 2 ^ 970)%Z.

Definition int_overflows (z : Z) : bool := (float_range_bound <=? Z.abs z)%Z.

(** The number [v] stands for as an operand of float arithmetic; for an
    int [z], [converted z] is the int that is converted to a float ([z]
    itself in [z / 3.0], [10 - z] in [(10 - z) / 10.0]).  [None] when the
    operation raises: [TypeError] for a value that is not a number,
    [OverflowError] for an int beyond the float range. *)
Definition py_float_operand (converted : Z -> Z) (v : pyval) : option Q :=
  match v with
  | PBool b => Some (if b then 1 else 0)%Q
  | PInt z => if int_overflows (converted z) then None else Some (inject_Z z)
  | PNum q => Some q
  | _ => None
  end.

(** [max(a, b)] and [min(a, b)]: the second argument replaces the first
    only when it is strictly greater (smaller). *)
Definition py_max (a b : Q) : Q := if Qlt_le_dec a b then b else a.

Definition py_min (a b : Q) : Q := if Qlt_le_dec b a then b else a.

(* ===================================================================== *)
(** ** models/flood_predictor.py, models/fire_predictor.py *)
(* ===================================================================== *)

Module FloodPredictor.

(** [_get_risk_status(self, score)]: [score] is the 0..1 risk score. *)
Definition _get_risk_status (score : Q) : string :=
  if Qlt_le_dec 0.8 score then "🔴 CRITICAL"
  else if Qlt_le_dec 0.6 score then "🟠 HIGH"
  else if Qlt_le_dec 0.4 score then "🟡 MODERATE"
  else if Qlt_le_dec 0.2 score then "🟢 LOW"
  else "⚪ MINIMAL".

(** The local [risk_score] of [predict]. *)
Definition risk_score
    (water_level rainfall terrain_slope soil_saturation proximity_to_river : Q) : Q :=
  let water_score := (py_min (water_level / 3.0) 1.0 * 0.35)%Q in
  let rainfall_score := (py_min (rainfall / 10.0) 1.0 * 0.25)%Q in
  let terrain_score := (py_max 0 ((10 - terrain_slope) / 10.0) * 0.2)%Q in
  let saturation_score := (soil_saturation * 0.15)%Q in
  let proximity_score := (py_max 0 (1 - proximity_to_river / 5000.0) * 0.05)%Q in
  (water_score + rainfall_score + terrain_score + saturation_score + proximity_score)%Q.

(** The "status" of the dict [predict] returns: the band of the risk
    score, or "error" when the arithmetic raised and the [except] branch
    built the result.  The operands of the five float operations are
    [water_level], [rainfall], [10 - terrain_slope], [soil_saturation] and
    [proximity_to_river]. *)
Definition predict_status (location_data : dict) : string :=
  match py_float_operand id (dict_get location_data "water_level" (PInt 0)),
        py_float_operand id (dict_get location_data "rainfall" (PInt 0)),
        py_float_operand (fun z => 10 - z)%Z
          (dict_get location_data "terrain_slope" (PInt 5)),
        py_float_operand id (dict_get location_data "soil_saturation" (PNum 0.5)),
        py_float_operand id (dict_get location_data "proximity_to_river" (PInt 1000)) with
  | Some water_level, Some rainfall, Some terrain_slope,
    Some soil_saturation, Some proximity_to_river =>
      _get_risk_status
        (risk_score water_level rainfall terrain_slope soil_saturation proximity_to_river)
  | _, _, _, _, _ => "error"
  end.

End FloodPredictor.

Module FirePredictor.

Definition _get_risk_status (score : Q) : string :=
  if Qlt_le_dec 0.8 score then "🔴 EXTREME"
  else if Qlt_le_dec 0.6 score then "🟠 VERY HIGH"
  else if Qlt_le_dec 0.4 score then "🟡 HIGH"
  else if Qlt_le_dec 0.2 score then "🟢 MODERATE"
  else "⚪ LOW".

(** [{"grassland": 1.2, ...}.get(vegetation_type, 1.0)]; [None] when the
    key is unhashable and the lookup raises [TypeError]. *)
Definition veg_multiplier (vegetation_type : pyval) : option Q :=
  match vegetation_type with
  | PStr s =>
      Some (if String.eqb s "grassland" then 1.2
            else if String.eqb s "shrubland" then 1.3
            else if String.eqb s "forest" then 1.0
            else if String.eqb s "urban" then 0.5
            else if String.eqb s "water" then 0.0
            else 1.0)%Q
  | PList _ | PDict _ => None
  | _ => Some 1.0%Q
  end.

(** The local [risk_score] of [predict], after [min(risk_score, 1.0)]. *)
Definition risk_score
    (temperature humidity wind_speed rainfall_last_24h veg_multiplier : Q) : Q :=
  let temp_score := (py_max 0 ((temperature - 10) / 40.0) * 0.35)%Q in
  let humidity_score := (py_max 0 ((100 - humidity) / 100.0) * 0.3)%Q in
  let wind_score := (py_min (wind_speed / 30.0) 1.0 * 0.25)%Q in
  let rainfall_score := (py_max 0 ((50 - rainfall_last_24h) / 50.0) * 0.1)%Q in
  py_min ((temp_score + humidity_score + wind_score + rainfall_score) * veg_multiplier)%Q
         1.0%Q.

(** The "status" of the dict [predict] returns, "error" when the [except]
    branch built it.  The operands of the four float operations are
    [temperature - 10], [100 - humidity], [wind_speed] and
    [50 - rainfall_last_24h]. *)
Definition predict_status (location_data : dict) : string :=
  match py_float_operand (fun z => z - 10)%Z
          (dict_get location_data "temperature" (PInt 25)),
        py_float_operand (fun z => 100 - z)%Z
          (dict_get location_data "humidity" (PInt 50)),
        py_float_operand id (dict_get location_data "wind_speed" (PInt 5)),
        py_float_operand (fun z => 50 - z)%Z
          (dict_get location_data "rainfall_last_24h" (PInt 0)),
        veg_multiplier (dict_get location_data "vegetation_type" (PStr "grassland")) with
  | Some temperature, Some humidity, Some wind_speed, Some rainfall_last_24h, Some veg =>
      _get_risk_status (risk_score temperature humidity wind_speed rainfall_last_24h veg)
  | _, _, _, _, _ => "error"
  end.

End FirePredictor.

(* ===================================================================== *)
(** ** models/pollution_predictor.py *)
(* ===================================================================== *)

Module PollutionPredictor.

(** The [for bp_lo, bp_hi, aqi_lo, aqi_hi in breakpoints] loop, with the
    [return 500.0] that follows it. *)
Fixpoint aqi_of_breakpoints (breakpoints : list (Q * Q * Q * Q)) (c : Q) : Q :=
  match breakpoints with
  | [] => 500.0
  | (bp_lo, bp_hi, aqi_lo, aqi_hi) :: rest =>
      if Qle_bool bp_lo c && Qle_bool c bp_hi
      then aqi_lo + (c - bp_lo) / (bp_hi - bp_lo) * (aqi_hi - aqi_lo)
      else aqi_of_breakpoints rest c
  end.

Definition pm25_breakpoints : list (Q * Q * Q * Q) :=
  [ (0, 12, 0, 50);
    (12.1, 35.4, 51, 100);
    (35.5, 55.4, 101, 150);
    (55.5, 150.4, 151, 200);
    (150.5, 250.4, 201, 300);
    (250.5, 500, 301, 500) ]%Q.

Definition _calculate_pm25_aqi (pm25 : Q) : Q :=
  aqi_of_breakpoints pm25_breakpoints pm25.

Definition pm10_breakpoints : list (Q * Q * Q * Q) :=
  [ (0, 54, 0, 50);
    (55, 154, 51, 100);
    (155, 254, 101, 150);
    (255, 354, 151, 200);
    (355, 424, 201, 300);
    (425, 604, 301, 500) ]%Q.

Definition _calculate_pm10_aqi (pm10 : Q) : Q :=
  aqi_of_breakpoints pm10_breakpoints pm10.

Definition no2_breakpoints : list (Q * Q * Q * Q) :=
  [ (0, 53, 0, 50);
    (54, 100, 51, 100);
    (101, 360, 101, 150);
    (361, 649, 151, 200);
    (650, 1249, 201, 300);
    (1250, 2049, 301, 500) ]%Q.

Definition _calculate_no2_aqi (no2 : Q) : Q :=
  aqi_of_breakpoints no2_breakpoints no2.

Definition o3_breakpoints : list (Q * Q * Q * Q) :=
  [ (0, 54, 0, 50);
    (55, 70, 51, 100);
    (71, 85, 101, 150);
    (86, 105, 151, 200);
    (106, 200, 201, 300);
    (201, 604, 301, 500) ]%Q.

Definition _calculate_o3_aqi (o3 : Q) : Q :=
  aqi_of_breakpoints o3_breakpoints o3.

Definition co_breakpoints : list (Q * Q * Q * Q) :=
  [ (0, 4.4, 0, 50);
    (4.5, 9.4, 51, 100);
    (9.5, 12.4, 101, 150);
    (12.5, 15.4, 151, 200);
    (15.5, 30.4, 201, 300);
    (30.5, 50.4, 301, 500) ]%Q.

Definition _calculate_co_aqi (co : Q) : Q :=
  aqi_of_breakpoints co_breakpoints co.

Definition _get_aqi_category (aqi : Q) : string :=
  if Qle_bool aqi 50 then "🟢 Good"
  else if Qle_bool aqi 100 then "🟡 Moderate"
  else if Qle_bool aqi 150 then "🟠 Unhealthy for Sensitive Groups"
  else if Qle_bool aqi 200 then "🔴 Unhealthy"
  else if Qle_bool aqi 300 then "🔴 Very Unhealthy"
  else "🔴 Hazardous".

Definition _get_health_advisory (aqi : Q) : string :=
  if Qle_bool aqi 50 then
    "Air quality is satisfactory. Outdoor activities are safe."
  else if Qle_bool aqi 100 then
    "Air quality is acceptable. Hypersensitive people should limit outdoor activities."
  else if Qle_bool aqi 150 then
    "Sensitive groups may experience respiratory symptoms. Consider staying indoors."
  else if Qle_bool aqi 200 then
    "Everyone may begin to experience health effects. Reduce outdoor activities."
  else if Qle_bool aqi 300 then
    "Everyone should avoid outdoor activities. Consider staying indoors with air purifiers."
  else
    "EMERGENCY: Stay indoors. Avoid outdoor activities entirely.  Seek medical attention if experiencing symptoms.".

(** [max(0.5, 1.0 - (wind_speed / 20.0))] *)
Definition wind_factor (wind_speed : Q) : Q :=
  py_max 0.5 (1.0 - wind_speed / 20.0)%Q.

(** The local [aqi] of [predict]: the largest component, times the wind
    factor. *)
Definition overall_aqi (pm25 pm10 no2 o3 co wind_speed : Q) : Q :=
  let pm25_aqi := _calculate_pm25_aqi pm25 in
  let pm10_aqi := _calculate_pm10_aqi pm10 in
  let no2_aqi := _calculate_no2_aqi no2 in
  let o3_aqi := _calculate_o3_aqi o3 in
  let co_aqi := _calculate_co_aqi co in
  let aqi := py_max (py_max (py_max (py_max pm25_aqi pm10_aqi) no2_aqi) o3_aqi) co_aqi in
  (aqi * wind_factor wind_speed)%Q.

(** The entries of the dict [predict] returns that do not go through
    [round]: the local [aqi] (the dict holds [round(aqi, 1)]), and
    "aqi_category" and "health_advisory", which are computed from it. *)
Record assessment := mkAssessment {
  aqi_unrounded : Q;
  aqi_category : string;
  health_advisory : string
}.

(** The five pollutants are compared with the breakpoints (and enter the
    interpolation only when they lie in a row); [wind_speed] is the
    operand of [wind_speed / 20.0]. *)
Definition predict_assessment (location_data : dict) : assessment :=
  match py_num (dict_get location_data "pm25" (PInt 25)),
        py_num (dict_get location_data "pm10" (PInt 40)),
        py_num (dict_get location_data "no2" (PInt 30)),
        py_num (dict_get location_data "o3" (PInt 50)),
        py_num (dict_get location_data "co" (PNum 1.0)),
        py_float_operand id (dict_get location_data "wind_speed" (PInt 5)) with
  | Some pm25, Some pm10, Some no2, Some o3, Some co, Some wind_speed =>
      let aqi := overall_aqi pm25 pm10 no2 o3 co wind_speed in
      mkAssessment aqi (_get_aqi_category aqi) (_get_health_advisory aqi)
  | _, _, _, _, _, _ => mkAssessment 0.0 "error" "Unable to calculate AQI"
  end.

End PollutionPredictor.

(* ===================================================================== *)
(** ** The world the backend runs in *)
(* ===================================================================== *)

(** A connected WebSocket: an opaque handle. *)
Definition client := nat.

Inductive level := INFO | ERROR.

(** What an f-string handed to the logger interpolates. *)
Inductive logarg :=
| LVal (v : pyval)
| LExn (e : exn).

(** Notification channels: one per [_send_*] helper of [AlertEngine]. *)
Inductive channel := Push | Sms | Email | Webhook | InApp.

Inductive hazard := Flood | Fire | Pollution.

(** Observable effects, in the order they happen. *)
Inductive event :=
| EvLog (lvl : level) (template : string) (args : list logarg)
| EvAwait (c : channel) (alert : dict)
| EvDelivered (c : client) (message : dict)
| EvSendFailed (c : client) (message : dict)
| EvPredict (h : hazard) (location_data : dict)
| EvEvaluate (location_data : dict)
| EvSaved (data : dict)
| EvSleep (seconds : Z).

Record World := mkWorld {
  alerts : gmap string dict;          (* alert_engine.alerts *)
  connected_clients : gset client;    (* app.connected_clients *)
  ticks : nat;                        (* readings of the environment so far *)
  trace : list event
}.

(** What the code gets from outside.  Readings that differ from call to
    call are indexed by [ticks]. *)
Class Env := {
  (** [str(uuid.uuid4())] *)
  uuid4_str : nat -> string;
  (** [datetime.utcnow().isoformat()] *)
  utcnow_isoformat : nat -> string;
  (** Outcome of the [try] block of [_send_email], [_send_webhook] and
      [_send_in_app_notification]: [None] when it runs to its end, [Some e]
      when it raises [e]. *)
  email_body : dict -> option exn;
  webhook_body : dict -> option exn;
  in_app_body : dict -> option exn;
  (** [await client.send_json(message)]: [Some e] when the transport raises. *)
  send_json_outcome : client -> dict -> option exn;
  (** What the other tasks do while this one is suspended in
      [await client.send_json(message)] inside the [for] statement of
      [broadcast_update]: [true] when a connection handler has added a
      client to [connected_clients] or discarded one from it, so that the
      size of the set is not what it was when the iteration began.  The
      world keeps [connected_clients] as this task leaves it; of the other
      tasks' changes the model keeps the one effect they have on this
      task, the failure of the size check of the set iterator.  (A client
      joining and another leaving during the same send leave the size as
      it was: the iterator then walks a changed table, in an order the
      language does not specify; such a send is outside the model.) *)
  registry_resized : client -> dict -> bool;
  (** [database.models] *)
  get_latest_sensor_data : nat -> result (list dict);
  save_sensor_data : dict -> option exn;
  (** [<hazard>_predictor.predict(location_data)]: its whole body is inside
      [try ... except Exception], both paths return a dict. *)
  predict : hazard -> nat -> dict -> dict;
  (** [alerts.alert_rules.AlertRules.evaluate] *)
  alert_rules_evaluate : dict -> dict -> dict -> dict -> result (list dict);
  (** [data.external_api.ExternalAPIManager] *)
  fetch_weather : nat -> result dict;
  fetch_air_quality : nat -> result dict;
  fetch_water_levels : nat -> result dict;
  (** [sensor_manager.simulate_iot_data()] (random draws) *)
  simulate_iot_data : nat -> dict
}.

(* ===================================================================== *)
(** ** The monad of effectful code *)
(* ===================================================================== *)

Definition M (A : Type) : Type := World -> result A * World.

Definition ret {A} (a : A) : M A := fun w => (Ok a, w).

Definition raise {A} (e : exn) : M A := fun w => (Raise e, w).

Definition bind {A B} (m : M A) (k : A -> M B) : M B :=
  fun w =>
    match m w with
    | (Ok a, w') => k a w'
    | (Raise e, w') => (Raise e, w')
    end.

(** [try: body  except Exception as e: handler e] *)
Definition try_except {A} (body : M A) (handler : exn -> M A) : M A :=
  fun w =>
    match body w with
    | (Ok a, w') => (Ok a, w')
    | (Raise e, w') => handler e w'
    end.

Notation "'let!' x ':=' m 'in' k" := (bind m (fun x => k))
  (at level 10, x name, m at level 100, k at level 200, only parsing).
Notation "m '>>' k" := (bind m (fun _ => k))
  (at level 65, right associativity, only parsing).

(** [for x in xs: body x] *)
Fixpoint for_each {A} (xs : list A) (body : A -> M unit) : M unit :=
  match xs with
  | [] => ret tt
  | x :: rest => body x >> for_each rest body
  end.

Definition emit_w (e : event) (w : World) : World :=
  mkWorld (alerts w) (connected_clients w) (ticks w) (trace w ++ [e]).

Definition emit (e : event) : M unit := fun w => (Ok tt, emit_w e w).

Definition log (lvl : level) (template : string) (args : list logarg) : M unit :=
  emit (EvLog lvl template args).

(** [await asyncio.sleep(seconds)] *)
Definition sleep (seconds : Z) : M unit := emit (EvSleep seconds).

(** One reading of the environment. *)
Definition env_read {A} (f : nat -> A) : M A :=
  fun w => (Ok (f (ticks w)),
            mkWorld (alerts w) (connected_clients w) (S (ticks w)) (trace w)).

(** A call into the environment that may raise. *)
Definition env_call {A} (f : nat -> result A) : M A :=
  bind (env_read f) (fun r => match r with Ok a => ret a | Raise e => raise e end).

(** [d[key]] *)
Definition getitem (d : dict) (key : string) : M pyval :=
  match d !! key with
  | Some v => ret v
  | None => raise (KeyError key)
  end.

(** [str.upper], on the ASCII letters. *)
Definition ascii_upper (a : Ascii.ascii) : Ascii.ascii :=
  let n := Ascii.nat_of_ascii a in
  if (97 <=? n)%nat && (n <=? 122)%nat then Ascii.ascii_of_nat (n - 32) else a.

Fixpoint str_upper (s : string) : string :=
  match s with
  | EmptyString => EmptyString
  | String a rest => String (ascii_upper a) (str_upper rest)
  end.

(** [v.upper()]: only [str] has the method. *)
Definition py_upper (v : pyval) : M string :=
  match v with
  | PStr s => ret (str_upper s)
  | _ => raise (AttributeError "upper")
  end.

(** [v[:n]]: strings and lists can be sliced. *)
Definition py_slice_to (v : pyval) (n : nat) : M pyval :=
  match v with
  | PStr s => ret (PStr (String.substring 0 n s))
  | PList l => ret (PList (take n l))
  | _ => raise (TypeError "slice")
  end.

(* ===================================================================== *)
(** ** alerts/notification_engine.py *)
(* ===================================================================== *)

Module AlertEngine.

(** The string [send_alert] appends to [channels_sent] for a channel. *)
Definition channel_name (c : channel) : string :=
  match c with
  | Push => "push_notification"
  | Sms => "sms"
  | Email => "email"
  | Webhook => "webhook"
  | InApp => "in_app"
  end.

Section WithEnv.
Context `{Env}.

(** The [try] block of [_send_push_notification]. *)
Definition push_body (alert : dict) : M unit :=
  let! ty := getitem alert "type" in
  let! up := py_upper ty in
  let! msg := getitem alert "message" in
  let! body := py_slice_to msg 200 in
  let! location := getitem alert "location" in
  let! alert_id := getitem alert "id" in
  let! severity := getitem alert "severity" in
  let notification : dict :=
    list_to_map
      [ ("title", PStr ("🚨 " +:+ up +:+ " ALERT"));
        ("body", body);
        ("location", location);
        ("alert_id", alert_id);
        ("priority",
          PStr (if py_eq_str severity "critical" then "high" else "normal")) ] in
  let! logged_id := getitem alert "id" in
  log INFO "📲 Push notification sent for {}" [LVal logged_id].

Definition _send_push_notification (alert : dict) : M unit :=
  emit (EvAwait Push alert) >>
  try_except
    (push_body alert)
    (fun e => log ERROR "Error sending push notification: {}" [LExn e]).

(** The [try] block of [_send_sms]. *)
Definition sms_body (alert : dict) : M unit :=
  let! ty := getitem alert "type" in
  let! up := py_upper ty in
  let! msg := getitem alert "message" in
  let! cut := py_slice_to msg 160 in
  let message := "⚠️ " +:+ up +:+ ": " in
  let! logged_id := getitem alert "id" in
  log INFO "📱 SMS sent for {}" [LVal logged_id].

Definition _send_sms (alert : dict) : M unit :=
  emit (EvAwait Sms alert) >>
  try_except
    (sms_body alert)
    (fun e => log ERROR "Error sending SMS:  {}" [LExn e]).

(** Modelled from the spec: the source of [_send_email] stops inside its
    [try] block, and [_send_webhook] and [_send_in_app_notification] are
    not in it.  Each is a channel adapter with one operation
    [send(alert) -> success|failure] that does not raise to the
    dispatcher; as in the two helpers above, the [try] block either runs
    to its end or raises, and the handler logs the error. *)
Definition oracle_body (body : dict -> option exn) (alert : dict) : M unit :=
  match body alert with
  | None => ret tt
  | Some e => raise e
  end.

Definition _send_email (alert : dict) : M unit :=
  emit (EvAwait Email alert) >>
  try_except
    (oracle_body email_body alert)
    (fun e => log ERROR "Error sending email: {}" [LExn e]).

Definition _send_webhook (alert : dict) : M unit :=
  emit (EvAwait Webhook alert) >>
  try_except
    (oracle_body webhook_body alert)
    (fun e => log ERROR "Error sending webhook: {}" [LExn e]).

Definition _send_in_app_notification (alert : dict) : M unit :=
  emit (EvAwait InApp alert) >>
  try_except
    (oracle_body in_app_body alert)
    (fun e => log ERROR "Error sending in-app notification: {}" [LExn e]).

(** [alert["channels_sent"].append(name)] *)
Definition channels_sent_append (alert : dict) (name : string) : M dict :=
  let! sent := getitem alert "channels_sent" in
  match sent with
  | PList l => ret (<["channels_sent" := PList (l ++ [PStr name])]> alert)
  | _ => raise (AttributeError "append")
  end.

(** [self.alerts[alert["id"]] = alert] *)
Definition store_alert (alert : dict) : M unit :=
  let! alert_id := getitem alert "id" in
  match alert_id with
  | PStr k =>
      fun w => (Ok tt,
                mkWorld (<[k := alert]> (alerts w)) (connected_clients w)
                        (ticks w) (trace w))
  | _ => raise (TypeError "unhashable")
  end.

(** The alert object [send_alert] creates. *)
Definition new_alert (alert_id created_at : string) (alert_data : dict) : dict :=
  list_to_map
    [ ("id", PStr alert_id);
      ("type", dict_get alert_data "type" (PStr "unknown"));
      ("severity", dict_get alert_data "severity" (PStr "moderate"));
      ("location", dict_get alert_data "location" (PStr "Unknown"));
      ("latitude", dict_get alert_data "latitude" (PInt 0));
      ("longitude", dict_get alert_data "longitude" (PInt 0));
      ("message", dict_get alert_data "message" (PStr ""));
      ("human_readable", dict_get alert_data "human_readable" (PStr ""));
      ("affected_population", dict_get alert_data "affected_population" (PInt 0));
      ("recommendations", dict_get alert_data "recommendations" (PList []));
      ("created_at", PStr created_at);
      ("status", PStr "active");
      ("channels_sent", PList []) ].

Definition send_alert (alert_data : dict) : M dict :=
  try_except
    (let! alert_id := env_read uuid4_str in
     let! created_at := env_read utcnow_isoformat in
     let alert := new_alert alert_id created_at alert_data in
     let! severity := getitem alert "severity" in
     let! alert :=
       (if py_in_strs severity ["critical"; "high"] then
          _send_push_notification alert >>
          let! alert := channels_sent_append alert "push_notification" in
          _send_sms alert >>
          let! alert := channels_sent_append alert "sms" in
          _send_email alert >>
          let! alert := channels_sent_append alert "email" in
          _send_webhook alert >>
          channels_sent_append alert "webhook"
        else if py_eq_str severity "moderate" then
          _send_push_notification alert >>
          let! alert := channels_sent_append alert "push_notification" in
          _send_email alert >>
          channels_sent_append alert "email"
        else
          _send_in_app_notification alert >>
          channels_sent_append alert "in_app") in
     store_alert alert >>
     let! ty := getitem alert "type" in
     let! sev := getitem alert "severity" in
     log INFO "⚠️ Alert created: {} - {}" [LVal ty; LVal sev] >>
     ret alert)
    (fun e => log ERROR "Error sending alert: {}" [LExn e] >> raise e).

End WithEnv.

End AlertEngine.

(* ===================================================================== *)
(** ** app.py *)
(* ===================================================================== *)

Module App.

Section WithEnv.
Context `{Env}.

(** [await client.send_json(message)] *)
Definition send_json (c : client) (message : dict) : M unit :=
  match send_json_outcome c message with
  | None => emit (EvDelivered c message)
  | Some e => emit (EvSendFailed c message) >> raise e
  end.

(** [connected_clients.discard(client)] *)
Definition discard (c : client) : M unit :=
  fun w => (Ok tt,
            mkWorld (alerts w) (connected_clients w ∖ {[c]}) (ticks w) (trace w)).

(** The first loop of [broadcast_update], [for client in
    connected_clients], over the clients the iterator has still to give:
    [disconnected] collects the clients whose [send_json] raised.  The
    loop iterates the set itself, not a copy: when the body has run, the
    iterator is asked for the next client, and raises [RuntimeError] if
    the size of the set has changed since the iteration began (also when
    no client is left).  That exception is raised by the [for] statement,
    outside the [try] of its body. *)
Fixpoint sweep (message : dict) (clients : list client)
    (disconnected : gset client) : M (gset client) :=
  match clients with
  | [] => ret disconnected
  | c :: rest =>
      let! disconnected :=
        try_except
          (send_json c message >> ret disconnected)
          (fun _ => ret ({[c]} ∪ disconnected)) in
      if registry_resized c message
      then raise (RuntimeError "Set changed size during iteration")
      else sweep message rest disconnected
  end.

Definition broadcast_update (message : dict) : M unit :=
  fun w =>
    if bool_decide (connected_clients w = ∅) then (Ok tt, w)
    else
      (let! disconnected := sweep message (elements (connected_clients w)) ∅ in
       for_each (elements disconnected) discard) w.

Definition broadcast_alert (alert : dict) : M unit :=
  let! now := env_read utcnow_isoformat in
  let message : dict :=
    list_to_map
      [ ("type", PStr "alert");
        ("data", PDict alert);
        ("timestamp", PStr now) ] in
  broadcast_update message.

(** Modelled from the spec: [AlertEngine.create_alert], which
    [create_manual_alert] calls, is not in the sources
    (notification_engine.py stops inside [_send_email]).  The spec sends a
    manually-created alert directly to the Dispatcher, whose dispatch
    attempts the channels selected by the severity, never fails outright
    and always returns the updated alert: the operation [send_alert]
    implements. *)
Definition alert_engine_create_alert (alert_data : dict) : M dict :=
  AlertEngine.send_alert alert_data.

(** [POST /api/v1/alerts/manual] *)
Definition create_manual_alert (alert_data : dict) : M dict :=
  try_except
    (let! alert := alert_engine_create_alert alert_data in
     broadcast_alert alert >>
     let! ty := getitem alert "type" in
     log INFO "⚠️ Manual alert created: {}" [LVal ty] >>
     let! now := env_read utcnow_isoformat in
     ret (list_to_map
            [ ("status", PStr "success");
              ("alert", PDict alert);
              ("timestamp", PStr now) ]))
    (fun e =>
       log ERROR "Error creating alert: {}" [LExn e] >>
       raise (HTTPException 500 e)).

(** [save_sensor_data(all_data)] *)
Definition save (all_data : dict) : M unit :=
  match save_sensor_data all_data with
  | None => emit (EvSaved all_data)
  | Some e => raise e
  end.

(** One turn of the [while True] of [background_data_collection]. *)
Definition data_collection_iteration : M unit :=
  try_except
    (log INFO "📊 Collecting external environmental data..." [] >>
     let! weather_data := env_call fetch_weather in
     let! air_quality_data := env_call fetch_air_quality in
     let! water_level_data := env_call fetch_water_levels in
     let! iot_data := env_read simulate_iot_data in
     (* {**weather_data, **air_quality_data, **water_level_data, **iot_data}:
        a later dict wins on a shared key *)
     let all_data : dict :=
       iot_data ∪ (water_level_data ∪ (air_quality_data ∪ weather_data)) in
     save all_data >>
     let! now := env_read utcnow_isoformat in
     broadcast_update
       (list_to_map
          [ ("type", PStr "sensor_update");
            ("data", PDict all_data);
            ("timestamp", PStr now) ]) >>
     sleep 60)
    (fun e =>
       log ERROR "Error in background data collection:  {}" [LExn e] >>
       sleep 60).

Definition run_predict (h : hazard) (location_data : dict) : M dict :=
  emit (EvPredict h location_data) >>
  env_read (fun n => predict h n location_data).

Definition evaluate (location_data flood_risk fire_risk pollution_risk : dict)
    : M (list dict) :=
  emit (EvEvaluate location_data) >>
  match alert_rules_evaluate location_data flood_risk fire_risk pollution_risk with
  | Ok alerts_triggered => ret alerts_triggered
  | Raise e => raise e
  end.

(** The body of [for location_data in sensor_data]. *)
Definition process_location (location_data : dict) : M unit :=
  let! flood_risk := run_predict Flood location_data in
  let! fire_risk := run_predict Fire location_data in
  let! pollution_risk := run_predict Pollution location_data in
  let! alerts_triggered :=
    evaluate location_data flood_risk fire_risk pollution_risk in
  for_each alerts_triggered
    (fun alert => AlertEngine.send_alert alert >> broadcast_alert alert).

(** The [try] block of [background_prediction_loop]. *)
Definition prediction_cycle : M unit :=
  log INFO "🤖 Running AI predictions..." [] >>
  let! sensor_data := env_call get_latest_sensor_data in
  (match sensor_data with
   | [] => ret tt
   | _ => for_each sensor_data process_location
   end) >>
  sleep 300.

(** One turn of the [while True] of [background_prediction_loop]. *)
Definition prediction_iteration : M unit :=
  try_except
    prediction_cycle
    (fun e => log ERROR "Error in prediction loop: {}" [LExn e] >> sleep 300).

(** The first [n] turns of [while True]; the loop has no [break] and no
    [return], so an exception leaving a turn is its only way out. *)
Fixpoint background_prediction_loop (n : nat) : M unit :=
  match n with
  | O => ret tt
  | S n' => prediction_iteration >> background_prediction_loop n'
  end.

(** The first [n] turns of the [while True] of [background_data_collection]. *)
Fixpoint background_data_collection (n : nat) : M unit :=
  match n with
  | O => ret tt
  | S n' => data_collection_iteration >> background_data_collection n'
  end.

(** [connected_clients.add(websocket)] *)
Definition register (c : client) : M unit :=
  fun w => (Ok tt,
            mkWorld (alerts w) ({[c]} ∪ connected_clients w) (ticks w) (trace w)).

(** [len(connected_clients)] *)
Definition count_clients : M pyval :=
  fun w => (Ok (PInt (Z.of_nat (size (connected_clients w)))), w).

(** The first [n] turns of the [while True] of [websocket_live_data].  The
    result tells whether the loop is still running after them. *)
Fixpoint live_data_turns (websocket : client) (n : nat) : M bool :=
  match n with
  | O => ret true
  | S n' =>
      let! data := env_call get_latest_sensor_data in
      let! now := env_read utcnow_isoformat in
      send_json websocket
        (list_to_map
           [ ("type", PStr "sensor_update");
             ("data", PList (map PDict data));
             ("timestamp", PStr now) ]) >>
      sleep 2 >>
      live_data_turns websocket n'
  end.

(** [websocket_live_data], from the point where [websocket.accept()] has
    returned, for at most [n] turns of its loop.  The [finally] block runs
    when the [try] statement is left, that is when the loop has raised; the
    result tells whether the handler is still in its loop. *)
Definition websocket_live_data (websocket : client) (n : nat) : M bool :=
  register websocket >>
  let! running :=
    try_except
      (let! total := count_clients in
       log INFO "✅ WebSocket connected.  Total clients: {}" [LVal total] >>
       live_data_turns websocket n)
      (fun e => log ERROR "WebSocket error: {}" [LExn e] >> ret false) in
  if running : bool then ret true
  else
    discard websocket >>
    let! total := count_clients in
    log INFO "❌ WebSocket disconnected. Total clients: {}" [LVal total] >>
    ret false.

End WithEnv.

End App.

(* ===================================================================== *)
(** ** data/sensor_ingestion.py *)
(* ===================================================================== *)

Module SensorDataManager.

Section WithFloat.
(** [float(s)] for a string [s]: the number it spells, [None] when it
    raises [ValueError]. *)
Variable float_of_str : string -> option Q.

(** [float(v)]; [None] when it raises ([TypeError] for [None], lists and
    dicts, [ValueError] for a string that spells no number,
    [OverflowError] for an int beyond the float range). *)
Definition py_float (v : pyval) : option Q :=
  match v with
  | PBool b => Some (if b then 1 else 0)%Q
  | PInt z => if int_overflows z then None else Some (inject_Z z)
  | PNum q => Some q
  | PStr s => float_of_str s
  | PNone | PList _ | PDict _ => None
  end.

(** The dict literal [validate_and_process] binds to [processed], given
    the values of its [float] calls.  [new_id] and [now] are
    [str(uuid.uuid4())] and [datetime.utcnow().isoformat()], evaluated as
    the defaults of the two [get] calls. *)
Definition processed_record (new_id now : string) (raw_data : dict)
    (temperature humidity pressure wind_speed rainfall water_level
     pm25 pm10 no2 o3 co smoke_level radiation : Q) : dict :=
  list_to_map
    [ ("id", dict_get raw_data "id" (PStr new_id));
      ("sensor_id", dict_get raw_data "sensor_id" PNone);
      ("timestamp", dict_get raw_data "timestamp" (PStr now));
      ("location", dict_get raw_data "location" (PStr "Unknown"));
      ("latitude", dict_get raw_data "latitude" (PInt 0));
      ("longitude", dict_get raw_data "longitude" (PInt 0));
      ("sensor_type", dict_get raw_data "sensor_type" PNone);
      ("temperature", PNum temperature);
      ("humidity", PNum humidity);
      ("pressure", PNum pressure);
      ("wind_speed", PNum wind_speed);
      ("wind_direction", dict_get raw_data "wind_direction" (PStr "N"));
      ("rainfall", PNum rainfall);
      ("water_level", PNum water_level);
      ("water_quality", dict_get raw_data "water_quality" (PStr "normal"));
      ("pm25", PNum pm25);
      ("pm10", PNum pm10);
      ("no2", PNum no2);
      ("o3", PNum o3);
      ("co", PNum co);
      ("smoke_level", PNum smoke_level);
      ("radiation", PNum radiation);
      ("status", PStr "processed") ].

(** The two [if] statements under "Validation rules";
    [processed["temperature"]] and [processed["humidity"]] are the floats
    just stored. *)
Definition validation_rules (temperature humidity : Q) (processed : dict) : dict :=
  let processed :=
    if Qlt_le_dec temperature (-50) then <["status" := PStr "warning_invalid_temp"]> processed
    else if Qlt_le_dec 70 temperature
         then <["status" := PStr "warning_invalid_temp"]> processed
         else processed in
  if Qlt_le_dec humidity 0 then <["status" := PStr "warning_invalid_humidity"]> processed
  else if Qlt_le_dec 100 humidity
       then <["status" := PStr "warning_invalid_humidity"]> processed
       else processed.

(** [validate_and_process(self, raw_data)]: [None] when the [except]
    branch raises [ValueError]. *)
Definition validate_and_process (new_id now : string) (raw_data : dict) : option dict :=
  temperature ← py_float (dict_get raw_data "temperature" (PInt 20));
  humidity ← py_float (dict_get raw_data "humidity" (PInt 50));
  pressure ← py_float (dict_get raw_data "pressure" (PInt 1013));
  wind_speed ← py_float (dict_get raw_data "wind_speed" (PInt 5));
  rainfall ← py_float (dict_get raw_data "rainfall" (PInt 0));
  water_level ← py_float (dict_get raw_data "water_level" (PInt 0));
  pm25 ← py_float (dict_get raw_data "pm25" (PInt 25));
  pm10 ← py_float (dict_get raw_data "pm10" (PInt 40));
  no2 ← py_float (dict_get raw_data "no2" (PInt 30));
  o3 ← py_float (dict_get raw_data "o3" (PInt 50));
  co ← py_float (dict_get raw_data "co" (PNum 1.0));
  smoke_level ← py_float (dict_get raw_data "smoke_level" (PInt 0));
  radiation ← py_float (dict_get raw_data "radiation" (PInt 0));
  Some (validation_rules temperature humidity
          (processed_record new_id now raw_data
             temperature humidity pressure wind_speed rainfall water_level
             pm25 pm10 no2 o3 co smoke_level radiation)).

End WithFloat.

End SensorDataManager.

(* ===================================================================== *)
(** ** Vocabulary of the properties *)
(* ===================================================================== *)

(** The world after [evs] more events. *)
Definition add_events (evs : list event) (w : World) : World :=
  mkWorld (alerts w) (connected_clients w) (ticks w) (trace w ++ evs).

Definition empty_world : World := mkWorld ∅ ∅ 0 [].

(** The channels whose helper was awaited, in order. *)
Definition attempted (evs : list event) : list channel :=
  omap (fun e => match e with EvAwait c _ => Some c | _ => None end) evs.

Definition is_error_log (e : event) : bool :=
  match e with
  | EvLog ERROR _ _ => true
  | _ => false
  end.

Definition is_log (e : event) : Prop :=
  match e with
  | EvLog _ _ _ => True
  | _ => False
  end.

(** The deliveries made, in order. *)
Definition deliveries (evs : list event) : list (client * dict) :=
  omap (fun e => match e with
                 | EvDelivered c m => Some (c, m)
                 | _ => None
                 end) evs.

(** The messages put on the wire, in order. *)
Definition delivered_messages (evs : list event) : list dict :=
  omap (fun e => match e with
                 | EvDelivered _ m => Some m
                 | _ => None
                 end) evs.

(** The locations [alert_rules.evaluate] was called on, in order. *)
Definition evaluated (evs : list event) : list dict :=
  omap (fun e => match e with EvEvaluate loc => Some loc | _ => None end) evs.

(** The locations a predictor was run on, in order. *)
Definition predicted (evs : list event) : list dict :=
  omap (fun e => match e with EvPredict _ loc => Some loc | _ => None end) evs.

Definition sleeps (evs : list event) : list Z :=
  omap (fun e => match e with EvSleep n => Some n | _ => None end) evs.

(** A value that cannot be the operand of a float operation: it is not a
    number, or it is an int and what the operation converts to float lies
    beyond the float range ([OverflowError]). *)
Definition unusable_operand (converted : Z -> Z) (v : pyval) : Prop :=
  py_num v = None \/
  exists z, v = PInt z /\ (float_range_bound <= Z.abs (converted z))%Z.

Section Vocabulary.
Context `{Env}.

Definition try_block (c : channel) (alert : dict) : M unit :=
  match c with
  | Push => AlertEngine.push_body alert
  | Sms => AlertEngine.sms_body alert
  | Email => AlertEngine.oracle_body email_body alert
  | Webhook => AlertEngine.oracle_body webhook_body alert
  | InApp => AlertEngine.oracle_body in_app_body alert
  end.

Definition run_helper (c : channel) : dict -> M unit :=
  match c with
  | Push => AlertEngine._send_push_notification
  | Sms => AlertEngine._send_sms
  | Email => AlertEngine._send_email
  | Webhook => AlertEngine._send_webhook
  | InApp => AlertEngine._send_in_app_notification
  end.

(** The [try] block of the helper of channel [c] raises on [alert]. *)
Definition channel_fails (c : channel) (alert : dict) : bool :=
  match fst (try_block c alert empty_world) with
  | Ok _ => false
  | Raise _ => true
  end.

(** What the helper of channel [c] adds to the trace. *)
Definition helper_events (c : channel) (alert : dict) : list event :=
  trace (snd (run_helper c alert empty_world)).

End Vocabulary.

(** The branch of the [if]/[elif]/[else] of [send_alert] a severity takes. *)
Definition selected_channels (severity : pyval) : list channel :=
  if py_in_strs severity ["critical"; "high"] then [Push; Sms; Email; Webhook]
  else if py_eq_str severity "moderate" then [Push; Email]
  else [InApp].

(** The value of [channels_sent] after the channels [cs]. *)
Definition sent_names (cs : list channel) : pyval :=
  PList (map (fun c => PStr (AlertEngine.channel_name c)) cs).

(** [alert] after [alert["channels_sent"].append(name)]. *)
Definition append_sent (alert : dict) (name : string) : dict :=
  match alert !! "channels_sent" with
  | Some (PList l) => <["channels_sent" := PList (l ++ [PStr name])]> alert
  | _ => alert
  end.

Definition has_sent (alert : dict) : Prop :=
  exists l, alert !! "channels_sent" = Some (PList l).

(** The events a run of [m] from [w] adds to the trace. *)
Definition run_events {A} (m : M A) (w : World) : list event :=
  drop (length (trace w)) (trace (snd (m w))).

(** The helper calls made, with the alert each was given. *)
Definition awaited (evs : list event) : list (channel * dict) :=
  omap (fun e => match e with EvAwait c a => Some (c, a) | _ => None end) evs.

(** The line [send_alert] logs before it returns. *)
Definition created_line (alert_data : dict) : event :=
  EvLog INFO "⚠️ Alert created: {} - {}"
    [LVal (dict_get alert_data "type" (PStr "unknown"));
     LVal (dict_get alert_data "severity" (PStr "moderate"))].

Section Dispatch.
Context `{Env}.

(** The alert object after the channels [cs], and what their helpers add
    to the trace. *)
Fixpoint dispatch_alert (cs : list channel) (alert : dict) : dict :=
  match cs with
  | [] => alert
  | c :: rest => dispatch_alert rest (append_sent alert (AlertEngine.channel_name c))
  end.

Fixpoint dispatch_trace (cs : list channel) (alert : dict) : list event :=
  match cs with
  | [] => []
  | c :: rest =>
      helper_events c alert ++
      dispatch_trace rest (append_sent alert (AlertEngine.channel_name c))
  end.

(** The channels whose [try] block raised, among the calls made. *)
Definition failed_channels (calls : list (channel * dict)) : list channel :=
  map fst (List.filter (fun ca => channel_fails (fst ca) (snd ca)) calls).

(** The channels one [send_alert] attempts, and those that fail. *)
Definition channels_attempted (alert_data : dict) (w : World) : list channel :=
  attempted (run_events (AlertEngine.send_alert alert_data) w).

Definition channels_failed (alert_data : dict) (w : World) : list channel :=
  failed_channels (awaited (run_events (AlertEngine.send_alert alert_data) w)).

(** [client.send_json(message)] raises. *)
Definition send_fails (message : dict) (c : client) : bool :=
  match send_json_outcome c message with
  | None => false
  | Some _ => true
  end.

(** What the first loop of [broadcast_update] adds to the trace. *)
Definition sweep_events (message : dict) (clients : list client) : list event :=
  map (fun c => if send_fails message c
                then EvSendFailed c message else EvDelivered c message) clients.

(** The clients the sweep reaches: those before the first send during
    which the registry is resized, and the client of that send. *)
Fixpoint swept (message : dict) (clients : list client) : list client :=
  match clients with
  | [] => []
  | c :: rest => c :: (if registry_resized c message then [] else swept message rest)
  end.

(** The registry is resized during one of the sends of the sweep. *)
Definition sweep_aborts (message : dict) (clients : list client) : bool :=
  existsb (fun c => registry_resized c message) clients.

(** The message [broadcast_alert] builds for [alert] at clock reading [n]. *)
Definition alert_message (alert : dict) (n : nat) : dict :=
  list_to_map
    [ ("type", PStr "alert");
      ("data", PDict alert);
      ("timestamp", PStr (utcnow_isoformat n)) ].

(** The envelope [broadcast_alert] and [background_data_collection] put
    on the wire. *)
Definition wire_envelope (kind : string) (m : dict) : Prop :=
  dom m = {[ "type"; "data"; "timestamp" ]} /\
  m !! "type" = Some (PStr kind) /\
  (exists payload, m !! "data" = Some (PDict payload)) /\
  (exists n, m !! "timestamp" = Some (PStr (utcnow_isoformat n))).

(** [alert_rules.evaluate] returns for this location, whatever the
    predictions. *)
Definition evaluate_returns (location_data : dict) : Prop :=
  forall flood_risk fire_risk pollution_risk, exists alerts_triggered,
    alert_rules_evaluate location_data flood_risk fire_risk pollution_risk
    = Ok alerts_triggered.

(** [alert_rules.evaluate] raises [e] for this location. *)
Definition evaluate_raises (location_data : dict) (e : exn) : Prop :=
  forall flood_risk fire_risk pollution_risk,
    alert_rules_evaluate location_data flood_risk fire_risk pollution_risk = Raise e.

(** [prediction_cycle] without its closing [sleep]. *)
Definition cycle_work : M unit :=
  bind (log INFO "🤖 Running AI predictions..." [])
    (fun _ => bind (env_call get_latest_sensor_data)
       (fun sensor_data =>
          match sensor_data with
          | [] => ret tt
          | _ => for_each sensor_data App.process_location
          end)).

End Dispatch.

(** The world in which the [for] statement of a prediction cycle starts:
    after the first log line and the reading of the database. *)
Definition cycle_start (w : World) : World :=
  mkWorld (alerts w) (connected_clients w) (S (ticks w))
          (trace w ++ [EvLog INFO "🤖 Running AI predictions..." []]).

Definition set_clients (s : gset client) (w : World) : World :=
  mkWorld (alerts w) s (ticks w) (trace w).

Definition is_info_log (e : event) : Prop :=
  match e with
  | EvLog INFO _ _ => True
  | _ => False
  end.

(** A helper call or a log line. *)
Definition is_dispatch_event (e : event) : Prop :=
  match e with
  | EvAwait _ _ | EvLog _ _ _ => True
  | _ => False
  end.

(** Neither a predictor run, nor a rule evaluation, nor a sleep. *)
Definition is_delivery_event (e : event) : Prop :=
  match e with
  | EvPredict _ _ | EvEvaluate _ | EvSleep _ => False
  | _ => True
  end.

Definition is_not_sleep (e : event) : Prop :=
  match e with
  | EvSleep _ => False
  | _ => True
  end.

(** Every message delivered by [e] satisfies [P]. *)
Definition delivers (P : dict -> Prop) (e : event) : Prop :=
  match e with
  | EvDelivered _ m => P m
  | _ => True
  end.

(** What a guarded helper adds to the trace after the lines of its [try]
    block: one ERROR line if the block raised. *)
Definition error_line (template : string) (r : result unit) : list event :=
  match r with
  | Ok _ => []
  | Raise e => [EvLog ERROR template [LExn e]]
  end.

(** [m] returns [r] and adds [evs] to the trace, whatever the world. *)
Definition frame {A} (m : M A) (r : result A) (evs : list event) : Prop :=
  forall w, m w = (r, add_events evs w).

(** [m] touches the world only by writing INFO lines to the log. *)
Definition info_only {A} (m : M A) : Prop :=
  exists r evs, frame m r evs /\ Forall is_info_log evs.

(** Every event a run of [m] adds to the trace satisfies [P], whether the
    run returns or raises. *)
Definition emits {A} (P : event -> Prop) (m : M A) : Prop :=
  forall w, exists evs, trace (snd (m w)) = trace w ++ evs /\ Forall P evs.

(** The gaps between one breakpoint interval and the next. *)
Fixpoint adjacent_gaps (breakpoints : list (Q * Q * Q * Q)) : list (Q * Q) :=
  match breakpoints with
  | (_, bp_hi, _, _) :: (((next_lo, _, _, _) :: _) as rest) =>
      (bp_hi, next_lo) :: adjacent_gaps rest
  | _ => []
  end.

Definition in_breakpoint (c : Q) (bp : Q * Q * Q * Q) : Prop :=
  let '(bp_lo, bp_hi, _, _) := bp in (bp_lo <= c)%Q /\ (c <= bp_hi)%Q.

(** A row of a breakpoint table that interpolates inside 0..500. *)
Definition well_formed_breakpoint (bp : Q * Q * Q * Q) : Prop :=
  let '(bp_lo, bp_hi, aqi_lo, aqi_hi) := bp in
  (bp_lo < bp_hi)%Q /\ (0 <= aqi_lo)%Q /\ (aqi_lo <= aqi_hi)%Q /\ (aqi_hi <= 500)%Q.

(** The AQI a table gives [c] lies in the AQI range of the row [bp]. *)
Definition row_respected (table : list (Q * Q * Q * Q)) (c : Q) (bp : Q * Q * Q * Q) : Prop :=
  let '(_, _, aqi_lo, aqi_hi) := bp in
  (aqi_lo <= PollutionPredictor.aqi_of_breakpoints table c)%Q /\
  (PollutionPredictor.aqi_of_breakpoints table c <= aqi_hi)%Q.

(** The features [PollutionPredictor.predict] reads, with the default of
    each [get]. *)
Definition pollution_features : list (string * pyval) :=
  [("pm25", PInt 25); ("pm10", PInt 40); ("no2", PInt 30); ("o3", PInt 50);
   ("co", PNum 1.0); ("wind_speed", PInt 5)].

(** The features [FloodPredictor.predict] does float arithmetic on, each
    with what the operation converts to float. *)
Definition flood_operands : list (string * (Z -> Z)) :=
  [("water_level", id); ("rainfall", id); ("terrain_slope", fun z => 10 - z)%Z;
   ("soil_saturation", id); ("proximity_to_river", id)].

(** The same for [FirePredictor.predict]. *)
Definition fire_operands : list (string * (Z -> Z)) :=
  [("temperature", fun z => z - 10)%Z; ("humidity", fun z => 100 - z)%Z;
   ("wind_speed", id); ("rainfall_last_24h", fun z => 50 - z)%Z].

(** The fields [send_alert] copies from [alert_data], each with the default
    of its [alert_data.get]. *)
Definition alert_defaults : list (string * pyval) :=
  [ ("type", PStr "unknown");
    ("severity", PStr "moderate");
    ("location", PStr "Unknown");
    ("latitude", PInt 0);
    ("longitude", PInt 0);
    ("message", PStr "");
    ("human_readable", PStr "");
    ("affected_population", PInt 0);
    ("recommendations", PList []) ].

(** [alert["type"].upper()] and [alert["message"][:n]] both evaluate. *)
Definition renderable (alert : dict) : bool :=
  match alert !! "type", alert !! "message" with
  | Some (PStr _), Some (PStr _ | PList _) => true
  | _, _ => false
  end.

(** The line the handler of [background_prediction_loop] logs. *)
Definition is_loop_error (e : event) : Prop :=
  match e with
  | EvLog ERROR t _ => t = "Error in prediction loop: {}"
  | _ => False
  end.

Definition no_loop_error (e : event) : Prop := ~ is_loop_error e.

(** The [EvSaved] events: what [save_sensor_data] stored, in order. *)
Definition saved (evs : list event) : list dict :=
  omap (fun e => match e with EvSaved d => Some d | _ => None end) evs.

(** The line the handler of [websocket_live_data] logs. *)
Definition is_websocket_error (e : event) : bool :=
  match e with
  | EvLog ERROR t _ => String.eqb t "WebSocket error: {}"
  | _ => false
  end.

(** The measurements [validate_and_process] converts with [float], each
    with the default of its [get]. *)
Definition measurement_defaults : list (string * pyval) :=
  [ ("temperature", PInt 20); ("humidity", PInt 50); ("pressure", PInt 1013);
    ("wind_speed", PInt 5); ("rainfall", PInt 0); ("water_level", PInt 0);
    ("pm25", PInt 25); ("pm10", PInt 40); ("no2", PInt 30); ("o3", PInt 50);
    ("co", PNum 1.0); ("smoke_level", PInt 0); ("radiation", PInt 0) ].

(** The fields [validate_and_process] copies as they are. *)
Definition descriptive_defaults (new_id now : string) : list (string * pyval) :=
  [ ("id", PStr new_id); ("sensor_id", PNone); ("timestamp", PStr now);
    ("location", PStr "Unknown"); ("latitude", PInt 0); ("longitude", PInt 0);
    ("sensor_type", PNone); ("wind_direction", PStr "N");
    ("water_quality", PStr "normal") ].

(** The "status" the validation rules leave. *)
Definition reading_status (temperature humidity : Q) : string :=
  if Qlt_le_dec humidity 0 then "warning_invalid_humidity"
  else if Qlt_le_dec 100 humidity then "warning_invalid_humidity"
  else if Qlt_le_dec temperature (-50) then "warning_invalid_temp"
  else if Qlt_le_dec 70 temperature then "warning_invalid_temp"
  else "processed".

(* ===================================================================== *)
(** ** Sample inputs *)
(* ===================================================================== *)

Definition location_a : dict := {[ "location" := PStr "A" ]}.
Definition location_b : dict := {[ "location" := PStr "B" ]}.
Definition location_c : dict := {[ "location" := PStr "C" ]}.

(** Alert rules that raise on location "A" and trigger nothing elsewhere. *)
Definition rules_failing_at_a
    (location_data flood_risk fire_risk pollution_risk : dict) : result (list dict) :=
  if py_eq_str (dict_get location_data "location" PNone) "A"
  then Raise (RuntimeError "rules")
  else Ok [].

(** An environment in which the email block has outcome [email], the
    clients in [dead] cannot be written to, no other task touches the
    registry, and the database holds [sensor_data]. *)
Definition sample_env (email : option exn) (dead : client -> bool)
    (sensor_data : list dict) : Env := {|
  uuid4_str := fun n => "uuid-" +:+ pretty n;
  utcnow_isoformat := fun _ => "2024-05-01T12:00:00";
  email_body := fun _ => email;
  webhook_body := fun _ => None;
  in_app_body := fun _ => None;
  send_json_outcome :=
    fun c _ => if dead c then Some (RuntimeError "closed") else None;
  registry_resized := fun _ _ => false;
  get_latest_sensor_data := fun _ => Ok sensor_data;
  save_sensor_data := fun _ => None;
  predict := fun _ _ _ => ∅;
  alert_rules_evaluate := rules_failing_at_a;
  fetch_weather := fun _ => Ok ∅;
  fetch_air_quality := fun _ => Ok ∅;
  fetch_water_levels := fun _ => Ok ∅;
  simulate_iot_data := fun _ => ∅
|}.

(** As [sample_env], with a client connecting while the send to a client
    in [joined_during] is awaited. *)
Definition busy_env (dead joined_during : client -> bool) : Env := {|
  uuid4_str := fun n => "uuid-" +:+ pretty n;
  utcnow_isoformat := fun _ => "2024-05-01T12:00:00";
  email_body := fun _ => None;
  webhook_body := fun _ => None;
  in_app_body := fun _ => None;
  send_json_outcome :=
    fun c _ => if dead c then Some (RuntimeError "closed") else None;
  registry_resized := fun c _ => joined_during c;
  get_latest_sensor_data := fun _ => Ok [];
  save_sensor_data := fun _ => None;
  predict := fun _ _ _ => ∅;
  alert_rules_evaluate := rules_failing_at_a;
  fetch_weather := fun _ => Ok ∅;
  fetch_air_quality := fun _ => Ok ∅;
  fetch_water_levels := fun _ => Ok ∅;
  simulate_iot_data := fun _ => ∅
|}.

Definition nobody : client -> bool := fun _ => false.

Definition third_client : client -> bool := fun c => Nat.eqb c 3.

Definition smtp_down : exn := RuntimeError "smtp".

Definition moderate_alert : dict := {[ "severity" := PStr "moderate" ]}.
Definition critical_alert : dict := {[ "severity" := PStr "critical" ]}.
Definition notice_alert : dict := {[ "severity" := PStr "notice" ]}.

(** A world with three connected clients. *)
Definition three_clients : World := mkWorld ∅ {[ 1%nat; 2%nat; 3%nat ]} 0 [].

Definition second_dead : client -> bool := fun c => Nat.eqb c 2.

(** A world with one connected client. *)
Definition one_client : World := mkWorld ∅ {[ 7%nat ]} 0 [].

(** The message [broadcast_alert] builds for [moderate_alert] at the sample
    clock. *)
Definition alert_envelope : dict :=
  list_to_map [("type", PStr "alert"); ("data", PDict moderate_alert);
               ("timestamp", PStr "2024-05-01T12:00:00")].

(** A PM2.5 reading between two rows of the breakpoint table. *)
Definition clean_air_in_gap : dict := {[ "pm25" := PNum 12.05 ]}.

(** A PM2.5 value that is not a number; a wind speed too large for a
    float. *)
Definition bad_pm25 : dict := {[ "pm25" := PStr "n/a" ]}.

Definition wind_beyond_float : dict := {[ "wind_speed" := PInt (10 ^ 400) ]}.

(** A hot, dry day over open water. *)
Definition hot_lake : dict :=
  {[ "vegetation_type" := PStr "water"; "temperature" := PInt 48; "humidity" := PInt 2 ]}.

(** A water level that is not a number; a terrain slope too large for
    a float. *)
Definition unreadable_gauge : dict := {[ "water_level" := PStr "n/a" ]}.

Definition slope_beyond_float : dict := {[ "terrain_slope" := PInt (- 10 ^ 400) ]}.

Definition untyped_critical_alert : dict :=
  {[ "severity" := PStr "critical"; "type" := PInt 3 ]}.

Definition flood_notice : dict := {[ "type" := PStr "flood" ]}.

(** Alert rules that trigger one critical alert at every location. *)
Definition rules_always_alarm
    (location_data flood_risk fire_risk pollution_risk : dict) : result (list dict) :=
  Ok [critical_alert].

(** An environment in which every call succeeds, the rules always trigger
    [critical_alert], and the database holds [sensor_data]. *)
Definition alarm_env (sensor_data : list dict) : Env := {|
  uuid4_str := fun n => "uuid-" +:+ pretty n;
  utcnow_isoformat := fun _ => "2024-05-01T12:00:00";
  email_body := fun _ => None;
  webhook_body := fun _ => None;
  in_app_body := fun _ => None;
  send_json_outcome := fun _ _ => None;
  registry_resized := fun _ _ => false;
  get_latest_sensor_data := fun _ => Ok sensor_data;
  save_sensor_data := fun _ => None;
  predict := fun _ _ _ => ∅;
  alert_rules_evaluate := rules_always_alarm;
  fetch_weather := fun _ => Ok ∅;
  fetch_air_quality := fun _ => Ok ∅;
  fetch_water_levels := fun _ => Ok ∅;
  simulate_iot_data := fun _ => ∅
|}.

(** An environment whose database cannot be read. *)
Definition offline_env : Env := {|
  uuid4_str := fun n => "uuid-" +:+ pretty n;
  utcnow_isoformat := fun _ => "2024-05-01T12:00:00";
  email_body := fun _ => None;
  webhook_body := fun _ => None;
  in_app_body := fun _ => None;
  send_json_outcome := fun _ _ => None;
  registry_resized := fun _ _ => false;
  get_latest_sensor_data := fun _ => Raise (RuntimeError "database");
  save_sensor_data := fun _ => None;
  predict := fun _ _ _ => ∅;
  alert_rules_evaluate := rules_always_alarm;
  fetch_weather := fun _ => Ok ∅;
  fetch_air_quality := fun _ => Ok ∅;
  fetch_water_levels := fun _ => Ok ∅;
  simulate_iot_data := fun _ => ∅
|}.

(** The message [broadcast_alert] builds for [critical_alert] at the sample
    clock. *)
Definition critical_envelope : dict :=
  list_to_map [("type", PStr "alert"); ("data", PDict critical_alert);
               ("timestamp", PStr "2024-05-01T12:00:00")].

(** An environment in which the weather service and the IoT simulation
    both report a temperature. *)
Definition reporting_env : Env := {|
  uuid4_str := fun n => "uuid-" +:+ pretty n;
  utcnow_isoformat := fun _ => "2024-05-01T12:00:00";
  email_body := fun _ => None;
  webhook_body := fun _ => None;
  in_app_body := fun _ => None;
  send_json_outcome := fun _ _ => None;
  registry_resized := fun _ _ => false;
  get_latest_sensor_data := fun _ => Ok [];
  save_sensor_data := fun _ => None;
  predict := fun _ _ _ => ∅;
  alert_rules_evaluate := rules_always_alarm;
  fetch_weather := fun _ => Ok {[ "temperature" := PInt 10 ]};
  fetch_air_quality := fun _ => Ok ∅;
  fetch_water_levels := fun _ => Ok ∅;
  simulate_iot_data := fun _ => {[ "temperature" := PInt 30 ]}
|}.

(** The message a turn of [background_data_collection] builds in
    [reporting_env]. *)
Definition temperature_update : dict :=
  list_to_map [("type", PStr "sensor_update");
               ("data", PDict {[ "temperature" := PInt 30 ]});
               ("timestamp", PStr "2024-05-01T12:00:00")].

(** A parser for the decimal strings of the samples. *)
Definition sample_float (s : string) : option Q :=
  if String.eqb s "85.5" then Some 85.5%Q
  else if String.eqb s "120" then Some 120%Q
  else None.

Definition scorching_and_soaked : dict :=
  {[ "temperature" := PStr "85.5"; "humidity" := PStr "120" ]}.

Definition broken_thermometer : dict := {[ "temperature" := PStr "n/a" ]}.

Definition pressure_beyond_float : dict := {[ "pressure" := PInt (10 ^ 400) ]}.

(* ===================================================================== *)
(** * Proofs *)
(* ===================================================================== *)

(** ** Status bands of the predictors *)

Ltac q_bands :=
  repeat (match goal with
          | |- context [Qlt_le_dec ?a ?b] => destruct (Qlt_le_dec a b)
          end);
  try reflexivity; exfalso; cbv [Qdiv Qinv Qnum Qden] in *; lra.

Lemma flood_status_bands (s : Q) :
  ((80 < s)%Q -> FloodPredictor._get_risk_status (s / 100) = "🔴 CRITICAL") /\
  ((60 < s)%Q -> (s <= 80)%Q -> FloodPredictor._get_risk_status (s / 100) = "🟠 HIGH") /\
  ((40 < s)%Q -> (s <= 60)%Q -> FloodPredictor._get_risk_status (s / 100) = "🟡 MODERATE") /\
  ((20 < s)%Q -> (s <= 40)%Q -> FloodPredictor._get_risk_status (s / 100) = "🟢 LOW") /\
  ((s <= 20)%Q -> FloodPredictor._get_risk_status (s / 100) = "⚪ MINIMAL").
Proof.
  unfold FloodPredictor._get_risk_status.
  repeat split; intros; q_bands.
Qed.

Lemma fire_status_bands (s : Q) :
  ((80 < s)%Q -> FirePredictor._get_risk_status (s / 100) = "🔴 EXTREME") /\
  ((60 < s)%Q -> (s <= 80)%Q -> FirePredictor._get_risk_status (s / 100) = "🟠 VERY HIGH") /\
  ((40 < s)%Q -> (s <= 60)%Q -> FirePredictor._get_risk_status (s / 100) = "🟡 HIGH") /\
  ((20 < s)%Q -> (s <= 40)%Q -> FirePredictor._get_risk_status (s / 100) = "🟢 MODERATE") /\
  ((s <= 20)%Q -> FirePredictor._get_risk_status (s / 100) = "⚪ LOW").
Proof.
  unfold FirePredictor._get_risk_status.
  repeat split; intros; q_bands.
Qed.

(** C5 (as amended).  [_get_risk_status] is a total function of the score
    with strict thresholds: on the 0..100 scale, a score above 80 is in the
    top band (CRITICAL for flood, EXTREME for fire), above 60 and at most 80
    in the second (HIGH / VERY HIGH), above 40 and at most 60 in the third
    (MODERATE / HIGH), above 20 and at most 40 in the fourth (LOW /
    MODERATE), and at most 20 in the last (MINIMAL / LOW).  So each of the
    boundary values 80, 60, 40 and 20 falls in the lower band. *)
Theorem risk_status_bands_are_strict (s : Q) :
  ((80 < s)%Q ->
     FloodPredictor._get_risk_status (s / 100) = "🔴 CRITICAL" /\
     FirePredictor._get_risk_status (s / 100) = "🔴 EXTREME") /\
  ((60 < s)%Q -> (s <= 80)%Q ->
     FloodPredictor._get_risk_status (s / 100) = "🟠 HIGH" /\
     FirePredictor._get_risk_status (s / 100) = "🟠 VERY HIGH") /\
  ((40 < s)%Q -> (s <= 60)%Q ->
     FloodPredictor._get_risk_status (s / 100) = "🟡 MODERATE" /\
     FirePredictor._get_risk_status (s / 100) = "🟡 HIGH") /\
  ((20 < s)%Q -> (s <= 40)%Q ->
     FloodPredictor._get_risk_status (s / 100) = "🟢 LOW" /\
     FirePredictor._get_risk_status (s / 100) = "🟢 MODERATE") /\
  ((s <= 20)%Q ->
     FloodPredictor._get_risk_status (s / 100) = "⚪ MINIMAL" /\
     FirePredictor._get_risk_status (s / 100) = "⚪ LOW").
Proof.
  destruct (flood_status_bands s) as (F1 & F2 & F3 & F4 & F5).
  destruct (fire_status_bands s) as (G1 & G2 & G3 & G4 & G5).
  repeat split; auto.
Qed.

Lemma risk_status_bands_are_strict_witness :
  FloodPredictor._get_risk_status (85 / 100) = "🔴 CRITICAL" /\
  FirePredictor._get_risk_status (85 / 100) = "🔴 EXTREME".
Proof.
  apply (proj1 (risk_status_bands_are_strict 85)). reflexivity.
Defined.

(** C5 fails as stated: a score of exactly 80 (0.8 on the 0..1 scale of the
    predictors) is HIGH for flood and VERY HIGH for fire, not the top band,
    and likewise 60, 40 and 20 fall in the band below. *)
Lemma risk_status_boundary_is_lower_band :
  FloodPredictor._get_risk_status (80 / 100) = "🟠 HIGH" /\
  FloodPredictor._get_risk_status (80 / 100) <> "🔴 CRITICAL" /\
  FloodPredictor._get_risk_status (60 / 100) = "🟡 MODERATE" /\
  FloodPredictor._get_risk_status (40 / 100) = "🟢 LOW" /\
  FloodPredictor._get_risk_status (20 / 100) = "⚪ MINIMAL" /\
  FirePredictor._get_risk_status (80 / 100) = "🟠 VERY HIGH" /\
  FirePredictor._get_risk_status (80 / 100) <> "🔴 EXTREME" /\
  FirePredictor._get_risk_status (60 / 100) = "🟡 HIGH" /\
  FirePredictor._get_risk_status (40 / 100) = "🟢 MODERATE" /\
  FirePredictor._get_risk_status (20 / 100) = "⚪ LOW".
Proof. repeat split; try reflexivity; vm_compute; discriminate. Qed.

(** ** The PM2.5 AQI helper *)

Lemma aqi_outside_all_breakpoints (breakpoints : list (Q * Q * Q * Q)) (c : Q) :
  Forall (fun bp => ~ in_breakpoint c bp) breakpoints ->
  PollutionPredictor.aqi_of_breakpoints breakpoints c = 500.0%Q.
Proof.
  induction 1 as [|[[[bp_lo bp_hi] aqi_lo] aqi_hi] rest Hout _ IH]; [reflexivity|].
  cbn [PollutionPredictor.aqi_of_breakpoints].
  destruct (Qle_bool bp_lo c && Qle_bool c bp_hi) eqn:Hin; [|exact IH].
  exfalso. apply Hout. apply andb_true_iff in Hin as [Hlo Hhi].
  split; by apply Qle_bool_iff.
Qed.

Lemma pm25_gap_outside (c : Q) (gap : Q * Q) :
  In gap (adjacent_gaps PollutionPredictor.pm25_breakpoints) ->
  (fst gap < c)%Q -> (c < snd gap)%Q ->
  Forall (fun bp => ~ in_breakpoint c bp) PollutionPredictor.pm25_breakpoints.
Proof.
  cbn [adjacent_gaps PollutionPredictor.pm25_breakpoints In].
  intros Hgap Hlo Hhi.
  repeat (destruct Hgap as [<-|Hgap]; cbn [fst snd] in Hlo, Hhi;
          [repeat constructor; intros [H1 H2]; lra|]).
  destruct Hgap.
Qed.

Lemma pm25_negative_outside (c : Q) :
  (c < 0)%Q ->
  Forall (fun bp => ~ in_breakpoint c bp) PollutionPredictor.pm25_breakpoints.
Proof. intros Hneg. repeat constructor; intros [H1 H2]; lra. Qed.

(** C10.  [_calculate_pm25_aqi] returns 500.0 on every input that lies in
    no breakpoint interval: on every value strictly between one interval
    and the next (for instance strictly between 12 and 12.1) and on every
    negative value; so it is not monotone: 12.05 gets 500.0 while the larger
    12.1 gets 51. *)
Theorem pm25_aqi_outside_breakpoints :
  (forall pm25 : Q,
     Forall (fun bp => ~ in_breakpoint pm25 bp) PollutionPredictor.pm25_breakpoints ->
     PollutionPredictor._calculate_pm25_aqi pm25 = 500.0%Q) /\
  (forall (pm25 : Q) (gap : Q * Q),
     In gap (adjacent_gaps PollutionPredictor.pm25_breakpoints) ->
     (fst gap < pm25)%Q -> (pm25 < snd gap)%Q ->
     PollutionPredictor._calculate_pm25_aqi pm25 = 500.0%Q) /\
  (forall pm25 : Q,
     (12 < pm25)%Q -> (pm25 < 12.1)%Q ->
     PollutionPredictor._calculate_pm25_aqi pm25 = 500.0%Q) /\
  (forall pm25 : Q,
     (pm25 < 0)%Q -> PollutionPredictor._calculate_pm25_aqi pm25 = 500.0%Q) /\
  (exists x y : Q,
     (x <= y)%Q /\
     (PollutionPredictor._calculate_pm25_aqi y
        < PollutionPredictor._calculate_pm25_aqi x)%Q).
Proof.
  unfold PollutionPredictor._calculate_pm25_aqi.
  split; [|split; [|split; [|split]]].
  - intros pm25. apply aqi_outside_all_breakpoints.
  - intros pm25 gap Hgap Hlo Hhi.
    eapply aqi_outside_all_breakpoints, pm25_gap_outside; eauto.
  - intros pm25 Hlo Hhi.
    eapply aqi_outside_all_breakpoints, (pm25_gap_outside pm25 (12, 12.1)%Q); [|done..].
    by left.
  - intros pm25 Hneg. by apply aqi_outside_all_breakpoints, pm25_negative_outside.
  - exists 12.05%Q, 12.1%Q. split; [apply Qlt_le_weak|]; reflexivity.
Qed.

Lemma pm25_aqi_outside_breakpoints_witness :
  PollutionPredictor._calculate_pm25_aqi 12.05 = 500.0%Q /\
  PollutionPredictor._calculate_pm25_aqi (-1) = 500.0%Q.
Proof.
  destruct pm25_aqi_outside_breakpoints as (_ & _ & Hgap & Hneg & _).
  split; [apply Hgap|apply Hneg]; reflexivity.
Defined.

(* ===================================================================== *)
(** ** Runs in the monad *)
(* ===================================================================== *)

Lemma add_events_nil w : add_events [] w = w.
Proof. destruct w; unfold add_events; simpl. by rewrite app_nil_r. Qed.

Lemma add_events_app evs1 evs2 w :
  add_events evs2 (add_events evs1 w) = add_events (evs1 ++ evs2)%list w.
Proof. unfold add_events; simpl. by rewrite app_assoc. Qed.

Lemma emit_w_add e w : emit_w e w = add_events [e] w.
Proof. reflexivity. Qed.

Lemma info_only_ret {A} (a : A) : info_only (ret a).
Proof.
  exists (Ok a), []. split; [|constructor].
  intros w. unfold ret. by rewrite add_events_nil.
Qed.

Lemma info_only_raise {A} e : info_only (@raise A e).
Proof.
  exists (Raise e), []. split; [|constructor].
  intros w. unfold raise. by rewrite add_events_nil.
Qed.

Lemma info_only_log t args : info_only (log INFO t args).
Proof. exists (Ok tt), [EvLog INFO t args]. split; [done|]. by repeat constructor. Qed.

Lemma info_only_bind {A B} (m : M A) (k : A -> M B) :
  info_only m -> (forall a, info_only (k a)) -> info_only (bind m k).
Proof.
  intros (r & evs & Hm & Hevs) Hk. destruct r as [a|e].
  - destruct (Hk a) as (r' & evs' & Hka & Hevs').
    exists r', (evs ++ evs')%list. split; [|by apply Forall_app].
    intros w. unfold bind. by rewrite Hm, Hka, add_events_app.
  - exists (Raise e), evs. split; [|done]. intros w. unfold bind. by rewrite Hm.
Qed.

Lemma info_only_getitem d k : info_only (getitem d k).
Proof.
  unfold getitem. destruct (d !! k); [apply info_only_ret|apply info_only_raise].
Qed.

Lemma info_only_py_upper v : info_only (py_upper v).
Proof. destruct v; first [apply info_only_ret|apply info_only_raise]. Qed.

Lemma info_only_py_slice_to v n : info_only (py_slice_to v n).
Proof. destruct v; first [apply info_only_ret|apply info_only_raise]. Qed.

Lemma guarded_helper c (body : M unit) t alert :
  info_only body ->
  exists infos,
    Forall is_info_log infos /\
    frame (bind (emit (EvAwait c alert))
             (fun _ => try_except body (fun e => log ERROR t [LExn e])))
          (Ok tt)
          (EvAwait c alert :: infos ++ error_line t (fst (body empty_world))).
Proof.
  intros (r & evs & Hb & Hevs). exists evs. split; [done|].
  rewrite (Hb empty_world). cbn [fst].
  intros w. unfold bind, emit, try_except. rewrite Hb.
  destruct r as [[]|e]; cbn [error_line].
  - by rewrite emit_w_add, add_events_app, app_nil_r.
  - unfold log, emit. by rewrite !emit_w_add, !add_events_app.
Qed.

Section Helpers.
Context {E : Env}.

Ltac info_only_steps :=
repeat first [ apply info_only_bind; [|intros ?]
             | apply info_only_getitem
             | apply info_only_py_upper
             | apply info_only_py_slice_to
             | apply info_only_log ].

Lemma info_only_push_body alert : info_only (AlertEngine.push_body alert).
Proof. unfold AlertEngine.push_body. info_only_steps. Qed.

Lemma info_only_sms_body alert : info_only (AlertEngine.sms_body alert).
Proof. unfold AlertEngine.sms_body. info_only_steps. Qed.

Lemma info_only_oracle_body f alert : info_only (AlertEngine.oracle_body f alert).
Proof.
unfold AlertEngine.oracle_body.
destruct (f alert); [apply info_only_raise|apply info_only_ret].
Qed.

Lemma info_only_try_block c alert : info_only (try_block c alert).
Proof.
destruct c; cbn [try_block];
  auto using info_only_push_body, info_only_sms_body, info_only_oracle_body.
Qed.

Lemma run_helper_frame c alert :
exists infos t,
  Forall is_info_log infos /\
  frame (run_helper c alert) (Ok tt)
        (EvAwait c alert :: infos ++ error_line t (fst (try_block c alert empty_world))).
Proof.
destruct c; cbn [run_helper try_block];
  (edestruct guarded_helper as (infos & Hi & Hf);
   [|exists infos; eexists; split; [exact Hi|exact Hf]]);
  auto using info_only_push_body, info_only_sms_body, info_only_oracle_body.
Qed.

Lemma run_helper_eq c alert w :
run_helper c alert w = (Ok tt, add_events (helper_events c alert) w).
Proof.
destruct (run_helper_frame c alert) as (infos & t & _ & Hf).
unfold helper_events. rewrite (Hf empty_world), (Hf w). reflexivity.
Qed.

Lemma helper_events_shape c alert :
exists infos t,
  Forall is_info_log infos /\
  helper_events c alert =
    EvAwait c alert :: infos ++ error_line t (fst (try_block c alert empty_world)).
Proof.
destruct (run_helper_frame c alert) as (infos & t & Hi & Hf).
exists infos, t. split; [done|].
unfold helper_events. by rewrite (Hf empty_world).
Qed.
End Helpers.

Lemma bind_run {A B} (m : M A) (k : A -> M B) w a w' r :
  m w = (Ok a, w') -> k a w' = r -> bind m k w = r.
Proof. intros Hm Hk. unfold bind. by rewrite Hm. Qed.

Lemma getitem_run (d : dict) k v w : d !! k = Some v -> getitem d k w = (Ok v, w).
Proof. intros Hd. unfold getitem. by rewrite Hd. Qed.

Lemma has_sent_append alert name : has_sent alert -> has_sent (append_sent alert name).
Proof.
  intros [l Hl]. unfold append_sent. rewrite Hl.
  eexists. apply lookup_insert_eq.
Qed.

Lemma append_sent_other alert name k :
  k <> "channels_sent" -> append_sent alert name !! k = alert !! k.
Proof.
  intros Hk. unfold append_sent.
  destruct (alert !! "channels_sent") as [[]|]; try done.
  by rewrite lookup_insert_ne.
Qed.

Section ChannelSteps.
Context {E : Env}.

Lemma channels_sent_append_run alert name w :
has_sent alert ->
AlertEngine.channels_sent_append alert name w = (Ok (append_sent alert name), w).
Proof.
intros [l Hl]. unfold AlertEngine.channels_sent_append, append_sent.
eapply bind_run; [by apply getitem_run|]. by rewrite Hl.
Qed.

(** One channel of [send_alert]: the helper, then the [append]. *)
Lemma channel_step {B} c alert (k : dict -> M B) w :
has_sent alert ->
bind (run_helper c alert)
     (fun _ => bind (AlertEngine.channels_sent_append alert (AlertEngine.channel_name c)) k) w
= k (append_sent alert (AlertEngine.channel_name c)) (add_events (helper_events c alert) w).
Proof.
intros Hs. eapply bind_run; [apply run_helper_eq|].
eapply bind_run; [by apply channels_sent_append_run|]. done.
Qed.

Lemma channel_last c alert w :
has_sent alert ->
bind (run_helper c alert)
     (fun _ => AlertEngine.channels_sent_append alert (AlertEngine.channel_name c)) w
= (Ok (append_sent alert (AlertEngine.channel_name c)),
   add_events (helper_events c alert) w).
Proof.
intros Hs. eapply bind_run; [apply run_helper_eq|].
by apply channels_sent_append_run.
Qed.

Lemma dispatch_other cs alert k :
k <> "channels_sent" -> dispatch_alert cs alert !! k = alert !! k.
Proof.
intros Hk. revert alert. induction cs as [|c cs IH]; intros alert; [done|].
cbn [dispatch_alert]. by rewrite IH, append_sent_other.
Qed.

Lemma dispatch_sent cs alert l :
alert !! "channels_sent" = Some (PList l) ->
dispatch_alert cs alert =
  <["channels_sent" := PList (l ++ map (fun c => PStr (AlertEngine.channel_name c)) cs)]> alert.
Proof.
revert alert l. induction cs as [|c cs IH]; intros alert l Hl; cbn [dispatch_alert map].
- rewrite app_nil_r. symmetry. by apply insert_id.
- erewrite IH.
  2:{ unfold append_sent. rewrite Hl. apply lookup_insert_eq. }
  unfold append_sent. rewrite Hl, insert_insert_eq.
  by rewrite <- app_assoc.
Qed.
End ChannelSteps.

Lemma try_except_ok {A} (body : M A) h w a w' :
  body w = (Ok a, w') -> try_except body h w = (Ok a, w').
Proof. intros Hb. unfold try_except. by rewrite Hb. Qed.

Lemma bind_raise {A B} (m : M A) (k : A -> M B) w e w' :
  m w = (Raise e, w') -> bind m k w = (Raise e, w').
Proof. intros Hm. unfold bind. by rewrite Hm. Qed.

Lemma try_except_raise {A} (body : M A) h w e w' :
  body w = (Raise e, w') -> try_except body h w = h e w'.
Proof. intros Hb. unfold try_except. by rewrite Hb. Qed.

Lemma env_call_ok {A} (f : nat -> result A) w a :
  f (ticks w) = Ok a ->
  env_call f w = (Ok a, mkWorld (alerts w) (connected_clients w) (S (ticks w)) (trace w)).
Proof. intros Hf. unfold env_call, bind, env_read. by rewrite Hf. Qed.

Lemma env_call_raise {A} (f : nat -> result A) w e :
  f (ticks w) = Raise e ->
  env_call f w = (Raise e, mkWorld (alerts w) (connected_clients w) (S (ticks w)) (trace w)).
Proof. intros Hf. unfold env_call, bind, env_read. by rewrite Hf. Qed.

Section SendAlertRun.
Context {E : Env}.

Ltac lookup_alert :=
unfold AlertEngine.new_alert, list_to_map; cbn [fold_right fst snd];
repeat (rewrite lookup_insert_ne by done); rewrite ?lookup_insert_eq.

Lemma new_alert_severity i t d :
AlertEngine.new_alert i t d !! "severity" = Some (dict_get d "severity" (PStr "moderate")).
Proof. by lookup_alert. Qed.
Lemma new_alert_type i t d :
AlertEngine.new_alert i t d !! "type" = Some (dict_get d "type" (PStr "unknown")).
Proof. by lookup_alert. Qed.
Lemma new_alert_id i t d : AlertEngine.new_alert i t d !! "id" = Some (PStr i).
Proof. by lookup_alert. Qed.
Lemma new_alert_status i t d : AlertEngine.new_alert i t d !! "status" = Some (PStr "active").
Proof. by lookup_alert. Qed.
Lemma new_alert_sent i t d : AlertEngine.new_alert i t d !! "channels_sent" = Some (PList []).
Proof. by lookup_alert. Qed.

Lemma send_alert_run alert_data w :
let alert_id := uuid4_str (ticks w) in
let alert := AlertEngine.new_alert alert_id (utcnow_isoformat (S (ticks w))) alert_data in
let cs := selected_channels (dict_get alert_data "severity" (PStr "moderate")) in
AlertEngine.send_alert alert_data w =
  (Ok (dispatch_alert cs alert),
   mkWorld (<[alert_id := dispatch_alert cs alert]> (alerts w))
           (connected_clients w) (S (S (ticks w)))
           (trace w ++ dispatch_trace cs alert ++ [created_line alert_data])).
Proof.
intros alert_id alert cs.
assert (Hsent : has_sent alert) by (eexists; apply new_alert_sent).
unfold AlertEngine.send_alert. apply try_except_ok.
eapply bind_run; [reflexivity|]. eapply bind_run; [reflexivity|].
cbn [ticks]. fold alert_id. fold alert.
eapply bind_run; [apply getitem_run, new_alert_severity|].
assert (Hrest : forall final evs,
  final = dispatch_alert cs alert -> evs = dispatch_trace cs alert ->
  bind (AlertEngine.store_alert final)
    (fun _ => bind (getitem final "type")
       (fun ty => bind (getitem final "severity")
          (fun sev => bind (log INFO "⚠️ Alert created: {} - {}" [LVal ty; LVal sev])
             (fun _ => ret final))))
    (add_events evs (mkWorld (alerts w) (connected_clients w) (S (S (ticks w))) (trace w)))
  = (Ok (dispatch_alert cs alert),
     mkWorld (<[alert_id := dispatch_alert cs alert]> (alerts w))
             (connected_clients w) (S (S (ticks w)))
             (trace w ++ dispatch_trace cs alert ++ [created_line alert_data]))).
{ intros final evs -> ->.
  eapply bind_run.
  { unfold AlertEngine.store_alert. eapply bind_run.
    - apply getitem_run. rewrite dispatch_other by done. apply new_alert_id.
    - reflexivity. }
  eapply bind_run; [apply getitem_run; rewrite dispatch_other by done; apply new_alert_type|].
  eapply bind_run; [apply getitem_run; rewrite dispatch_other by done; apply new_alert_severity|].
  eapply bind_run; [reflexivity|].
  unfold ret, emit_w, add_events, created_line; cbn [alerts connected_clients ticks trace].
  by rewrite <- app_assoc. }
unfold cs in *. unfold selected_channels in *.
destruct (py_in_strs _ _); [|destruct (py_eq_str _ _)].
- eapply bind_run; [|apply Hrest; reflexivity].
  change AlertEngine._send_push_notification with (run_helper Push).
  change AlertEngine._send_sms with (run_helper Sms).
  change AlertEngine._send_email with (run_helper Email).
  change AlertEngine._send_webhook with (run_helper Webhook).
  rewrite (channel_step Push) by done.
  rewrite (channel_step Sms) by auto using has_sent_append.
  rewrite (channel_step Email) by auto using has_sent_append.
  rewrite (channel_last Webhook) by auto using has_sent_append.
  rewrite !add_events_app. cbn [dispatch_alert dispatch_trace].
  rewrite ?app_nil_r, <- ?app_assoc; reflexivity.
- eapply bind_run; [|apply Hrest; reflexivity].
  change AlertEngine._send_push_notification with (run_helper Push).
  change AlertEngine._send_email with (run_helper Email).
  rewrite (channel_step Push) by done.
  rewrite (channel_last Email) by auto using has_sent_append.
  rewrite !add_events_app. cbn [dispatch_alert dispatch_trace].
  rewrite ?app_nil_r, <- ?app_assoc; reflexivity.
- eapply bind_run; [|apply Hrest; reflexivity].
  change AlertEngine._send_in_app_notification with (run_helper InApp).
  rewrite (channel_last InApp) by done.
  cbn [dispatch_alert dispatch_trace].
  rewrite ?app_nil_r; reflexivity.
Qed.
End SendAlertRun.

Lemma run_events_eq {A} (m : M A) w r a c t evs :
  m w = (r, mkWorld a c t (trace w ++ evs)) -> run_events m w = evs.
Proof.
  intros Hm. unfold run_events. rewrite Hm. cbn [snd trace].
  by rewrite drop_app_length.
Qed.

Lemma attempted_app evs1 evs2 : attempted (evs1 ++ evs2) = attempted evs1 ++ attempted evs2.
Proof. apply omap_app. Qed.

Lemma awaited_app evs1 evs2 : awaited (evs1 ++ evs2) = awaited evs1 ++ awaited evs2.
Proof. apply omap_app. Qed.

Lemma attempted_awaited evs : attempted evs = map fst (awaited evs).
Proof.
  unfold attempted, awaited.
  induction evs as [|e evs IH]; [done|].
  destruct e; cbn; by rewrite ?IH.
Qed.

Lemma awaited_infos infos : Forall is_info_log infos -> awaited infos = [].
Proof.
  induction 1 as [|e evs He _ IH]; [done|].
  destruct e; try done.
Qed.

Lemma errors_infos infos : Forall is_info_log infos -> List.filter is_error_log infos = [].
Proof.
  induction 1 as [|e evs He _ IH]; [done|].
  destruct e as [[] ? ?| | | | | | |]; try done.
Qed.

Lemma awaited_error_line t r : awaited (error_line t r) = [].
Proof. by destruct r. Qed.

Section DispatchTrace.
Context {E : Env}.

Lemma awaited_helper c alert : awaited (helper_events c alert) = [(c, alert)].
Proof.
destruct (helper_events_shape c alert) as (infos & t & Hi & ->).
change (EvAwait c alert :: ?l) with ([EvAwait c alert] ++ l).
rewrite !awaited_app, (awaited_infos infos), awaited_error_line by done. reflexivity.
Qed.

Lemma errors_helper c alert :
length (List.filter is_error_log (helper_events c alert)) =
if channel_fails c alert then 1 else 0.
Proof.
destruct (helper_events_shape c alert) as (infos & t & Hi & ->).
cbn [List.filter is_error_log]. rewrite List.filter_app, errors_infos by done.
unfold channel_fails. by destruct (fst (try_block c alert empty_world)).
Qed.

Lemma attempted_dispatch cs alert : attempted (dispatch_trace cs alert) = cs.
Proof.
revert alert. induction cs as [|c cs IH]; intros alert; [done|].
cbn [dispatch_trace]. rewrite attempted_app, IH, attempted_awaited, awaited_helper. done.
Qed.

Lemma errors_dispatch cs alert :
length (List.filter is_error_log (dispatch_trace cs alert)) =
length (failed_channels (awaited (dispatch_trace cs alert))).
Proof.
revert alert. induction cs as [|c cs IH]; intros alert; [done|].
cbn [dispatch_trace]. unfold failed_channels in *.
rewrite List.filter_app, awaited_app, List.filter_app, map_app, !length_app, IH.
f_equal. rewrite errors_helper, awaited_helper. cbn.
by destruct (channel_fails c alert).
Qed.
End DispatchTrace.

Lemma py_eq_str_false v s : v <> PStr s -> py_eq_str v s = false.
Proof.
  intros Hv. destruct v; try done. cbn.
  apply String.eqb_neq. congruence.
Qed.

Section SendAlertClaims.
Context {E : Env}.

Lemma send_alert_events alert_data w :
run_events (AlertEngine.send_alert alert_data) w =
  dispatch_trace (selected_channels (dict_get alert_data "severity" (PStr "moderate")))
    (AlertEngine.new_alert (uuid4_str (ticks w)) (utcnow_isoformat (S (ticks w))) alert_data)
  ++ [created_line alert_data].
Proof. eapply run_events_eq, send_alert_run. Qed.

Lemma channels_attempted_eq alert_data w :
channels_attempted alert_data w =
  selected_channels (dict_get alert_data "severity" (PStr "moderate")).
Proof.
unfold channels_attempted. rewrite send_alert_events, attempted_app, attempted_dispatch.
apply app_nil_r.
Qed.

Lemma final_alert_sent cs i t d :
dispatch_alert cs (AlertEngine.new_alert i t d) !! "channels_sent" = Some (sent_names cs).
Proof.
erewrite dispatch_sent by apply new_alert_sent. apply lookup_insert_eq.
Qed.

(** C2.  The channels one [send_alert] attempts are fixed by the severity
  of the alert: "critical" and "high" attempt push, sms, email and
  webhook, "moderate" attempts push and email, "low" attempts in-app
  only; [channels_sent] of the returned alert lists exactly the attempted
  channels. *)
Theorem send_alert_channels_by_severity (alert_data : dict) (severity : string) (w : World) :
alert_data !! "severity" = Some (PStr severity) ->
exists alert w',
  AlertEngine.send_alert alert_data w = (Ok alert, w') /\
  alert !! "channels_sent" = Some (sent_names (channels_attempted alert_data w)) /\
  (severity = "critical" \/ severity = "high" ->
     channels_attempted alert_data w = [Push; Sms; Email; Webhook]) /\
  (severity = "moderate" -> channels_attempted alert_data w = [Push; Email]) /\
  (severity = "low" -> channels_attempted alert_data w = [InApp]).
Proof.
intros Hsev. eexists _, _. split; [apply send_alert_run|].
rewrite channels_attempted_eq. split; [apply final_alert_sent|].
unfold dict_get. rewrite Hsev. cbn [default].
repeat split; [intros [->| ->]|intros ->|intros ->]; reflexivity.
Qed.

(** C9.  When the severity is none of "critical", "high" and "moderate"
  (any other value, not only "low"), [send_alert] attempts the in-app
  channel and no other, and the alert is stored in [alerts] under its id
  with status "active". *)
Theorem send_alert_unrecognised_severity (alert_data : dict) (severity : pyval) (w : World) :
alert_data !! "severity" = Some severity ->
severity <> PStr "critical" -> severity <> PStr "high" -> severity <> PStr "moderate" ->
exists alert w',
  AlertEngine.send_alert alert_data w = (Ok alert, w') /\
  channels_attempted alert_data w = [InApp] /\
  alert !! "channels_sent" = Some (PList [PStr "in_app"]) /\
  alert !! "status" = Some (PStr "active") /\
  alert !! "id" = Some (PStr (uuid4_str (ticks w))) /\
  alerts w' !! uuid4_str (ticks w) = Some alert.
Proof.
intros Hsev Hc Hh Hm.
assert (Hcs : selected_channels (dict_get alert_data "severity" (PStr "moderate")) = [InApp]).
{ unfold dict_get. rewrite Hsev. cbn [default]. unfold selected_channels, py_in_strs.
  cbn [existsb]. by rewrite !py_eq_str_false. }
eexists _, _. split; [apply send_alert_run|].
rewrite channels_attempted_eq, Hcs. split; [done|].
split; [apply final_alert_sent|].
split; [rewrite dispatch_other by done; apply new_alert_status|].
split; [rewrite dispatch_other by done; apply new_alert_id|].
cbn [alerts]. apply lookup_insert_eq.
Qed.

(** C1 (as amended).  For every [alert_data], [send_alert] does not raise:
  it returns the created alert, stored in [alerts], whose [channels_sent]
  lists every channel selected for its severity.  A failure of a channel
  is swallowed (and logged) by the channel helper; it is not encoded in
  the returned alert, which is the same in every environment that has the
  same uuid and clock, whatever the channels do there. *)
Theorem send_alert_returns_alert (alert_data : dict) (w : World) :
exists alert w',
  AlertEngine.send_alert alert_data w = (Ok alert, w') /\
  channels_attempted alert_data w =
    selected_channels (dict_get alert_data "severity" (PStr "moderate")) /\
  alert !! "channels_sent" = Some (sent_names (channels_attempted alert_data w)) /\
  alerts w' !! uuid4_str (ticks w) = Some alert /\
  forall E' : Env,
    @uuid4_str E' (ticks w) = @uuid4_str E (ticks w) ->
    @utcnow_isoformat E' (S (ticks w)) = @utcnow_isoformat E (S (ticks w)) ->
    fst (@AlertEngine.send_alert E' alert_data w) = Ok alert.
Proof.
eexists _, _. split; [apply send_alert_run|].
rewrite channels_attempted_eq. split; [done|].
split; [apply final_alert_sent|].
split; [cbn [alerts]; apply lookup_insert_eq|].
intros E' Hu Ht. rewrite (@send_alert_run E'). cbn [fst]. by rewrite Hu, Ht.
Qed.

(** C3 (as amended).  If the [try] block of exactly one channel helper
  raises during a dispatch, [send_alert] still returns the alert and every
  channel of the severity is attempted; the failure is recorded as one
  ERROR line of the log, and [channels_sent] lists all the attempted
  channels, the failed one included. *)
Theorem send_alert_one_channel_fails (alert_data : dict) (w : World) (c0 : channel) :
channels_failed alert_data w = [c0] ->
exists alert w',
  AlertEngine.send_alert alert_data w = (Ok alert, w') /\
  channels_attempted alert_data w =
    selected_channels (dict_get alert_data "severity" (PStr "moderate")) /\
  In c0 (channels_attempted alert_data w) /\
  alert !! "channels_sent" = Some (sent_names (channels_attempted alert_data w)) /\
  length (List.filter is_error_log (run_events (AlertEngine.send_alert alert_data) w)) = 1.
Proof.
intros Hfail. eexists _, _. split; [apply send_alert_run|].
rewrite channels_attempted_eq. split; [done|].
unfold channels_failed in Hfail. rewrite send_alert_events in *.
rewrite awaited_app in Hfail. cbn [awaited created_line omap list_omap] in Hfail.
rewrite app_nil_r in Hfail.
split.
{ rewrite <- (attempted_dispatch _ (AlertEngine.new_alert (uuid4_str (ticks w))
                (utcnow_isoformat (S (ticks w))) alert_data)) at 1.
  rewrite attempted_awaited. unfold failed_channels in Hfail.
  assert (Hin : In c0 [c0]) by (left; done). rewrite <- Hfail in Hin.
  apply in_map_iff in Hin as (ca & <- & Hca). apply in_map. by apply List.filter_In in Hca as [? _]. }
split; [apply final_alert_sent|].
rewrite List.filter_app, length_app, errors_dispatch, Hfail. reflexivity.
Qed.
End SendAlertClaims.

Section Broadcast.
Context {E : Env}.

Lemma swept_quiet message clients :
sweep_aborts message clients = false -> swept message clients = clients.
Proof.
induction clients as [|c clients IH]; [done|]. cbn [sweep_aborts existsb swept].
intros [Hc Hrest]%orb_false_iff. rewrite Hc. f_equal. by apply IH.
Qed.

(** One turn of the body of the [for] statement. *)
Lemma sweep_body_run message c (disconnected : gset client) w :
try_except (bind (App.send_json c message) (fun _ => ret disconnected))
           (fun _ => ret ({[c]} ∪ disconnected)) w =
  (Ok (if send_fails message c then {[c]} ∪ disconnected else disconnected),
   add_events (sweep_events message [c]) w).
Proof.
unfold try_except, bind, App.send_json, sweep_events, send_fails. cbn [map].
destruct (send_json_outcome c message); reflexivity.
Qed.

Lemma sweep_run message clients disconnected w :
App.sweep message clients disconnected w =
  (if sweep_aborts message clients
   then Raise (RuntimeError "Set changed size during iteration")
   else Ok (list_to_set (List.filter (send_fails message) clients) ∪ disconnected),
   add_events (sweep_events message (swept message clients)) w).
Proof.
revert disconnected w. induction clients as [|c clients IH]; intros disconnected w.
- cbn. unfold ret. rewrite add_events_nil. f_equal. f_equal. set_solver.
- cbn [App.sweep sweep_aborts existsb swept List.filter].
  eapply bind_run; [apply sweep_body_run|].
  destruct (registry_resized c message); cbn [orb].
  + reflexivity.
  + rewrite IH, add_events_app. fold (sweep_aborts message clients).
    change (sweep_events message [c] ++ sweep_events message (swept message clients))
      with (sweep_events message (c :: swept message clients)).
    apply (f_equal2 pair); [|reflexivity].
    destruct (sweep_aborts message clients); [reflexivity|].
    f_equal. destruct (send_fails message c); cbn [list_to_set]; set_solver.
Qed.

Lemma discard_all_run (l : list client) w :
for_each l App.discard w =
  (Ok tt, set_clients (connected_clients w ∖ list_to_set l) w).
Proof.
revert w. induction l as [|c l IH]; intros w.
- cbn. unfold ret, set_clients. destruct w; cbn.
  apply (f_equal2 pair); [reflexivity|]. f_equal; set_solver.
- cbn [for_each]. eapply bind_run; [reflexivity|]. rewrite IH.
  unfold set_clients; cbn.
  apply (f_equal2 pair); [reflexivity|]. f_equal; set_solver.
Qed.

(** A sweep during which no other task resizes the registry. *)
Lemma broadcast_update_run message w :
sweep_aborts message (elements (connected_clients w)) = false ->
App.broadcast_update message w =
  (Ok tt,
   mkWorld (alerts w)
     (connected_clients w ∖
        list_to_set (List.filter (send_fails message) (elements (connected_clients w))))
     (ticks w)
     (trace w ++ sweep_events message (elements (connected_clients w)))).
Proof.
intros Hquiet. unfold App.broadcast_update. case_bool_decide as Hempty.
- rewrite Hempty, elements_empty. cbn. rewrite app_nil_r.
  destruct w; cbn in *. subst.
  apply (f_equal2 pair); [reflexivity|]. f_equal; set_solver.
- eapply bind_run; [rewrite sweep_run, Hquiet, swept_quiet by done; reflexivity|].
  rewrite discard_all_run.
  unfold set_clients, add_events; cbn.
  apply (f_equal2 pair); [reflexivity|]. f_equal; set_solver.
Qed.

(** A sweep during which the registry is resized: the [for] statement
  raises, and the second loop, which discards the clients whose send
  failed, is not reached. *)
Lemma broadcast_update_aborted message w :
sweep_aborts message (elements (connected_clients w)) = true ->
App.broadcast_update message w =
  (Raise (RuntimeError "Set changed size during iteration"),
   add_events (sweep_events message (swept message (elements (connected_clients w)))) w).
Proof.
intros Habort. unfold App.broadcast_update. case_bool_decide as Hempty.
- rewrite Hempty, elements_empty in Habort. discriminate.
- apply bind_raise. by rewrite sweep_run, Habort.
Qed.

(** Either way, what the call adds to the trace is the sweep over the
  clients it reaches, and it does not touch the stored alerts. *)
Lemma broadcast_update_events message w :
exists r w',
  App.broadcast_update message w = (r, w') /\
  trace w' =
    trace w ++ sweep_events message (swept message (elements (connected_clients w))) /\
  alerts w' = alerts w /\
  connected_clients w' ⊆ connected_clients w.
Proof.
destruct (sweep_aborts message (elements (connected_clients w))) eqn:Habort.
- eexists _, _. split; [by apply broadcast_update_aborted|]. cbn. done.
- eexists _, _. split; [by apply broadcast_update_run|]. cbn.
  rewrite swept_quiet by done. split; [done|]. split; [done|]. set_solver.
Qed.

Lemma deliveries_sweep message clients :
deliveries (sweep_events message clients) =
  map (fun c => (c, message)) (List.filter (fun c => negb (send_fails message c)) clients).
Proof.
induction clients as [|c clients IH]; [done|].
cbn [sweep_events map List.filter]. destruct (send_fails message c); cbn; by rewrite <- IH.
Qed.

Lemma sweep_aborts_false message clients :
(forall c, In c clients -> registry_resized c message = false) ->
sweep_aborts message clients = false.
Proof.
intros Hq. unfold sweep_aborts. apply not_true_iff_false. intros Hex.
apply existsb_exists in Hex as (c & Hin & Hc). by rewrite Hq in Hc.
Qed.

Lemma sweep_aborts_true message clients c :
In c clients -> registry_resized c message = true -> sweep_aborts message clients = true.
Proof. intros Hin Hc. apply existsb_exists. by exists c. Qed.

Lemma swept_sublist message clients c : In c (swept message clients) -> In c clients.
Proof.
induction clients as [|c' clients IH]; [done|]. cbn [swept].
intros [->|Hin]; [by left|]. right.
destruct (registry_resized c' message); [done|by apply IH].
Qed.

(** The survivors of an undisturbed sweep, and who was served. *)
Lemma quiet_sweep_outcome message w :
(forall c, c ∈ connected_clients w -> registry_resized c message = false) ->
exists w',
  App.broadcast_update message w = (Ok tt, w') /\
  (forall c, c ∈ connected_clients w' <->
             c ∈ connected_clients w /\ send_json_outcome c message = None) /\
  (forall c m, In (c, m) (deliveries (run_events (App.broadcast_update message) w))
               <-> m = message /\ c ∈ connected_clients w') /\
  NoDup (deliveries (run_events (App.broadcast_update message) w)) /\
  length (deliveries (run_events (App.broadcast_update message) w))
    = size (connected_clients w').
Proof.
intros Hq.
assert (Hquiet : sweep_aborts message (elements (connected_clients w)) = false).
{ apply sweep_aborts_false. intros c Hc. apply Hq. by rewrite <- elem_of_elements, list_elem_of_In. }
assert (Hf : forall c, send_fails message c = false <-> send_json_outcome c message = None).
{ intros c. unfold send_fails. by destruct (send_json_outcome c message). }
assert (Hkeep : forall c,
          c ∈ connected_clients w ∖
                list_to_set (List.filter (send_fails message)
                               (elements (connected_clients w)))
          <-> c ∈ connected_clients w /\ send_json_outcome c message = None).
{ intros c. rewrite elem_of_difference, elem_of_list_to_set.
  rewrite list_elem_of_In, List.filter_In, <- list_elem_of_In, elem_of_elements, <- Hf.
  destruct (send_fails message c); intuition congruence. }
assert (Hlive : forall c,
          In c (List.filter (fun c => negb (send_fails message c))
                  (elements (connected_clients w)))
          <-> c ∈ connected_clients w /\ send_json_outcome c message = None).
{ intros c. rewrite List.filter_In, <- list_elem_of_In, elem_of_elements, negb_true_iff.
  by rewrite Hf. }
assert (Hnodup : NoDup (List.filter (fun c => negb (send_fails message c))
                          (elements (connected_clients w)))).
{ apply NoDup_ListNoDup, List.NoDup_filter, NoDup_ListNoDup, NoDup_elements. }
eexists. split; [by apply broadcast_update_run|]. cbn [connected_clients alerts].
split; [exact Hkeep|].
erewrite run_events_eq by by apply broadcast_update_run.
rewrite deliveries_sweep. split; [|split].
- intros c m. rewrite in_map_iff, Hkeep. split.
  + intros (c' & [= -> ->] & Hin). split; [done|]. by apply Hlive.
  + intros [-> Hc]. exists c. split; [done|]. by apply Hlive.
- apply NoDup_fmap_2; [intros ?? [=]; done|]. exact Hnodup.
- rewrite length_map.
  assert (Hperm : List.filter (fun c => negb (send_fails message c))
                    (elements (connected_clients w))
                  ≡ₚ elements (connected_clients w ∖
                       list_to_set (List.filter (send_fails message)
                                      (elements (connected_clients w))))).
  { apply NoDup_Permutation; [exact Hnodup|apply NoDup_elements|].
    intros c. by rewrite list_elem_of_In, Hlive, elem_of_elements, Hkeep. }
  by rewrite Hperm.
Qed.

(** C6.  With [k] among the registered clients, [k]'s [send_json] always
  raising and every other client's never raising: a sweep during which
  no other task resizes the registry returns normally, delivers the
  message exactly once to each of the other clients, removes [k] from
  [connected_clients] and keeps all the others, as the claim says.  But
  the [for] statement iterates the registry itself across the awaited
  sends: when a client connects or disconnects during the send to a
  registered client [c], [broadcast_update] raises [RuntimeError], the
  clients after [c] are not reached, and the sweep has discarded nobody:
  [k] is still in the registry as this task leaves it. *)
Theorem broadcast_update_drops_failing_subscriber (message : dict) (w : World) (k : client) :
k ∈ connected_clients w ->
(forall m, send_json_outcome k m <> None) ->
(forall c m, c ∈ connected_clients w -> c <> k -> send_json_outcome c m = None) ->
((forall c, c ∈ connected_clients w -> registry_resized c message = false) ->
 exists w',
   App.broadcast_update message w = (Ok tt, w') /\
   connected_clients w' = connected_clients w ∖ {[k]} /\
   (k ∉ connected_clients w') /\
   (forall c, c ∈ connected_clients w -> c <> k -> c ∈ connected_clients w') /\
   (forall c, In (c, message) (deliveries (run_events (App.broadcast_update message) w))
              <-> c ∈ connected_clients w /\ c <> k) /\
   NoDup (deliveries (run_events (App.broadcast_update message) w)) /\
   length (deliveries (run_events (App.broadcast_update message) w))
     = (size (connected_clients w) - 1)%nat) /\
(forall c, c ∈ connected_clients w -> registry_resized c message = true ->
 exists w',
   App.broadcast_update message w =
     (Raise (RuntimeError "Set changed size during iteration"), w') /\
   connected_clients w' = connected_clients w /\
   k ∈ connected_clients w' /\
   (forall c', In (c', message) (deliveries (run_events (App.broadcast_update message) w)) ->
      In c' (swept message (elements (connected_clients w))) /\ c' <> k)).
Proof.
intros Hk Hfail Hok.
assert (Hfk : forall c, c ∈ connected_clients w ->
          (send_json_outcome c message = None <-> c <> k)).
{ intros c Hc. split.
  - intros Hnone ->. by apply (Hfail message).
  - intros Hne. by apply Hok. }
split.
- intros Hq. destruct (quiet_sweep_outcome message w Hq)
    as (w' & Hrun & Hkeep & Hdel & Hnodup & Hlen).
  assert (Hset : connected_clients w' = connected_clients w ∖ {[k]}).
  { apply set_eq. intros c. rewrite Hkeep, elem_of_difference, elem_of_singleton.
    split; intros [Hc Hx]; (split; [done|]); by apply Hfk. }
  exists w'. split; [exact Hrun|]. split; [exact Hset|].
  split; [rewrite Hset; set_solver|]. split; [rewrite Hset; set_solver|].
  split; [|split; [exact Hnodup|]].
  + intros c. rewrite Hdel, Hset. set_solver.
  + rewrite Hlen, Hset, size_difference by set_solver. by rewrite size_singleton.
- intros c Hc Hres.
  assert (Habort : sweep_aborts message (elements (connected_clients w)) = true).
  { apply (sweep_aborts_true _ _ c); [|done]. by rewrite <- list_elem_of_In, elem_of_elements. }
  eexists. split; [by apply broadcast_update_aborted|]. cbn [add_events connected_clients].
  split; [done|]. split; [done|].
  intros c'. erewrite run_events_eq by by apply broadcast_update_aborted.
  rewrite deliveries_sweep, in_map_iff. intros (c'' & [= ->] & Hin).
  apply List.filter_In in Hin as [Hin Hsend]. split; [done|].
  intros ->. apply negb_true_iff in Hsend. unfold send_fails in Hsend.
  specialize (Hfail message). by destruct (send_json_outcome k message).
Qed.
End Broadcast.

Lemma emits_frame {A} P (m : M A) r evs : frame m r evs -> Forall P evs -> emits P m.
Proof. intros Hm HP w. exists evs. by rewrite Hm. Qed.

Lemma emits_silent {A} P (m : M A) :
  (forall w, trace (snd (m w)) = trace w) -> emits P m.
Proof. intros Hm w. exists []. by rewrite Hm, app_nil_r. Qed.

Lemma emits_ret {A} P (a : A) : emits P (ret a).
Proof. by apply emits_silent. Qed.

Lemma emits_raise {A} P e : emits P (@raise A e).
Proof. by apply emits_silent. Qed.

Lemma emits_emit P e : P e -> emits P (emit e).
Proof. intros He w. exists [e]. split; [done|]. by constructor. Qed.

Lemma emits_env_read {A} P (f : nat -> A) : emits P (env_read f).
Proof. by apply emits_silent. Qed.

Lemma emits_getitem P d k : emits P (getitem d k).
Proof. apply emits_silent. intros w. unfold getitem. by destruct (d !! k). Qed.

Lemma emits_bind {A B} P (m : M A) (k : A -> M B) :
  emits P m -> (forall a, emits P (k a)) -> emits P (bind m k).
Proof.
  intros Hm Hk w. destruct (Hm w) as (evs & Ht & Hevs).
  unfold bind. destruct (m w) as [[a|e] w1]; cbn [snd] in *.
  - destruct (Hk a w1) as (evs' & Ht' & Hevs').
    exists (evs ++ evs'). split; [by rewrite Ht', Ht, app_assoc|by apply Forall_app].
  - by exists evs.
Qed.

Lemma emits_try_except {A} P (body : M A) (h : exn -> M A) :
  emits P body -> (forall e, emits P (h e)) -> emits P (try_except body h).
Proof.
  intros Hm Hh w. destruct (Hm w) as (evs & Ht & Hevs).
  unfold try_except. destruct (body w) as [[a|e] w1]; cbn [snd] in *.
  - by exists evs.
  - destruct (Hh e w1) as (evs' & Ht' & Hevs').
    exists (evs ++ evs'). split; [by rewrite Ht', Ht, app_assoc|by apply Forall_app].
Qed.

Lemma emits_for_each {A} P (xs : list A) (body : A -> M unit) :
  (forall x, emits P (body x)) -> emits P (for_each xs body).
Proof.
  intros Hb. induction xs as [|x xs IH]; cbn [for_each].
  - apply emits_ret.
  - apply emits_bind; [apply Hb|]. intros _. apply IH.
Qed.

Lemma emits_weaken {A} (P Q : event -> Prop) (m : M A) :
  (forall e, P e -> Q e) -> emits P m -> emits Q m.
Proof.
  intros HPQ Hm w. destruct (Hm w) as (evs & Ht & Hevs).
  exists evs. split; [done|]. eapply Forall_impl; [exact Hevs|exact HPQ].
Qed.

Lemma emits_env_call {A} P (f : nat -> result A) : emits P (env_call f).
Proof.
  unfold env_call. apply emits_bind; [apply emits_env_read|].
  intros [a|e]; [apply emits_ret|apply emits_raise].
Qed.

Lemma emits_run_events {A} P (m : M A) w : emits P m -> Forall P (run_events m w).
Proof.
  intros Hm. destruct (Hm w) as (evs & Ht & Hevs).
  unfold run_events. by rewrite Ht, drop_app_length.
Qed.

Section EmitsRules.
Context {E : Env}.

Lemma dispatch_trace_events cs alert : Forall is_dispatch_event (dispatch_trace cs alert).
Proof.
revert alert. induction cs as [|c cs IH]; intros alert; cbn [dispatch_trace]; [done|].
apply Forall_app. split; [|apply IH].
destruct (helper_events_shape c alert) as (infos & t & Hi & ->).
constructor; [done|]. apply Forall_app. split.
- eapply Forall_impl; [exact Hi|]. by intros [[]| | | | | | |].
- destruct (fst _); cbn; by repeat constructor.
Qed.

Lemma emits_send_alert P alert_data :
(forall e, is_dispatch_event e -> P e) -> emits P (AlertEngine.send_alert alert_data).
Proof.
intros HP w. eexists. rewrite send_alert_run. cbn [snd trace]. split; [done|].
apply Forall_app. split.
- eapply Forall_impl; [apply dispatch_trace_events|done].
- constructor; [|done]. by apply HP.
Qed.

Lemma emits_broadcast_update P message :
(forall c, P (EvDelivered c message)) -> (forall c, P (EvSendFailed c message)) ->
emits P (App.broadcast_update message).
Proof.
intros Hd Hf w. destruct (broadcast_update_events message w) as (r & w' & Hrun & Ht & _).
eexists. rewrite Hrun. cbn [snd]. split; [exact Ht|].
unfold sweep_events. apply Forall_fmap, Forall_true. intros c; cbn.
by destruct (send_fails message c).
Qed.
End EmitsRules.

Lemma delivered_messages_Forall P evs :
  Forall (delivers P) evs -> Forall P (delivered_messages evs).
Proof.
  unfold delivered_messages.
  induction 1 as [|e evs He _ IH]; [constructor|].
  destruct e; cbn; try done. by constructor.
Qed.

Lemma emits_bind_env_read {A B} P (f : nat -> A) (k : A -> M B) :
  (forall n, emits P (k (f n))) -> emits P (bind (env_read f) k).
Proof.
  intros Hk w. destruct (Hk (ticks w) (mkWorld (alerts w) (connected_clients w)
                                            (S (ticks w)) (trace w))) as (evs & Ht & Hevs).
  exists evs. split; [exact Ht|done].
Qed.

Section Envelopes.
Context {E : Env}.

Lemma envelope_shape kind payload n :
wire_envelope kind
  (list_to_map [("type", PStr kind); ("data", PDict payload);
                ("timestamp", PStr (utcnow_isoformat n))]).
Proof.
unfold wire_envelope, list_to_map. cbn [fold_right fst snd].
split; [rewrite !dom_insert_L, dom_empty_L; set_solver|].
split; [by rewrite lookup_insert_eq|].
split; [exists payload; by rewrite lookup_insert_ne, lookup_insert_eq by done|].
exists n. by rewrite !lookup_insert_ne, lookup_insert_eq by done.
Qed.

Lemma emits_broadcast_alert alert :
emits (delivers (fun m => wire_envelope "alert" m /\ m !! "data" = Some (PDict alert)))
      (App.broadcast_alert alert).
Proof.
unfold App.broadcast_alert. apply emits_bind_env_read. intros n.
apply emits_broadcast_update; [|done]. intros c. cbn. split; [apply envelope_shape|].
unfold list_to_map. cbn [fold_right fst snd].
by rewrite lookup_insert_ne, lookup_insert_eq by done.
Qed.

Lemma emits_data_collection :
emits (delivers (wire_envelope "sensor_update")) App.data_collection_iteration.
Proof.
unfold App.data_collection_iteration.
apply emits_try_except.
- apply emits_bind; [by apply emits_emit|]. intros _.
  apply emits_bind; [apply emits_env_call|]. intros weather_data.
  apply emits_bind; [apply emits_env_call|]. intros air_quality_data.
  apply emits_bind; [apply emits_env_call|]. intros water_level_data.
  apply emits_bind; [apply emits_env_read|]. intros iot_data.
  apply emits_bind.
  { unfold App.save. destruct (save_sensor_data _); [apply emits_raise|by apply emits_emit]. }
  intros _. apply emits_bind_env_read. intros n.
  apply emits_bind; [|intros _; by apply emits_emit].
  apply emits_broadcast_update; [|done]. intros c. apply envelope_shape.
- intros e. apply emits_bind; [by apply emits_emit|]. intros _. by apply emits_emit.
Qed.

(** C7 (as amended).  Every message [broadcast_alert] or a turn of
  [background_data_collection] delivers to a client is a dict whose keys
  are exactly "type", "data" and "timestamp": "type" is "alert"
  (respectively "sensor_update"), "data" is the alert (respectively the
  collected readings) and "timestamp" is a string produced by
  [datetime.utcnow().isoformat()]. *)
Theorem live_messages_are_type_data_timestamp (alert : dict) (w : World) (m : dict) :
(In m (delivered_messages (run_events (App.broadcast_alert alert) w)) ->
   wire_envelope "alert" m /\ m !! "data" = Some (PDict alert)) /\
(In m (delivered_messages (run_events App.data_collection_iteration w)) ->
   wire_envelope "sensor_update" m).
Proof.
split; intros Hin.
- pose proof (delivered_messages_Forall _ _
    (emits_run_events _ _ w (emits_broadcast_alert alert))) as Hall.
  rewrite List.Forall_forall in Hall. by apply Hall.
- pose proof (delivered_messages_Forall _ _
    (emits_run_events _ _ w emits_data_collection)) as Hall.
  rewrite List.Forall_forall in Hall. by apply Hall.
Qed.

Lemma deliveries_app evs1 evs2 : deliveries (evs1 ++ evs2) = deliveries evs1 ++ deliveries evs2.
Proof. apply omap_app. Qed.

(** C8.  With [alert_engine.create_alert] read from the spec as the
  dispatch of a manually-created alert, [create_manual_alert] creates and
  stores the alert [send_alert] builds from the payload, whatever the
  payload.  When no client connects or disconnects during the sends of
  the broadcast, the envelope of that alert is delivered to every
  registered client whose [send_json] does not raise and the handler
  returns [{"status": "success", "alert": alert, "timestamp": ...}], as
  the claim says.  When the registry is resized during one of the sends,
  [broadcast_update] raises [RuntimeError] and the handler answers with
  [HTTPException] of status 500, after one ERROR line, although the
  alert has been created and stored. *)
Theorem create_manual_alert_outcome (alert_data : dict) (w : World) :
let alert_id := uuid4_str (ticks w) in
let alert :=
  dispatch_alert (selected_channels (dict_get alert_data "severity" (PStr "moderate")))
    (AlertEngine.new_alert alert_id (utcnow_isoformat (S (ticks w))) alert_data) in
let envelope := alert_message alert (S (S (ticks w))) in
fst (App.alert_engine_create_alert alert_data w) = Ok alert /\
((forall c, c ∈ connected_clients w -> registry_resized c envelope = false) ->
 exists w',
   App.create_manual_alert alert_data w =
     (Ok (list_to_map [ ("status", PStr "success");
                        ("alert", PDict alert);
                        ("timestamp", PStr (utcnow_isoformat (S (S (S (ticks w)))))) ]),
      w') /\
   alerts w' = <[alert_id := alert]> (alerts w) /\
   (forall c, c ∈ connected_clients w -> send_json_outcome c envelope = None ->
      In (c, envelope) (deliveries (run_events (App.create_manual_alert alert_data) w)))) /\
(forall c, c ∈ connected_clients w -> registry_resized c envelope = true ->
 exists w',
   App.create_manual_alert alert_data w =
     (Raise (HTTPException 500 (RuntimeError "Set changed size during iteration")), w') /\
   alerts w' = <[alert_id := alert]> (alerts w) /\
   exists evs,
     run_events (App.create_manual_alert alert_data) w =
       evs ++ [EvLog ERROR "Error creating alert: {}"
                 [LExn (RuntimeError "Set changed size during iteration")]]).
Proof.
intros alert_id alert envelope.
pose proof (send_alert_run alert_data w) as Hsend. cbn zeta in Hsend.
fold alert_id in Hsend. fold alert in Hsend.
set (evs1 := dispatch_trace
                (selected_channels (dict_get alert_data "severity" (PStr "moderate")))
                (AlertEngine.new_alert alert_id (utcnow_isoformat (S (ticks w))) alert_data)
                ++ [created_line alert_data]) in *.
set (w2 := mkWorld (<[alert_id := alert]> (alerts w)) (connected_clients w)
             (S (S (S (ticks w)))) (trace w ++ evs1)).
assert (Hty : alert !! "type" = Some (dict_get alert_data "type" (PStr "unknown"))).
{ unfold alert. rewrite dispatch_other by done. apply new_alert_type. }
split; [unfold App.alert_engine_create_alert; by rewrite Hsend|]. split.
- intros Hq.
  assert (Hquiet : sweep_aborts envelope (elements (connected_clients w2)) = false).
  { apply sweep_aborts_false. intros c Hc. apply Hq.
    by rewrite <- elem_of_elements, list_elem_of_In. }
  pose proof (broadcast_update_run envelope w2 Hquiet) as Hrun.
  eexists. split; [|split].
  + unfold App.create_manual_alert. apply try_except_ok.
    unfold App.alert_engine_create_alert.
    eapply bind_run; [exact Hsend|].
    eapply bind_run.
    { unfold App.broadcast_alert. eapply bind_run; [reflexivity|]. exact Hrun. }
    eapply bind_run; [apply getitem_run, Hty|].
    eapply bind_run; [reflexivity|].
    eapply bind_run; [reflexivity|]. reflexivity.
  + reflexivity.
  + intros c Hc Hnone.
    erewrite run_events_eq.
    2:{ unfold App.create_manual_alert. apply try_except_ok.
    unfold App.alert_engine_create_alert.
    eapply bind_run; [exact Hsend|].
    eapply bind_run.
    { unfold App.broadcast_alert. eapply bind_run; [reflexivity|]. exact Hrun. }
    eapply bind_run; [apply getitem_run, Hty|].
    eapply bind_run; [reflexivity|].
    eapply bind_run; [reflexivity|]. unfold ret, emit_w. cbn [trace alerts connected_clients ticks w2].
    rewrite <- !app_assoc. reflexivity. }
    rewrite !deliveries_app, deliveries_sweep. apply in_or_app. right. apply in_or_app. left.
    apply in_map_iff. exists c. split; [done|]. apply List.filter_In.
    split; [by rewrite <- list_elem_of_In, elem_of_elements|].
    unfold send_fails. by rewrite Hnone.
- intros c Hc Hres.
  assert (Habort : sweep_aborts envelope (elements (connected_clients w2)) = true).
  { apply (sweep_aborts_true _ _ c); [|done]. by rewrite <- list_elem_of_In, elem_of_elements. }
  pose proof (broadcast_update_aborted envelope w2 Habort) as Hrun.
  assert (Hbody : App.create_manual_alert alert_data w =
    (Raise (HTTPException 500 (RuntimeError "Set changed size during iteration")),
     mkWorld (<[alert_id := alert]> (alerts w)) (connected_clients w) (S (S (S (ticks w))))
       (trace w ++ (evs1 ++ sweep_events envelope (swept envelope (elements (connected_clients w))))
          ++ [EvLog ERROR "Error creating alert: {}"
             [LExn (RuntimeError "Set changed size during iteration")]]))).
  { unfold App.create_manual_alert. erewrite try_except_raise.
    2:{ unfold App.alert_engine_create_alert.
        eapply bind_run; [exact Hsend|].
        apply bind_raise.
        unfold App.broadcast_alert. eapply bind_run; [reflexivity|]. exact Hrun. }
    unfold add_events, w2. cbn [trace alerts connected_clients ticks].
    unfold log, bind, emit, raise, emit_w. cbn [trace alerts connected_clients ticks].
    by rewrite <- !app_assoc. }
  eexists. split; [exact Hbody|]. split; [reflexivity|].
  eexists. eapply run_events_eq. exact Hbody.
Qed.
End Envelopes.

Lemma bind_assoc {A B C} (m : M A) (k : A -> M B) (h : B -> M C) w :
  bind (bind m k) h w = bind m (fun a => bind (k a) h) w.
Proof. unfold bind. by destruct (m w) as [[a|e] w1]. Qed.

Lemma for_each_app {A} (xs ys : list A) (body : A -> M unit) w :
for_each (xs ++ ys) body w = bind (for_each xs body) (fun _ => for_each ys body) w.
Proof.
revert w. induction xs as [|x xs IH]; intros w; [reflexivity|].
cbn [app for_each]. rewrite bind_assoc. unfold bind.
destruct (body x w) as [[[]|e] w1]; [exact (IH w1)|done].
Qed.

Lemma predicted_app evs1 evs2 : predicted (evs1 ++ evs2) = predicted evs1 ++ predicted evs2.
Proof. apply omap_app. Qed.

Lemma evaluated_app evs1 evs2 : evaluated (evs1 ++ evs2) = evaluated evs1 ++ evaluated evs2.
Proof. apply omap_app. Qed.

Lemma sleeps_app evs1 evs2 : sleeps (evs1 ++ evs2) = sleeps evs1 ++ sleeps evs2.
Proof. apply omap_app. Qed.

Lemma delivery_events_quiet evs :
  Forall is_delivery_event evs ->
  predicted evs = [] /\ evaluated evs = [] /\ sleeps evs = [].
Proof.
  induction 1 as [|e evs He _ IH]; [done|].
  destruct e; try done.
Qed.

Lemma sleeps_none evs : Forall is_not_sleep evs -> sleeps evs = [].
Proof.
  induction 1 as [|e evs He _ IH]; [done|].
  destruct e; try done.
Qed.

Section Locations.
Context {E : Env}.

(** The body of [for alert in alerts_triggered], whether it returns or a
  broadcast raises. *)
Lemma emits_deliver_alerts (alerts_triggered : list dict) :
emits is_delivery_event
  (for_each alerts_triggered
     (fun alert => bind (AlertEngine.send_alert alert)
                        (fun _ => App.broadcast_alert alert))).
Proof.
apply emits_for_each. intros alert.
apply emits_bind; [apply emits_send_alert; by intros []|]. intros _.
unfold App.broadcast_alert. apply emits_bind_env_read. intros n.
by apply emits_broadcast_update.
Qed.

(** Whatever its outcome, processing a location runs the three predictors
  and the rules on it, once each. *)
Lemma process_location_events (location_data : dict) w :
exists evs,
  trace (snd (App.process_location location_data w)) = trace w ++ evs /\
  predicted evs = [location_data; location_data; location_data] /\
  evaluated evs = [location_data] /\
  sleeps evs = [].
Proof.
unfold App.process_location.
set (w3 := mkWorld (alerts w) (connected_clients w) (S (S (S (ticks w))))
             (trace w ++ [EvPredict Flood location_data; EvPredict Fire location_data;
                          EvPredict Pollution location_data; EvEvaluate location_data])).
destruct (alert_rules_evaluate location_data
            (predict Flood (ticks w) location_data)
            (predict Fire (S (ticks w)) location_data)
            (predict Pollution (S (S (ticks w))) location_data))
  as [alerts_triggered|e] eqn:Hrules.
- destruct (emits_deliver_alerts alerts_triggered w3) as (evs & Ht & Hevs).
  apply delivery_events_quiet in Hevs as (Hp & He & Hs).
  exists ([EvPredict Flood location_data; EvPredict Fire location_data;
           EvPredict Pollution location_data; EvEvaluate location_data] ++ evs).
  split; [|split; [|split]].
  + assert (Hpl : App.process_location location_data w =
              for_each alerts_triggered
                (fun alert => bind (AlertEngine.send_alert alert)
                                   (fun _ => App.broadcast_alert alert)) w3).
    { unfold App.process_location.
      eapply bind_run; [reflexivity|]. eapply bind_run; [reflexivity|].
      eapply bind_run; [reflexivity|]. cbn [ticks].
      eapply bind_run; [|reflexivity].
      unfold App.evaluate. eapply bind_run; [reflexivity|].
      cbn [ticks emit_w]. rewrite Hrules.
      unfold ret, emit_w, w3; cbn [alerts connected_clients ticks trace].
      by rewrite <- !app_assoc. }
    unfold App.process_location in Hpl. rewrite Hpl, Ht.
    unfold w3; cbn [trace]. by rewrite <- app_assoc.
  + by rewrite predicted_app, Hp.
  + by rewrite evaluated_app, He.
  + by rewrite sleeps_app, Hs.
- exists [EvPredict Flood location_data; EvPredict Fire location_data;
          EvPredict Pollution location_data; EvEvaluate location_data].
  split; [|done].
  assert (Hpl : App.process_location location_data w = (Raise e, w3)).
  { unfold App.process_location.
    eapply bind_run; [reflexivity|]. eapply bind_run; [reflexivity|].
    eapply bind_run; [reflexivity|]. cbn [ticks].
    apply bind_raise.
    unfold App.evaluate. eapply bind_run; [reflexivity|].
    cbn [ticks emit_w]. rewrite Hrules.
    unfold raise, emit_w, w3; cbn [alerts connected_clients ticks trace].
    by rewrite <- !app_assoc. }
  unfold App.process_location in Hpl. by rewrite Hpl.
Qed.

(** The [for location_data in sensor_data] loop over locations whose
  processing returns. *)
Lemma locations_returned (sensor_data : list dict) w :
fst (for_each sensor_data App.process_location w) = Ok tt ->
exists evs,
  trace (snd (for_each sensor_data App.process_location w)) = trace w ++ evs /\
  evaluated evs = sensor_data /\
  predicted evs = flat_map (fun l => [l; l; l]) sensor_data /\
  sleeps evs = [].
Proof.
revert w. induction sensor_data as [|l sensor_data IH]; intros w Hok.
- exists []. by rewrite app_nil_r.
- destruct (process_location_events l w) as (evs1 & Ht1 & Hp1 & He1 & Hs1).
  cbn [for_each] in *. unfold bind in *.
  destruct (App.process_location l w) as [[[]|e] w1]; [|done]. cbn [snd] in Ht1.
  destruct (IH w1 Hok) as (evs & Ht & He & Hp & Hs).
  exists (evs1 ++ evs). split; [|split; [|split]].
  + by rewrite Ht, Ht1, app_assoc.
  + by rewrite evaluated_app, He1, He.
  + by rewrite predicted_app, Hp1, Hp.
  + by rewrite sleeps_app, Hs1, Hs.
Qed.

(** The loop stops at the first location whose processing raises. *)
Lemma locations_run (before : list dict) (failing : dict) (after : list dict) e w :
fst (for_each before App.process_location w) = Ok tt ->
fst (App.process_location failing (snd (for_each before App.process_location w))) = Raise e ->
exists w' evs,
  for_each (before ++ failing :: after) App.process_location w = (Raise e, w') /\
  trace w' = trace w ++ evs /\
  evaluated evs = before ++ [failing] /\
  predicted evs = flat_map (fun l => [l; l; l]) (before ++ [failing]) /\
  sleeps evs = [].
Proof.
intros Hbefore Hfail.
destruct (locations_returned before w Hbefore) as (evs1 & Ht1 & He1 & Hp1 & Hs1).
destruct (for_each before App.process_location w) as [[[]|e0] w1] eqn:Hrun1; [|done].
cbn [snd] in *.
destruct (process_location_events failing w1) as (evs2 & Ht2 & Hp2 & He2 & Hs2).
destruct (App.process_location failing w1) as [r w2] eqn:Hrun2. cbn [fst snd] in *. subst r.
exists w2, (evs1 ++ evs2). split; [|split; [|split; [|split]]].
- rewrite for_each_app. unfold bind at 1. rewrite Hrun1. cbn [for_each]. unfold bind. by rewrite Hrun2.
- by rewrite Ht2, Ht1, app_assoc.
- by rewrite evaluated_app, He1, He2.
- by rewrite flat_map_app, predicted_app, Hp1, Hp2.
- by rewrite sleeps_app, Hs1, Hs2.
Qed.
End Locations.

Section PredictionLoop.
Context {E : Env}.

Lemma prediction_cycle_split w :
App.prediction_cycle w = bind cycle_work (fun _ => sleep 300) w.
Proof.
unfold App.prediction_cycle, cycle_work, bind.
destruct (log _ _ _ w) as [[[]|e] w1]; [|done].
by destruct (env_call _ w1) as [[sensor_data|e] w2].
Qed.

Lemma emits_process_location location_data :
emits is_not_sleep (App.process_location location_data).
Proof.
assert (Hp : forall h, emits is_not_sleep (App.run_predict h location_data)).
{ intros h. apply emits_bind; [by apply emits_emit|]. intros _. apply emits_env_read. }
unfold App.process_location.
apply emits_bind; [apply Hp|]. intros flood_risk.
apply emits_bind; [apply Hp|]. intros fire_risk.
apply emits_bind; [apply Hp|]. intros pollution_risk.
apply emits_bind.
{ unfold App.evaluate. apply emits_bind; [by apply emits_emit|]. intros _.
  destruct (alert_rules_evaluate _ _ _ _); [apply emits_ret|apply emits_raise]. }
intros alerts_triggered.
eapply emits_weaken; [|apply emits_deliver_alerts]. by intros [].
Qed.

Lemma emits_cycle_work : emits is_not_sleep cycle_work.
Proof.
unfold cycle_work. apply emits_bind; [by apply emits_emit|]. intros _.
apply emits_bind; [apply emits_env_call|]. intros [|l sensor_data].
- apply emits_ret.
- apply emits_for_each, emits_process_location.
Qed.

(** A turn of the loop always comes back, having slept 300 s once. *)
Lemma prediction_iteration_run w :
exists w' evs,
  App.prediction_iteration w = (Ok tt, w') /\
  trace w' = trace w ++ evs /\ sleeps evs = [300%Z].
Proof.
destruct (emits_cycle_work w) as (evs & Ht & Hevs).
apply sleeps_none in Hevs.
unfold App.prediction_iteration, try_except. rewrite prediction_cycle_split.
unfold bind. destruct (cycle_work w) as [[[]|e] w1]; cbn [snd] in Ht.
- eexists _, (evs ++ [EvSleep 300]). split; [reflexivity|].
  cbn [trace emit_w]. split; [by rewrite Ht, app_assoc|].
  by rewrite sleeps_app, Hevs.
- eexists _, (evs ++ [EvLog ERROR "Error in prediction loop: {}" [LExn e]; EvSleep 300]).
  split; [reflexivity|]. cbn [trace emit_w].
  split; [by rewrite Ht, <- !app_assoc|].
  by rewrite sleeps_app, Hevs.
Qed.

Lemma prediction_loop_run n w :
exists w' evs,
  App.background_prediction_loop n w = (Ok tt, w') /\
  trace w' = trace w ++ evs /\ sleeps evs = repeat 300%Z n.
Proof.
revert w. induction n as [|n IH]; intros w.
- exists w, []. by rewrite app_nil_r.
- destruct (prediction_iteration_run w) as (w1 & evs1 & Hrun1 & Ht1 & Hs1).
  destruct (IH w1) as (w' & evs & Hrun & Ht & Hs).
  exists w', (evs1 ++ evs). split; [|split].
  + cbn [App.background_prediction_loop]. eapply bind_run; [exact Hrun1|exact Hrun].
  + by rewrite Ht, Ht1, app_assoc.
  + by rewrite sleeps_app, Hs1, Hs.
Qed.

Lemma run_events_trace {A} (m : M A) w evs :
trace (snd (m w)) = trace w ++ evs -> run_events m w = evs.
Proof. intros Ht. unfold run_events. by rewrite Ht, drop_app_length. Qed.

(** C4 (as amended).  If, in one prediction cycle, processing the
  locations before [failing] returns and processing [failing] raises,
  the locations after it are skipped (the cycle has a single [try]
  around the whole loop), the error is logged and the turn ends by
  sleeping 300 s.  The loop does not terminate: every turn returns to
  [while True] after sleeping 300 s exactly once, so [n] turns sleep [n]
  times. *)
Theorem prediction_cycle_stops_at_failing_location
  (w : World) (before : list dict) (failing : dict) (after : list dict) (e : exn) :
get_latest_sensor_data (ticks w) = Ok (before ++ failing :: after) ->
fst (for_each before App.process_location (cycle_start w)) = Ok tt ->
fst (App.process_location failing
       (snd (for_each before App.process_location (cycle_start w)))) = Raise e ->
fst (App.prediction_iteration w) = Ok tt /\
evaluated (run_events App.prediction_iteration w) = before ++ [failing] /\
predicted (run_events App.prediction_iteration w) =
  flat_map (fun l => [l; l; l]) (before ++ [failing]) /\
(exists evs, run_events App.prediction_iteration w =
   evs ++ [EvLog ERROR "Error in prediction loop: {}" [LExn e]; EvSleep 300]) /\
sleeps (run_events App.prediction_iteration w) = [300%Z] /\
forall n w0,
  fst (App.background_prediction_loop n w0) = Ok tt /\
  sleeps (run_events (App.background_prediction_loop n) w0) = repeat 300%Z n.
Proof.
intros Hdata Hbefore Hfail.
set (w1 := cycle_start w) in *.
destruct (locations_run before failing after e w1 Hbefore Hfail)
  as (w2 & evs & Hrun & Ht & He & Hp & Hs).
assert (Hiter : App.prediction_iteration w =
          (Ok tt, add_events [EvLog ERROR "Error in prediction loop: {}" [LExn e];
                              EvSleep 300] w2)).
{ unfold App.prediction_iteration, try_except, App.prediction_cycle.
  unfold bind at 1. cbn [log emit]. unfold bind at 1.
  unfold env_call, bind at 1, env_read. cbn [ticks emit_w].
  rewrite Hdata. unfold ret at 1. fold (cycle_start w). fold w1.
  unfold bind at 1.
  destruct (before ++ failing :: after) as [|l ls] eqn:Hl.
  { by destruct before. }
  cbn [emit_w alerts connected_clients ticks trace]. fold (cycle_start w). fold w1.
  rewrite Hrun. unfold bind, log, sleep, emit.
  by rewrite !emit_w_add, add_events_app. }
assert (Hev : run_events App.prediction_iteration w =
          (EvLog INFO "🤖 Running AI predictions..." [] :: evs) ++
          [EvLog ERROR "Error in prediction loop: {}" [LExn e]; EvSleep 300]).
{ apply run_events_trace. rewrite Hiter. cbn [snd add_events trace].
  rewrite Ht. unfold w1, cycle_start; cbn [trace]. by rewrite <- !app_assoc. }
rewrite Hev, Hiter.
split; [done|]. split; [|split; [|split; [|split]]].
- rewrite evaluated_app. cbn. fold (evaluated evs). rewrite He. by rewrite app_nil_r.
- rewrite predicted_app. cbn. fold (predicted evs). rewrite Hp. by rewrite app_nil_r.
- by eexists.
- rewrite sleeps_app. cbn. fold (sleeps evs). by rewrite Hs.
- intros n w0. destruct (prediction_loop_run n w0) as (w' & evs' & Hloop & Ht' & Hs').
  rewrite Hloop. split; [done|].
  erewrite run_events_trace; [exact Hs'|]. by rewrite Hloop.
Qed.
End PredictionLoop.

(* ===================================================================== *)
(** ** Sample runs *)
(* ===================================================================== *)

Lemma send_alert_channels_by_severity_witness :
  exists alert w',
    AlertEngine.send_alert (H := sample_env None nobody []) critical_alert empty_world
      = (Ok alert, w') /\
    alert !! "channels_sent" =
      Some (sent_names (channels_attempted (H := sample_env None nobody [])
                          critical_alert empty_world)) /\
    channels_attempted (H := sample_env None nobody []) critical_alert empty_world
      = [Push; Sms; Email; Webhook].
Proof.
  destruct (send_alert_channels_by_severity (E := sample_env None nobody [])
              critical_alert "critical" empty_world)
    as (alert & w' & Hrun & Hsent & Hhigh & _).
  - vm_compute. reflexivity.
  - exists alert, w'. split; [exact Hrun|]. split; [exact Hsent|].
    apply Hhigh. left. reflexivity.
Defined.

Lemma send_alert_unrecognised_severity_witness :
  exists alert w',
    AlertEngine.send_alert (H := sample_env None nobody []) notice_alert empty_world
      = (Ok alert, w') /\
    channels_attempted (H := sample_env None nobody []) notice_alert empty_world = [InApp] /\
    alert !! "channels_sent" = Some (PList [PStr "in_app"]) /\
    alert !! "status" = Some (PStr "active") /\
    alert !! "id" = Some (PStr "uuid-0") /\
    alerts w' !! "uuid-0" = Some alert.
Proof.
  apply (send_alert_unrecognised_severity (E := sample_env None nobody [])
           notice_alert (PStr "notice") empty_world).
  - vm_compute. reflexivity.
  - discriminate.
  - discriminate.
  - discriminate.
Defined.

Lemma send_alert_returns_alert_witness :
  exists alert,
    fst (AlertEngine.send_alert (H := sample_env None nobody []) moderate_alert empty_world)
      = Ok alert /\
    fst (AlertEngine.send_alert (H := sample_env (Some smtp_down) nobody [])
           moderate_alert empty_world) = Ok alert.
Proof.
  destruct (send_alert_returns_alert (E := sample_env None nobody [])
              moderate_alert empty_world)
    as (alert & w' & Hrun & _ & _ & _ & Hsame).
  exists alert. split.
  - by rewrite Hrun.
  - apply Hsame; reflexivity.
Defined.

(** C1 fails as stated: with the email block raising, Email is the one
    channel that fails, and with nothing raising no channel fails, yet
    [send_alert] returns the same alert in both runs; the returned value
    does not encode the failure. *)
Lemma send_alert_result_hides_channel_failure :
  channels_failed (H := sample_env None nobody []) moderate_alert empty_world = [] /\
  channels_failed (H := sample_env (Some smtp_down) nobody []) moderate_alert empty_world
    = [Email] /\
  fst (AlertEngine.send_alert (H := sample_env None nobody []) moderate_alert empty_world)
  = fst (AlertEngine.send_alert (H := sample_env (Some smtp_down) nobody [])
           moderate_alert empty_world).
Proof.
  split; [vm_compute; reflexivity|]. split; [vm_compute; reflexivity|].
  by rewrite !send_alert_run.
Qed.

Lemma send_alert_one_channel_fails_witness :
  exists alert w',
    AlertEngine.send_alert (H := sample_env (Some smtp_down) nobody [])
      moderate_alert empty_world = (Ok alert, w') /\
    In Email (channels_attempted (H := sample_env (Some smtp_down) nobody [])
                moderate_alert empty_world) /\
    alert !! "channels_sent" =
      Some (sent_names (channels_attempted (H := sample_env (Some smtp_down) nobody [])
                          moderate_alert empty_world)).
Proof.
  destruct (send_alert_one_channel_fails (E := sample_env (Some smtp_down) nobody [])
              moderate_alert empty_world Email)
    as (alert & w' & Hrun & _ & Hin & Hsent & _).
  - vm_compute. reflexivity.
  - exists alert, w'. split; [exact Hrun|]. split; [exact Hin|exact Hsent].
Defined.

(** C3 fails as stated: for a "moderate" alert whose email block raises,
    push and email are attempted and exactly email fails, yet the only
    record of channels on the alert, [channels_sent], still lists email; it
    is not the attempted channels minus the failed one. *)
Lemma send_alert_lists_failed_channel :
  channels_attempted (H := sample_env (Some smtp_down) nobody [])
    moderate_alert empty_world = [Push; Email] /\
  channels_failed (H := sample_env (Some smtp_down) nobody [])
    moderate_alert empty_world = [Email] /\
  exists alert,
    fst (AlertEngine.send_alert (H := sample_env (Some smtp_down) nobody [])
           moderate_alert empty_world) = Ok alert /\
    alert !! "channels_sent" = Some (PList [PStr "push_notification"; PStr "email"]) /\
    alert !! "channels_sent" <> Some (sent_names [Push]).
Proof.
  split; [vm_compute; reflexivity|]. split; [vm_compute; reflexivity|].
  eexists. split; [by rewrite send_alert_run|].
  rewrite final_alert_sent. split; [vm_compute; reflexivity|].
  vm_compute. discriminate.
Qed.

Lemma broadcast_update_drops_failing_subscriber_witness :
  (exists w',
     App.broadcast_update (H := sample_env None second_dead []) moderate_alert three_clients
       = (Ok tt, w') /\
     connected_clients w' = {[ 1%nat; 2%nat; 3%nat ]} ∖ {[ 2%nat ]} /\
     length (deliveries (run_events
               (App.broadcast_update (H := sample_env None second_dead []) moderate_alert)
               three_clients)) = 2%nat) /\
  (exists w',
     App.broadcast_update (H := busy_env second_dead third_client) moderate_alert three_clients
       = (Raise (RuntimeError "Set changed size during iteration"), w') /\
     connected_clients w' = {[ 1%nat; 2%nat; 3%nat ]} /\
     2%nat ∈ connected_clients w' /\
     deliveries (run_events
                   (App.broadcast_update (H := busy_env second_dead third_client)
                      moderate_alert)
                   three_clients) = [(3%nat, moderate_alert)]).
Proof.
  split.
  - destruct (broadcast_update_drops_failing_subscriber (E := sample_env None second_dead [])
                moderate_alert three_clients 2%nat) as [Hquiet _].
    + vm_compute. reflexivity.
    + intros m. discriminate.
    + intros c m _ Hc. cbn. unfold second_dead.
      destruct (Nat.eqb_spec c 2) as [->|_]; [done|reflexivity].
    + destruct Hquiet as (w' & Hrun & Hleft & _ & _ & _ & _ & Hlen); [reflexivity|].
      exists w'. split; [exact Hrun|]. split; [exact Hleft|exact Hlen].
  - destruct (broadcast_update_drops_failing_subscriber
                (E := busy_env second_dead third_client)
                moderate_alert three_clients 2%nat) as [_ Hbusy].
    + vm_compute. reflexivity.
    + intros m. discriminate.
    + intros c m _ Hc. cbn. unfold second_dead.
      destruct (Nat.eqb_spec c 2) as [->|_]; [done|reflexivity].
    + destruct (Hbusy 3%nat) as (w' & Hrun & Hsame & Hk & _).
      * vm_compute. reflexivity.
      * reflexivity.
      * exists w'. split; [exact Hrun|]. split; [exact Hsame|]. split; [exact Hk|].
        vm_compute. reflexivity.
Defined.

Lemma live_messages_are_type_data_timestamp_witness :
  wire_envelope (H := sample_env None nobody []) "alert" alert_envelope /\
  alert_envelope !! "data" = Some (PDict moderate_alert).
Proof.
  apply (proj1 (live_messages_are_type_data_timestamp (E := sample_env None nobody [])
                  moderate_alert one_client alert_envelope)).
  vm_compute. left. reflexivity.
Defined.

(** C7 fails as stated: the message [broadcast_alert] delivers has no
    "kind" and no "payload" key; its keys are "type", "data" and
    "timestamp". *)
Lemma live_messages_have_no_kind_key :
  delivered_messages
    (run_events (App.broadcast_alert (H := sample_env None nobody []) moderate_alert)
       one_client) = [alert_envelope] /\
  alert_envelope !! "kind" = None /\
  alert_envelope !! "payload" = None /\
  alert_envelope !! "type" = Some (PStr "alert") /\
  dom alert_envelope <> {[ "kind"; "payload"; "timestamp" ]}.
Proof.
  split; [vm_compute; reflexivity|]. split; [vm_compute; reflexivity|].
  split; [vm_compute; reflexivity|]. split; [vm_compute; reflexivity|].
  intros Hdom. assert (Hin : "kind" ∈ dom alert_envelope) by (rewrite Hdom; set_solver).
  apply elem_of_dom in Hin as [v Hv]. vm_compute in Hv. discriminate.
Qed.

Lemma prediction_cycle_stops_at_failing_location_witness :
  fst (App.prediction_iteration (H := sample_env None nobody [location_b; location_a; location_c])
         empty_world) = Ok tt /\
  evaluated (run_events
               (App.prediction_iteration
                  (H := sample_env None nobody [location_b; location_a; location_c]))
               empty_world) = [location_b; location_a].
Proof.
  destruct (prediction_cycle_stops_at_failing_location
              (E := sample_env None nobody [location_b; location_a; location_c])
              empty_world [location_b] location_a [location_c] (RuntimeError "rules"))
    as (Hok & Hev & _).
  - reflexivity.
  - vm_compute. reflexivity.
  - vm_compute. reflexivity.
  - split; [exact Hok|exact Hev].
Defined.

(** C4 fails as stated: with the locations A then B in the database, the
    rules raising for A and returning for B, the cycle evaluates A only; no
    predictor and no rule is run on B. *)
Lemma prediction_cycle_skips_later_location :
  get_latest_sensor_data (Env := sample_env None nobody [location_a; location_b]) 0
    = Ok [location_a; location_b] /\
  evaluate_raises (H := sample_env None nobody [location_a; location_b])
    location_a (RuntimeError "rules") /\
  evaluate_returns (H := sample_env None nobody [location_a; location_b]) location_b /\
  evaluated (run_events
               (App.prediction_iteration (H := sample_env None nobody [location_a; location_b]))
               empty_world) = [location_a] /\
  predicted (run_events
               (App.prediction_iteration (H := sample_env None nobody [location_a; location_b]))
               empty_world) = [location_a; location_a; location_a] /\
  location_b <> location_a.
Proof.
  split; [reflexivity|].
  split; [intros f fi p; vm_compute; reflexivity|].
  split; [intros f fi p; exists []; vm_compute; reflexivity|].
  split; [vm_compute; reflexivity|]. split; [vm_compute; reflexivity|].
  intros Heq. assert (Hl : location_b !! "location" = location_a !! "location") by by rewrite Heq.
  vm_compute in Hl. discriminate.
Qed.

Lemma create_manual_alert_outcome_witness :
  (exists w',
     App.create_manual_alert (H := sample_env None nobody []) moderate_alert one_client =
       (Ok (list_to_map
              [ ("status", PStr "success");
                ("alert", PDict (dispatch_alert [Push; Email]
                                   (AlertEngine.new_alert
                                      "uuid-0" "2024-05-01T12:00:00" moderate_alert)));
                ("timestamp", PStr "2024-05-01T12:00:00") ]), w')) /\
  (exists w',
     App.create_manual_alert (H := busy_env nobody third_client) moderate_alert three_clients =
       (Raise (HTTPException 500 (RuntimeError "Set changed size during iteration")), w') /\
     exists alert, alerts w' !! "uuid-0" = Some alert).
Proof.
  split.
  - destruct (create_manual_alert_outcome (E := sample_env None nobody [])
                moderate_alert one_client) as (_ & Hquiet & _).
    destruct Hquiet as (w' & Hrun & _); [reflexivity|].
    exists w'. exact Hrun.
  - destruct (create_manual_alert_outcome (E := busy_env nobody third_client)
                moderate_alert three_clients) as (_ & _ & Hbusy).
    destruct (Hbusy 3%nat) as (w' & Hrun & Hstored & _).
    + vm_compute. reflexivity.
    + reflexivity.
    + exists w'. split; [exact Hrun|]. eexists. rewrite Hstored. apply lookup_insert_eq.
Defined.

(* ===================================================================== *)
(** * Further properties of the code *)
(* ===================================================================== *)

(** ** AQI helpers and [PollutionPredictor.predict] *)

Lemma interpolation_bounds (c bp_lo bp_hi aqi_lo aqi_hi : Q) :
  (bp_lo < bp_hi)%Q -> (aqi_lo <= aqi_hi)%Q -> (bp_lo <= c)%Q -> (c <= bp_hi)%Q ->
  (aqi_lo <= aqi_lo + (c - bp_lo) / (bp_hi - bp_lo) * (aqi_hi - aqi_lo))%Q /\
  (aqi_lo + (c - bp_lo) / (bp_hi - bp_lo) * (aqi_hi - aqi_lo) <= aqi_hi)%Q.
Proof.
  intros Hw Ha Hlo Hhi.
  assert (Hpos : (0 < bp_hi - bp_lo)%Q) by lra.
  assert (Ht0 : (0 <= (c - bp_lo) / (bp_hi - bp_lo))%Q).
  { apply Qle_shift_div_l; [exact Hpos|]. lra. }
  assert (Ht1 : ((c - bp_lo) / (bp_hi - bp_lo) <= 1)%Q).
  { apply Qle_shift_div_r; [exact Hpos|]. lra. }
  set (t := ((c - bp_lo) / (bp_hi - bp_lo))%Q) in *.
  assert (Hd : (0 <= aqi_hi - aqi_lo)%Q) by lra.
  assert (H0 : (0 <= t * (aqi_hi - aqi_lo))%Q) by (by apply Qmult_le_0_compat).
  assert (H1 : (t * (aqi_hi - aqi_lo) <= 1 * (aqi_hi - aqi_lo))%Q)
    by (by apply Qmult_le_compat_r).
  split; lra.
Qed.

Lemma aqi_of_breakpoints_bounds breakpoints c :
  Forall well_formed_breakpoint breakpoints ->
  (0 <= PollutionPredictor.aqi_of_breakpoints breakpoints c)%Q /\
  (PollutionPredictor.aqi_of_breakpoints breakpoints c <= 500)%Q.
Proof.
  induction 1 as [|[[[bp_lo bp_hi] aqi_lo] aqi_hi] rest (Hw & H0 & Ha & H5) _ IH].
  - cbn. split; [discriminate|]. unfold Qle; cbn; lia.
  - cbn [PollutionPredictor.aqi_of_breakpoints].
    destruct (Qle_bool bp_lo c && Qle_bool c bp_hi) eqn:Hin; [|exact IH].
    apply andb_true_iff in Hin as [Hlo Hhi].
    apply Qle_bool_iff in Hlo, Hhi.
    destruct (interpolation_bounds c bp_lo bp_hi aqi_lo aqi_hi) as [L U]; try done.
    split; lra.
Qed.

Ltac well_formed_table :=
  repeat constructor; cbn; try lra; try (unfold Qle; cbn; lia); try reflexivity.

Lemma component_bounds (c : Q) :
  (0 <= PollutionPredictor._calculate_pm25_aqi c <= 500)%Q /\
  (0 <= PollutionPredictor._calculate_pm10_aqi c <= 500)%Q /\
  (0 <= PollutionPredictor._calculate_no2_aqi c <= 500)%Q /\
  (0 <= PollutionPredictor._calculate_o3_aqi c <= 500)%Q /\
  (0 <= PollutionPredictor._calculate_co_aqi c <= 500)%Q.
Proof.
  repeat split; apply aqi_of_breakpoints_bounds; well_formed_table.
Qed.

(** X1.  Whatever the concentration (negative, in a gap of the table or
    beyond its last row included), each of the five per-pollutant helpers
    [_calculate_pm25_aqi], [_calculate_pm10_aqi], [_calculate_no2_aqi],
    [_calculate_o3_aqi] and [_calculate_co_aqi] returns an AQI between 0
    and 500. *)
Theorem pollutant_aqi_within_0_500 (c : Q) :
  (0 <= PollutionPredictor._calculate_pm25_aqi c <= 500)%Q /\
  (0 <= PollutionPredictor._calculate_pm10_aqi c <= 500)%Q /\
  (0 <= PollutionPredictor._calculate_no2_aqi c <= 500)%Q /\
  (0 <= PollutionPredictor._calculate_o3_aqi c <= 500)%Q /\
  (0 <= PollutionPredictor._calculate_co_aqi c <= 500)%Q.
Proof.
  repeat split; apply aqi_of_breakpoints_bounds; well_formed_table.
Qed.

Ltac row_step :=
  match goal with
  | |- context [Qle_bool ?lo ?c && Qle_bool ?c ?hi] =>
      let E := fresh "E" in
      let E1 := fresh "E" in
      let E2 := fresh "E" in
      destruct (Qle_bool lo c && Qle_bool c hi) eqn:E;
      [ apply andb_true_iff in E as [E1 E2];
        apply Qle_bool_iff in E1; apply Qle_bool_iff in E2
      | apply andb_false_iff in E; destruct E as [E|E];
        rewrite <- not_true_iff_false, Qle_bool_iff in E ]
  end.

Ltac rows_respected :=
  intros c [[[lo hi] alo] ahi] Hin [Hlo Hhi]; cbn in Hin;
  repeat (destruct Hin as [[= <- <- <- <-]|Hin]; [|]); try destruct Hin;
  unfold row_respected; cbn [PollutionPredictor.aqi_of_breakpoints];
  repeat (row_step; try (exfalso; lra));
  apply interpolation_bounds; lra.

Lemma pm25_rows_respected c bp :
  In bp PollutionPredictor.pm25_breakpoints -> in_breakpoint c bp ->
  row_respected PollutionPredictor.pm25_breakpoints c bp.
Proof. revert c bp. unfold PollutionPredictor.pm25_breakpoints. rows_respected. Qed.

Lemma pm10_rows_respected c bp :
  In bp PollutionPredictor.pm10_breakpoints -> in_breakpoint c bp ->
  row_respected PollutionPredictor.pm10_breakpoints c bp.
Proof. revert c bp. unfold PollutionPredictor.pm10_breakpoints. rows_respected. Qed.

Lemma no2_rows_respected c bp :
  In bp PollutionPredictor.no2_breakpoints -> in_breakpoint c bp ->
  row_respected PollutionPredictor.no2_breakpoints c bp.
Proof. revert c bp. unfold PollutionPredictor.no2_breakpoints. rows_respected. Qed.

Lemma o3_rows_respected c bp :
  In bp PollutionPredictor.o3_breakpoints -> in_breakpoint c bp ->
  row_respected PollutionPredictor.o3_breakpoints c bp.
Proof. revert c bp. unfold PollutionPredictor.o3_breakpoints. rows_respected. Qed.

Lemma co_rows_respected c bp :
  In bp PollutionPredictor.co_breakpoints -> in_breakpoint c bp ->
  row_respected PollutionPredictor.co_breakpoints c bp.
Proof. revert c bp. unfold PollutionPredictor.co_breakpoints. rows_respected. Qed.

(** X2.  In each of the five breakpoint tables, a concentration that lies
    in a row gets an AQI inside the AQI range of that row: the rows of a
    table do not overlap, so the first row the loop finds is the only one
    that holds the concentration, and the interpolation stays between the
    row's two AQI ends. *)
Theorem aqi_stays_in_the_row_of_the_concentration (c : Q) (bp : Q * Q * Q * Q) :
  in_breakpoint c bp ->
  (In bp PollutionPredictor.pm25_breakpoints ->
     row_respected PollutionPredictor.pm25_breakpoints c bp) /\
  (In bp PollutionPredictor.pm10_breakpoints ->
     row_respected PollutionPredictor.pm10_breakpoints c bp) /\
  (In bp PollutionPredictor.no2_breakpoints ->
     row_respected PollutionPredictor.no2_breakpoints c bp) /\
  (In bp PollutionPredictor.o3_breakpoints ->
     row_respected PollutionPredictor.o3_breakpoints c bp) /\
  (In bp PollutionPredictor.co_breakpoints ->
     row_respected PollutionPredictor.co_breakpoints c bp).
Proof.
  intros Hin. repeat split; intros Hbp;
    eauto using pm25_rows_respected, pm10_rows_respected, no2_rows_respected,
                o3_rows_respected, co_rows_respected.
Qed.

Lemma aqi_stays_in_the_row_of_the_concentration_witness :
  row_respected PollutionPredictor.pm25_breakpoints 20 (12.1, 35.4, 51, 100)%Q.
Proof.
  apply (proj1 (aqi_stays_in_the_row_of_the_concentration 20 (12.1, 35.4, 51, 100)%Q
                  ltac:(split; [apply Qlt_le_weak|apply Qlt_le_weak]; reflexivity))).
  right. left. reflexivity.
Defined.

Lemma aqi_category_bands (aqi : Q) :
  ((aqi <= 50)%Q -> PollutionPredictor._get_aqi_category aqi = "🟢 Good") /\
  ((50 < aqi)%Q -> (aqi <= 100)%Q ->
     PollutionPredictor._get_aqi_category aqi = "🟡 Moderate") /\
  ((100 < aqi)%Q -> (aqi <= 150)%Q ->
     PollutionPredictor._get_aqi_category aqi = "🟠 Unhealthy for Sensitive Groups") /\
  ((150 < aqi)%Q -> (aqi <= 200)%Q ->
     PollutionPredictor._get_aqi_category aqi = "🔴 Unhealthy") /\
  ((200 < aqi)%Q -> (aqi <= 300)%Q ->
     PollutionPredictor._get_aqi_category aqi = "🔴 Very Unhealthy") /\
  ((300 < aqi)%Q -> PollutionPredictor._get_aqi_category aqi = "🔴 Hazardous").
Proof.
  unfold PollutionPredictor._get_aqi_category.
  repeat split; intros;
    repeat (match goal with
            | |- context [Qle_bool ?a ?b] =>
                let E := fresh "E" in
                destruct (Qle_bool a b) eqn:E;
                [apply Qle_bool_iff in E
                |rewrite <- not_true_iff_false, Qle_bool_iff in E]
            end);
    try reflexivity; exfalso; lra.
Qed.

(** X3.  The category of the PM2.5 component by concentration: 0..12 is
    Good, 12.1..35.4 Moderate, 35.5..55.4 Unhealthy for Sensitive Groups,
    55.5..150.4 Unhealthy, 150.5..250.4 Very Unhealthy, 250.5..500
    Hazardous; and a concentration in no row (negative, above 500, or
    between two rows such as 12.05) is Hazardous as well. *)
Theorem pm25_category_by_concentration (pm25 : Q) :
  ((0 <= pm25)%Q -> (pm25 <= 12)%Q ->
     PollutionPredictor._get_aqi_category (PollutionPredictor._calculate_pm25_aqi pm25)
     = "🟢 Good") /\
  ((12.1 <= pm25)%Q -> (pm25 <= 35.4)%Q ->
     PollutionPredictor._get_aqi_category (PollutionPredictor._calculate_pm25_aqi pm25)
     = "🟡 Moderate") /\
  ((35.5 <= pm25)%Q -> (pm25 <= 55.4)%Q ->
     PollutionPredictor._get_aqi_category (PollutionPredictor._calculate_pm25_aqi pm25)
     = "🟠 Unhealthy for Sensitive Groups") /\
  ((55.5 <= pm25)%Q -> (pm25 <= 150.4)%Q ->
     PollutionPredictor._get_aqi_category (PollutionPredictor._calculate_pm25_aqi pm25)
     = "🔴 Unhealthy") /\
  ((150.5 <= pm25)%Q -> (pm25 <= 250.4)%Q ->
     PollutionPredictor._get_aqi_category (PollutionPredictor._calculate_pm25_aqi pm25)
     = "🔴 Very Unhealthy") /\
  ((250.5 <= pm25)%Q -> (pm25 <= 500)%Q ->
     PollutionPredictor._get_aqi_category (PollutionPredictor._calculate_pm25_aqi pm25)
     = "🔴 Hazardous") /\
  (Forall (fun bp => ~ in_breakpoint pm25 bp) PollutionPredictor.pm25_breakpoints ->
     PollutionPredictor._get_aqi_category (PollutionPredictor._calculate_pm25_aqi pm25)
     = "🔴 Hazardous").
Proof.
  destruct (aqi_category_bands (PollutionPredictor._calculate_pm25_aqi pm25))
    as (B1 & B2 & B3 & B4 & B5 & B6).
  assert (Hrow : forall bp, In bp PollutionPredictor.pm25_breakpoints ->
                   in_breakpoint pm25 bp ->
                   row_respected PollutionPredictor.pm25_breakpoints pm25 bp)
    by (intros; by apply pm25_rows_respected).
  unfold row_respected, PollutionPredictor.pm25_breakpoints in Hrow.
  fold PollutionPredictor.pm25_breakpoints in Hrow.
  fold (PollutionPredictor._calculate_pm25_aqi pm25) in Hrow.
  split; [|split; [|split; [|split; [|split; [|split]]]]].
  - intros Hlo Hhi. destruct (Hrow (0, 12, 0, 50)%Q) as [L U]; [cbn; tauto|done|].
    apply B1. lra.
  - intros Hlo Hhi. destruct (Hrow (12.1, 35.4, 51, 100)%Q) as [L U]; [cbn; tauto|done|].
    apply B2; lra.
  - intros Hlo Hhi. destruct (Hrow (35.5, 55.4, 101, 150)%Q) as [L U]; [cbn; tauto|done|].
    apply B3; lra.
  - intros Hlo Hhi. destruct (Hrow (55.5, 150.4, 151, 200)%Q) as [L U]; [cbn; tauto|done|].
    apply B4; lra.
  - intros Hlo Hhi. destruct (Hrow (150.5, 250.4, 201, 300)%Q) as [L U]; [cbn; tauto|done|].
    apply B5; lra.
  - intros Hlo Hhi. destruct (Hrow (250.5, 500, 301, 500)%Q) as [L U]; [cbn; tauto|done|].
    apply B6; lra.
  - intros Hout. apply B6. unfold PollutionPredictor._calculate_pm25_aqi.
    rewrite aqi_outside_all_breakpoints by done. reflexivity.
Qed.

Lemma pm25_category_by_concentration_witness :
  PollutionPredictor._get_aqi_category (PollutionPredictor._calculate_pm25_aqi 12) = "🟢 Good" /\
  PollutionPredictor._get_aqi_category (PollutionPredictor._calculate_pm25_aqi 12.05)
  = "🔴 Hazardous".
Proof.
  destruct (pm25_category_by_concentration 12) as (Hgood & _).
  destruct (pm25_category_by_concentration 12.05) as (_ & _ & _ & _ & _ & _ & Hgap).
  split.
  - apply Hgood; unfold Qle; cbn; lia.
  - apply Hgap. repeat constructor; intros [H1 H2]; lra.
Defined.

Ltac q_cases :=
  repeat (match goal with
          | |- context [Qlt_le_dec ?a ?b] => destruct (Qlt_le_dec a b)
          | H : context [Qlt_le_dec ?a ?b] |- _ => destruct (Qlt_le_dec a b)
          end);
  cbv [Qdiv Qinv Qnum Qden] in *.

Lemma py_max_bounds (lo hi a b : Q) :
  (lo <= a)%Q -> (a <= hi)%Q -> (lo <= b)%Q -> (b <= hi)%Q ->
  (lo <= py_max a b)%Q /\ (py_max a b <= hi)%Q /\ (a <= py_max a b)%Q /\ (b <= py_max a b)%Q.
Proof. intros. unfold py_max. q_cases; repeat split; lra. Qed.

Lemma wind_factor_bounds (wind_speed : Q) :
  (0.5 <= PollutionPredictor.wind_factor wind_speed)%Q /\
  ((0 <= wind_speed)%Q -> (PollutionPredictor.wind_factor wind_speed <= 1)%Q) /\
  ((wind_speed < 0)%Q -> (1 < PollutionPredictor.wind_factor wind_speed)%Q) /\
  ((wind_speed < 8)%Q -> (0.6 < PollutionPredictor.wind_factor wind_speed)%Q).
Proof.
  unfold PollutionPredictor.wind_factor, py_max. q_cases; repeat split; intros; lra.
Qed.

(** The largest of the five components, as [predict] computes it. *)
Lemma largest_component_bounds (pm25 pm10 no2 o3 co : Q) :
  let m := py_max (py_max (py_max (py_max (PollutionPredictor._calculate_pm25_aqi pm25)
                                          (PollutionPredictor._calculate_pm10_aqi pm10))
                                  (PollutionPredictor._calculate_no2_aqi no2))
                          (PollutionPredictor._calculate_o3_aqi o3))
                  (PollutionPredictor._calculate_co_aqi co) in
  (0 <= m)%Q /\ (m <= 500)%Q /\ (PollutionPredictor._calculate_pm25_aqi pm25 <= m)%Q.
Proof.
  destruct (component_bounds pm25) as ([A1 A2] & _).
  destruct (component_bounds pm10) as (_ & [B1 B2] & _).
  destruct (component_bounds no2) as (_ & _ & [C1 C2] & _).
  destruct (component_bounds o3) as (_ & _ & _ & [D1 D2] & _).
  destruct (component_bounds co) as (_ & _ & _ & _ & [E1 E2]).
  cbv zeta.
  destruct (py_max_bounds 0 500 _ _ A1 A2 B1 B2) as (M1 & M2 & M3 & _).
  destruct (py_max_bounds 0 500 _ _ M1 M2 C1 C2) as (N1 & N2 & N3 & _).
  destruct (py_max_bounds 0 500 _ _ N1 N2 D1 D2) as (O1 & O2 & O3 & _).
  destruct (py_max_bounds 0 500 _ _ O1 O2 E1 E2) as (P1 & P2 & P3 & _).
  repeat split; lra.
Qed.

Lemma overall_aqi_bounds (pm25 pm10 no2 o3 co wind_speed : Q) :
  (0 <= PollutionPredictor.overall_aqi pm25 pm10 no2 o3 co wind_speed)%Q /\
  ((0 <= wind_speed)%Q ->
     (PollutionPredictor.overall_aqi pm25 pm10 no2 o3 co wind_speed <= 500)%Q) /\
  (Forall (fun bp => ~ in_breakpoint pm25 bp) PollutionPredictor.pm25_breakpoints ->
     (250 <= PollutionPredictor.overall_aqi pm25 pm10 no2 o3 co wind_speed)%Q /\
     ((wind_speed < 8)%Q ->
        (300 < PollutionPredictor.overall_aqi pm25 pm10 no2 o3 co wind_speed)%Q) /\
     ((wind_speed < 0)%Q ->
        (500 < PollutionPredictor.overall_aqi pm25 pm10 no2 o3 co wind_speed)%Q)).
Proof.
  unfold PollutionPredictor.overall_aqi. cbv zeta.
  destruct (largest_component_bounds pm25 pm10 no2 o3 co) as (M0 & M5 & Mpm).
  cbv zeta in M0, M5, Mpm.
  set (m := py_max _ _) in *.
  destruct (wind_factor_bounds wind_speed) as (F0 & F1 & Fneg & F8).
  set (f := PollutionPredictor.wind_factor wind_speed) in *.
  split; [nra|]. split; [intros Hw; specialize (F1 Hw); nra|].
  intros Hout.
  assert (Hm : (500 <= m)%Q).
  { unfold PollutionPredictor._calculate_pm25_aqi in Mpm.
    rewrite aqi_outside_all_breakpoints in Mpm by done. lra. }
  split; [nra|]. split; intros Hw.
  - specialize (F8 Hw). nra.
  - specialize (Fneg Hw). nra.
Qed.

Lemma aqi_category_is_not_error (aqi : Q) :
  PollutionPredictor._get_aqi_category aqi <> "error".
Proof.
  unfold PollutionPredictor._get_aqi_category.
  repeat (match goal with |- context [Qle_bool ?a ?b] => destruct (Qle_bool a b) end);
    discriminate.
Qed.

Lemma numeric_or_default (location_data : dict) (key : string) (dflt : pyval) :
  py_num dflt <> None ->
  (py_num (dict_get location_data key dflt) = None <->
   exists v, location_data !! key = Some v /\ py_num v = None).
Proof.
  intros Hd. unfold dict_get. destruct (location_data !! key) as [v|]; cbn.
  - split; [intros Hv; by exists v|]. by intros (v' & [= <-] & Hv).
  - split; [done|]. by intros (v' & [=] & _).
Qed.

Lemma py_float_operand_None (conv : Z -> Z) (v : pyval) :
  py_float_operand conv v = None <-> unusable_operand conv v.
Proof.
  unfold unusable_operand. destruct v as [|b|z|q|s|l|d]; cbn.
  3:{ unfold int_overflows.
      destruct (Z.leb_spec float_range_bound (Z.abs (conv z))) as [Hz|Hz].
      - split; [intros _; right; by exists z|done].
      - split; [done|]. intros [Hn|(z' & [= <-] & Hz')]; [discriminate|lia]. }
  all: try (split; [intros _; by left|done]).
  all: split; [done|intros [Hn|(z & Hz & _)]; discriminate].
Qed.

Lemma operand_or_default (location_data : dict) (key : string) (dflt : pyval) conv :
  py_float_operand conv dflt <> None ->
  (py_float_operand conv (dict_get location_data key dflt) = None <->
   exists v, location_data !! key = Some v /\ unusable_operand conv v).
Proof.
  intros Hd. unfold dict_get. destruct (location_data !! key) as [v|]; cbn.
  - rewrite py_float_operand_None. split; [intros Hv; by exists v|].
    by intros (v' & [= <-] & Hv).
  - split; [done|]. by intros (v' & [=] & _).
Qed.

(** X4.  The overall AQI [predict] computes (largest component times the
    wind factor) is never negative, and is at most 500 when the wind speed
    is not negative.  With a negative wind speed the wind factor exceeds 1:
    a PM2.5 reading outside the table then gives an AQI above 500, beyond
    the scale. *)
Theorem predicted_aqi_range (pm25 pm10 no2 o3 co wind_speed : Q) :
  (0 <= PollutionPredictor.overall_aqi pm25 pm10 no2 o3 co wind_speed)%Q /\
  ((0 <= wind_speed)%Q ->
     (PollutionPredictor.overall_aqi pm25 pm10 no2 o3 co wind_speed <= 500)%Q) /\
  ((wind_speed < 0)%Q ->
     Forall (fun bp => ~ in_breakpoint pm25 bp) PollutionPredictor.pm25_breakpoints ->
     (500 < PollutionPredictor.overall_aqi pm25 pm10 no2 o3 co wind_speed)%Q).
Proof.
  destruct (overall_aqi_bounds pm25 pm10 no2 o3 co wind_speed) as (H0 & H5 & Hgap).
  split; [exact H0|]. split; [exact H5|].
  intros Hw Hout. by apply Hgap.
Qed.

Lemma predicted_aqi_range_witness :
  (PollutionPredictor.overall_aqi 25 40 30 50 1 5 <= 500)%Q /\
  (500 < PollutionPredictor.overall_aqi (-1) 40 30 50 1 (-2))%Q.
Proof.
  destruct (predicted_aqi_range 25 40 30 50 1 5) as (_ & Hup & _).
  destruct (predicted_aqi_range (-1) 40 30 50 1 (-2)) as (_ & _ & Hneg).
  split.
  - apply Hup. unfold Qle; cbn; lia.
  - apply Hneg; [reflexivity|]. repeat constructor; intros [H1 H2]; lra.
Defined.

(** X5.  When the PM2.5 reading of a location lies in no row of the
    breakpoint table and [predict] does not fail, the AQI it reports is at
    least 250 and its category is Very Unhealthy or Hazardous, whatever
    the other pollutants and the wind are. *)
Theorem pm25_gap_reading_is_reported_unhealthy (location_data : dict) (pm25 : Q) :
  py_num (dict_get location_data "pm25" (PInt 25)) = Some pm25 ->
  Forall (fun bp => ~ in_breakpoint pm25 bp) PollutionPredictor.pm25_breakpoints ->
  PollutionPredictor.aqi_category (PollutionPredictor.predict_assessment location_data)
    <> "error" ->
  (250 <= PollutionPredictor.aqi_unrounded
            (PollutionPredictor.predict_assessment location_data))%Q /\
  (PollutionPredictor.aqi_category (PollutionPredictor.predict_assessment location_data)
     = "🔴 Very Unhealthy" \/
   PollutionPredictor.aqi_category (PollutionPredictor.predict_assessment location_data)
     = "🔴 Hazardous").
Proof.
  intros Hpm Hout Herr. unfold PollutionPredictor.predict_assessment in *.
  rewrite Hpm in *.
  destruct (py_num (dict_get location_data "pm10" (PInt 40))) as [pm10|]; [|done].
  destruct (py_num (dict_get location_data "no2" (PInt 30))) as [no2|]; [|done].
  destruct (py_num (dict_get location_data "o3" (PInt 50))) as [o3|]; [|done].
  destruct (py_num (dict_get location_data "co" (PNum 1.0))) as [co|]; [|done].
  destruct (py_float_operand id (dict_get location_data "wind_speed" (PInt 5)))
    as [wind_speed|]; [|done].
  cbn [PollutionPredictor.aqi_unrounded PollutionPredictor.aqi_category] in *.
  destruct (overall_aqi_bounds pm25 pm10 no2 o3 co wind_speed) as (_ & _ & Hgap).
  destruct (Hgap Hout) as (H250 & _).
  split; [exact H250|].
  destruct (aqi_category_bands (PollutionPredictor.overall_aqi pm25 pm10 no2 o3 co wind_speed))
    as (_ & _ & _ & _ & B5 & B6).
  destruct (Qlt_le_dec 300 (PollutionPredictor.overall_aqi pm25 pm10 no2 o3 co wind_speed)).
  - right. by apply B6.
  - left. apply B5; [lra|done].
Qed.

Lemma pm25_gap_reading_is_reported_unhealthy_witness :
  (250 <= PollutionPredictor.aqi_unrounded
            (PollutionPredictor.predict_assessment clean_air_in_gap))%Q /\
  (PollutionPredictor.aqi_category (PollutionPredictor.predict_assessment clean_air_in_gap)
     = "🔴 Very Unhealthy" \/
   PollutionPredictor.aqi_category (PollutionPredictor.predict_assessment clean_air_in_gap)
     = "🔴 Hazardous").
Proof.
  apply (pm25_gap_reading_is_reported_unhealthy clean_air_in_gap 12.05).
  - vm_compute. reflexivity.
  - repeat constructor; intros [H1 H2]; lra.
  - vm_compute. discriminate.
Defined.

(** X6.  [PollutionPredictor.predict] answers with the category "error"
    exactly when one of the six features it reads is present in
    [location_data] with a value that is not a number, or the wind speed
    is an int beyond the float range (its division by 20.0 raises
    [OverflowError]; the pollutants are only compared, which no int
    fails).  A missing feature never makes it fail (the default is used).
    The error answer is AQI 0.0 with the advisory "Unable to calculate
    AQI". *)
Theorem pollution_predict_degrades_on_bad_feature (location_data : dict) :
  (PollutionPredictor.aqi_category (PollutionPredictor.predict_assessment location_data)
     = "error" <->
   (exists key v, In key (map fst pollution_features) /\
                  location_data !! key = Some v /\ py_num v = None) \/
   (exists z, location_data !! "wind_speed" = Some (PInt z) /\
              (float_range_bound <= Z.abs z)%Z)) /\
  (PollutionPredictor.aqi_category (PollutionPredictor.predict_assessment location_data)
     = "error" ->
   PollutionPredictor.predict_assessment location_data
   = PollutionPredictor.mkAssessment 0.0 "error" "Unable to calculate AQI").
Proof.
  unfold PollutionPredictor.predict_assessment.
  destruct (py_num (dict_get location_data "pm25" (PInt 25))) as [pm25|] eqn:E1;
  [destruct (py_num (dict_get location_data "pm10" (PInt 40))) as [pm10|] eqn:E2;
   [destruct (py_num (dict_get location_data "no2" (PInt 30))) as [no2|] eqn:E3;
    [destruct (py_num (dict_get location_data "o3" (PInt 50))) as [o3|] eqn:E4;
     [destruct (py_num (dict_get location_data "co" (PNum 1.0))) as [co|] eqn:E5;
      [destruct (py_float_operand id (dict_get location_data "wind_speed" (PInt 5)))
         as [wind_speed|] eqn:E6|]|]|]|]|];
  cbn [PollutionPredictor.aqi_category].
  1:{ split.
      - split; [intros Herr; by apply aqi_category_is_not_error in Herr|].
        intros [(key & v & Hkey & Hv & Hnum)|(z & Hv & Hz)].
        + cbn in Hkey.
          assert (Hnone : forall dflt, py_num (dict_get location_data key dflt) = None)
            by (intros dflt; unfold dict_get; by rewrite Hv).
          assert (Hwind : key = "wind_speed" ->
                    py_float_operand id (dict_get location_data "wind_speed" (PInt 5)) = None).
          { intros ->. apply operand_or_default; [done|]. exists v. split; [done|by left]. }
          destruct Hkey as [<-|[<-|[<-|[<-|[<-|[<-|[]]]]]]];
            try (rewrite Hnone in *; discriminate).
          rewrite Hwind in E6; [discriminate|done].
        + assert (Hwind : py_float_operand id
                            (dict_get location_data "wind_speed" (PInt 5)) = None).
          { apply operand_or_default; [done|]. exists (PInt z). split; [done|].
            right. by exists z. }
          rewrite Hwind in E6. discriminate.
      - intros Herr. by apply aqi_category_is_not_error in Herr. }
  1:{ split; [|done]. split; [intros _|done].
      apply operand_or_default in E6 as (v & Hv & [Hnum|(z & -> & Hz)]); [| |done].
      - left. exists "wind_speed", v. split; [cbn; tauto|done].
      - right. by exists z. }
  all: split; [|done]; split; [intros _|done]; left.
  all: match goal with
       | E : py_num (dict_get _ ?key _) = None |- _ =>
           apply numeric_or_default in E as (v & Hv & Hnum); [|done];
           exists key, v; split; [cbn; tauto|done]
       end.
Qed.

Lemma pollution_predict_degrades_on_bad_feature_witness :
  PollutionPredictor.predict_assessment bad_pm25
  = PollutionPredictor.mkAssessment 0.0 "error" "Unable to calculate AQI" /\
  PollutionPredictor.predict_assessment wind_beyond_float
  = PollutionPredictor.mkAssessment 0.0 "error" "Unable to calculate AQI".
Proof.
  split.
  - destruct (pollution_predict_degrades_on_bad_feature bad_pm25) as [Hiff Herr].
    apply Herr, Hiff. left. exists "pm25", (PStr "n/a"). repeat split.
    left. reflexivity.
  - destruct (pollution_predict_degrades_on_bad_feature wind_beyond_float) as [Hiff Herr].
    apply Herr, Hiff. right. exists (10 ^ 400)%Z. split; [reflexivity|].
    vm_compute. discriminate.
Defined.

(** ** [FloodPredictor.predict] and [FirePredictor.predict] *)

Lemma flood_status_is_not_error (score : Q) :
  FloodPredictor._get_risk_status score <> "error".
Proof.
  unfold FloodPredictor._get_risk_status.
  repeat (match goal with |- context [Qlt_le_dec ?a ?b] => destruct (Qlt_le_dec a b) end);
    discriminate.
Qed.

Lemma fire_status_is_not_error (score : Q) :
  FirePredictor._get_risk_status score <> "error".
Proof.
  unfold FirePredictor._get_risk_status.
  repeat (match goal with |- context [Qlt_le_dec ?a ?b] => destruct (Qlt_le_dec a b) end);
    discriminate.
Qed.

(** X7.  With non-negative inputs the flood risk score is not negative,
    and it is at most 1 when the soil saturation is at most 1.  The score
    is not clamped: a soil saturation above 5, with the water level and the
    rainfall at their caps, gives a score above 1 (more than 100 percent). *)
Theorem flood_risk_score_range
    (water_level rainfall terrain_slope soil_saturation proximity_to_river : Q) :
  (0 <= water_level)%Q -> (0 <= rainfall)%Q -> (0 <= terrain_slope)%Q ->
  (0 <= soil_saturation)%Q -> (0 <= proximity_to_river)%Q ->
  (0 <= FloodPredictor.risk_score water_level rainfall terrain_slope soil_saturation
          proximity_to_river)%Q /\
  ((soil_saturation <= 1)%Q ->
     (FloodPredictor.risk_score water_level rainfall terrain_slope soil_saturation
        proximity_to_river <= 1)%Q) /\
  ((3 <= water_level)%Q -> (10 <= rainfall)%Q -> (5 < soil_saturation)%Q ->
     (1 < FloodPredictor.risk_score water_level rainfall terrain_slope soil_saturation
            proximity_to_river)%Q).
Proof.
  intros Hw Hr Ht Hs Hp. unfold FloodPredictor.risk_score, py_min, py_max. cbv zeta.
  q_cases; repeat split; intros; lra.
Qed.

Lemma flood_risk_score_range_witness :
  (0 <= FloodPredictor.risk_score 2 5 5 0.5 1000)%Q /\
  (FloodPredictor.risk_score 2 5 5 0.5 1000 <= 1)%Q.
Proof.
  destruct (flood_risk_score_range 2 5 5 0.5 1000) as (Hlo & Hhi & _);
    try (unfold Qle; cbn; lia).
  split; [exact Hlo|]. apply Hhi. unfold Qle; cbn; lia.
Defined.

(** X8.  The fire risk score is at most 1 for every input (it is clamped
    by [min]), and it is not negative when the wind speed is not negative;
    the vegetation multiplier is any value the vegetation table or its
    default gives. *)
Theorem fire_risk_score_range
    (temperature humidity wind_speed rainfall_last_24h : Q) (vegetation_type : pyval)
    (veg : Q) :
  FirePredictor.veg_multiplier vegetation_type = Some veg ->
  (FirePredictor.risk_score temperature humidity wind_speed rainfall_last_24h veg <= 1)%Q /\
  ((0 <= wind_speed)%Q ->
     (0 <= FirePredictor.risk_score temperature humidity wind_speed rainfall_last_24h veg)%Q).
Proof.
  intros Hveg.
  assert (Hv : (0 <= veg)%Q /\ (veg <= 1.3)%Q).
  { unfold FirePredictor.veg_multiplier in Hveg.
    destruct vegetation_type; try discriminate; injection Hveg as <-;
      repeat (match goal with |- context [String.eqb ?a ?b] => destruct (String.eqb a b) end);
      split; unfold Qle; cbn; lia. }
  destruct Hv as [Hv0 Hv1].
  unfold FirePredictor.risk_score. cbv zeta.
  set (t := (py_max 0 ((temperature - 10) / 40.0) * 0.35)%Q).
  set (h := (py_max 0 ((100 - humidity) / 100.0) * 0.3)%Q).
  set (wd := (py_min (wind_speed / 30.0) 1.0 * 0.25)%Q).
  set (r := (py_max 0 ((50 - rainfall_last_24h) / 50.0) * 0.1)%Q).
  assert (Ht : (0 <= t)%Q) by (unfold t, py_max; q_cases; lra).
  assert (Hh : (0 <= h)%Q) by (unfold h, py_max; q_cases; lra).
  assert (Hr : (0 <= r)%Q) by (unfold r, py_max; q_cases; lra).
  assert (Hwd : (0 <= wind_speed)%Q -> (0 <= wd)%Q)
    by (intros; unfold wd, py_min; q_cases; lra).
  split.
  - unfold py_min. q_cases; lra.
  - intros Hw. specialize (Hwd Hw).
    assert (Hprod : (0 <= (t + h + wd + r) * veg)%Q) by (apply Qmult_le_0_compat; lra).
    unfold py_min. q_cases; lra.
Qed.

Lemma fire_risk_score_range_witness :
  (FirePredictor.risk_score 45 5 60 0 1.3 <= 1)%Q /\
  (0 <= FirePredictor.risk_score 45 5 60 0 1.3)%Q.
Proof.
  destruct (fire_risk_score_range 45 5 60 0 (PStr "shrubland") 1.3) as (Hhi & Hlo).
  - reflexivity.
  - split; [exact Hhi|]. apply Hlo. unfold Qle; cbn; lia.
Defined.

(** X9.  For a location whose vegetation type is "water" the fire status
    is the lowest band, whatever the temperature, humidity, wind and
    rainfall are (unless one of them cannot be used and the prediction
    fails). *)
Theorem fire_status_over_water_is_low (location_data : dict) :
  location_data !! "vegetation_type" = Some (PStr "water") ->
  FirePredictor.predict_status location_data <> "error" ->
  FirePredictor.predict_status location_data = "⚪ LOW".
Proof.
  intros Hveg Herr. unfold FirePredictor.predict_status in *.
  destruct (py_float_operand _ (dict_get location_data "temperature" (PInt 25)))
    as [t|]; [|done].
  destruct (py_float_operand _ (dict_get location_data "humidity" (PInt 50)))
    as [h|]; [|done].
  destruct (py_float_operand _ (dict_get location_data "wind_speed" (PInt 5)))
    as [wd|]; [|done].
  destruct (py_float_operand _ (dict_get location_data "rainfall_last_24h" (PInt 0)))
    as [r|]; [|done].
  unfold dict_get at 1. rewrite Hveg. cbn [default FirePredictor.veg_multiplier String.eqb].
  cbn -[FirePredictor._get_risk_status FirePredictor.risk_score].
  unfold FirePredictor.risk_score. cbv zeta.
  set (s := (_ + _ + _ + _)%Q).
  unfold FirePredictor._get_risk_status, py_min.
  q_cases; try reflexivity; exfalso; lra.
Qed.

Lemma fire_status_over_water_is_low_witness :
  FirePredictor.predict_status hot_lake = "⚪ LOW".
Proof.
  apply fire_status_over_water_is_low.
  - vm_compute. reflexivity.
  - vm_compute. discriminate.
Defined.

Lemma veg_multiplier_default (location_data : dict) :
  FirePredictor.veg_multiplier (dict_get location_data "vegetation_type" (PStr "grassland"))
    = None <->
  exists v, location_data !! "vegetation_type" = Some v /\
            ((exists l, v = PList l) \/ (exists d, v = PDict d)).
Proof.
  unfold dict_get. destruct (location_data !! "vegetation_type") as [v|]; cbn.
  - split.
    + intros Hv. exists v. split; [done|]. destruct v; try discriminate; eauto.
    + intros (v' & [= <-] & [[l ->]|[d ->]]); reflexivity.
  - split; [done|]. by intros (v' & [=] & _).
Qed.

(** X10.  [FloodPredictor.predict] answers with status "error" exactly
    when one of its five features is present with a value that is not a
    number, or with an int whose float operand ([10 - terrain_slope] for
    the slope, the value itself for the others) lies beyond the float
    range.  [FirePredictor.predict] does so exactly when one of its four
    numeric features is present with such a value (the operands are
    [temperature - 10], [100 - humidity], [wind_speed] and
    [50 - rainfall_last_24h]), or the vegetation type is a list or a dict
    (an unhashable key).  A missing feature never makes either fail. *)
Theorem flood_and_fire_error_on_bad_feature (location_data : dict) :
  (FloodPredictor.predict_status location_data = "error" <->
   exists key conv v, In (key, conv) flood_operands /\
                      location_data !! key = Some v /\ unusable_operand conv v) /\
  (FirePredictor.predict_status location_data = "error" <->
   (exists key conv v, In (key, conv) fire_operands /\
                       location_data !! key = Some v /\ unusable_operand conv v) \/
   (exists v, location_data !! "vegetation_type" = Some v /\
              ((exists l, v = PList l) \/ (exists d, v = PDict d)))).
Proof.
  assert (Hnone : forall key conv v dflt,
            location_data !! key = Some v -> unusable_operand conv v ->
            py_float_operand conv (dict_get location_data key dflt) = None).
  { intros key conv v dflt Hv Hbad. unfold dict_get. rewrite Hv. cbn.
    by apply py_float_operand_None. }
  split.
  - unfold FloodPredictor.predict_status.
    destruct (py_float_operand id (dict_get location_data "water_level" (PInt 0)))
      as [a|] eqn:E1;
    [destruct (py_float_operand id (dict_get location_data "rainfall" (PInt 0)))
       as [b|] eqn:E2;
     [destruct (py_float_operand (fun z => 10 - z)%Z
                  (dict_get location_data "terrain_slope" (PInt 5))) as [c|] eqn:E3;
      [destruct (py_float_operand id (dict_get location_data "soil_saturation" (PNum 0.5)))
         as [d|] eqn:E4;
       [destruct (py_float_operand id
                    (dict_get location_data "proximity_to_river" (PInt 1000)))
          as [e|] eqn:E5|]|]|]|].
    1:{ split; [intros Herr; by apply flood_status_is_not_error in Herr|].
        intros (key & conv & v & Hkey & Hv & Hbad). cbn in Hkey.
        destruct Hkey as [[= <- <-]|[[= <- <-]|[[= <- <-]|[[= <- <-]|[[= <- <-]|[]]]]]];
          match goal with
          | E : py_float_operand ?conv (dict_get _ ?key ?dflt) = Some _ |- _ =>
              rewrite (Hnone key conv v dflt Hv Hbad) in E; discriminate
          end. }
    all: split; [intros _|done].
    all: match goal with
         | E : py_float_operand ?conv (dict_get _ ?key _) = None |- _ =>
             apply operand_or_default in E as (v & Hv & Hbad); [|done];
             exists key, conv, v; split; [cbn; tauto|done]
         end.
  - unfold FirePredictor.predict_status.
    destruct (py_float_operand (fun z => z - 10)%Z
                (dict_get location_data "temperature" (PInt 25))) as [a|] eqn:E1;
    [destruct (py_float_operand (fun z => 100 - z)%Z
                 (dict_get location_data "humidity" (PInt 50))) as [b|] eqn:E2;
     [destruct (py_float_operand id (dict_get location_data "wind_speed" (PInt 5)))
        as [c|] eqn:E3;
      [destruct (py_float_operand (fun z => 50 - z)%Z
                   (dict_get location_data "rainfall_last_24h" (PInt 0)))
         as [d|] eqn:E4;
       [destruct (FirePredictor.veg_multiplier
                    (dict_get location_data "vegetation_type" (PStr "grassland")))
          as [e|] eqn:E5|]|]|]|].
    1:{ split; [intros Herr; by apply fire_status_is_not_error in Herr|].
        intros [(key & conv & v & Hkey & Hv & Hbad)|Hveg].
        - cbn in Hkey.
          destruct Hkey as [[= <- <-]|[[= <- <-]|[[= <- <-]|[[= <- <-]|[]]]]];
            match goal with
          | E : py_float_operand ?conv (dict_get _ ?key ?dflt) = Some _ |- _ =>
              rewrite (Hnone key conv v dflt Hv Hbad) in E; discriminate
          end.
        - apply veg_multiplier_default in Hveg. rewrite Hveg in E5. discriminate. }
    1:{ split; [intros _|done]. right. by apply veg_multiplier_default. }
    all: split; [intros _|done]; left.
    all: match goal with
         | E : py_float_operand ?conv (dict_get _ ?key _) = None |- _ =>
             apply operand_or_default in E as (v & Hv & Hbad); [|done];
             exists key, conv, v; split; [cbn; tauto|done]
         end.
Qed.

Lemma flood_and_fire_error_on_bad_feature_witness :
  FloodPredictor.predict_status unreadable_gauge = "error" /\
  FloodPredictor.predict_status slope_beyond_float = "error" /\
  FirePredictor.predict_status slope_beyond_float <> "error".
Proof.
  split; [|split].
  - apply (proj1 (flood_and_fire_error_on_bad_feature unreadable_gauge)).
    exists "water_level", id, (PStr "n/a"). split; [by left|]. split; [reflexivity|by left].
  - apply (proj1 (flood_and_fire_error_on_bad_feature slope_beyond_float)).
    exists "terrain_slope", (fun z => 10 - z)%Z, (PInt (- 10 ^ 400)).
    split; [cbn; tauto|]. split; [reflexivity|]. right. eexists. split; [reflexivity|].
    vm_compute. discriminate.
  - intros Herr.
    apply (proj2 (flood_and_fire_error_on_bad_feature slope_beyond_float)) in Herr
      as [(key & conv & v & Hkey & Hv & Hbad)|(v & Hv & _)].
    + cbn in Hkey.
      destruct Hkey as [[= <- <-]|[[= <- <-]|[[= <- <-]|[[= <- <-]|[]]]]];
        vm_compute in Hv; discriminate.
    + vm_compute in Hv. discriminate.
Defined.

(** ** Monotonicity of the scores; advisory and category *)

Lemma py_min_mono (a a' b : Q) : (a <= a')%Q -> (py_min a b <= py_min a' b)%Q.
Proof. intros. unfold py_min. q_cases; lra. Qed.

Lemma py_max_mono (a b b' : Q) : (b <= b')%Q -> (py_max a b <= py_max a b')%Q.
Proof. intros. unfold py_max. q_cases; lra. Qed.

Lemma py_max_nonneg (b : Q) : (0 <= py_max 0 b)%Q.
Proof. unfold py_max. q_cases; lra. Qed.

Lemma py_min_le_cap (a b : Q) : (py_min a b <= b)%Q.
Proof. unfold py_min. q_cases; lra. Qed.

(** X27.  More water, more rain, a flatter terrain, a wetter soil and a
    nearer river never lower the flood risk score, and a location whose
    status is CRITICAL stays CRITICAL under such a change. *)
Theorem flood_risk_is_monotone
    (water_level rainfall terrain_slope soil_saturation proximity_to_river
     water_level' rainfall' terrain_slope' soil_saturation' proximity_to_river' : Q) :
  (water_level <= water_level')%Q -> (rainfall <= rainfall')%Q ->
  (terrain_slope' <= terrain_slope)%Q -> (soil_saturation <= soil_saturation')%Q ->
  (proximity_to_river' <= proximity_to_river)%Q ->
  (FloodPredictor.risk_score water_level rainfall terrain_slope soil_saturation
     proximity_to_river
   <= FloodPredictor.risk_score water_level' rainfall' terrain_slope' soil_saturation'
        proximity_to_river')%Q /\
  (FloodPredictor._get_risk_status
     (FloodPredictor.risk_score water_level rainfall terrain_slope soil_saturation
        proximity_to_river) = "🔴 CRITICAL" ->
   FloodPredictor._get_risk_status
     (FloodPredictor.risk_score water_level' rainfall' terrain_slope' soil_saturation'
        proximity_to_river') = "🔴 CRITICAL").
Proof.
  intros Hw Hr Ht Hs Hp.
  assert (Hle : (FloodPredictor.risk_score water_level rainfall terrain_slope
                   soil_saturation proximity_to_river
                 <= FloodPredictor.risk_score water_level' rainfall' terrain_slope'
                      soil_saturation' proximity_to_river')%Q).
  { unfold FloodPredictor.risk_score. cbv zeta.
    assert (H1 : (py_min (water_level / 3.0) 1.0 <= py_min (water_level' / 3.0) 1.0)%Q)
      by (apply py_min_mono; cbv [Qdiv Qinv Qnum Qden]; lra).
    assert (H2 : (py_min (rainfall / 10.0) 1.0 <= py_min (rainfall' / 10.0) 1.0)%Q)
      by (apply py_min_mono; cbv [Qdiv Qinv Qnum Qden]; lra).
    assert (H3 : (py_max 0 ((10 - terrain_slope) / 10.0)
                  <= py_max 0 ((10 - terrain_slope') / 10.0))%Q)
      by (apply py_max_mono; cbv [Qdiv Qinv Qnum Qden]; lra).
    assert (H4 : (py_max 0 (1 - proximity_to_river / 5000.0)
                  <= py_max 0 (1 - proximity_to_river' / 5000.0))%Q)
      by (apply py_max_mono; cbv [Qdiv Qinv Qnum Qden]; lra).
    lra. }
  split; [exact Hle|].
  unfold FloodPredictor._get_risk_status.
  set (s := FloodPredictor.risk_score _ _ _ _ _) in *.
  set (s' := FloodPredictor.risk_score _ _ _ _ _) in *.
  q_cases; intros; try reflexivity; try discriminate; exfalso; lra.
Qed.

Lemma flood_risk_is_monotone_witness :
  (FloodPredictor.risk_score 1 2 5 0.5 1000 <= FloodPredictor.risk_score 2.5 2 5 0.5 1000)%Q.
Proof.
  apply (flood_risk_is_monotone 1 2 5 0.5 1000 2.5 2 5 0.5 1000);
    unfold Qle; cbn; lia.
Defined.

(** X28.  For a given vegetation, a higher temperature, a lower humidity,
    more wind and less rain in the last 24 h never lower the fire risk
    score, and a location whose status is EXTREME stays EXTREME under such
    a change. *)
Theorem fire_risk_is_monotone
    (temperature humidity wind_speed rainfall_last_24h
     temperature' humidity' wind_speed' rainfall_last_24h' veg : Q) :
  (temperature <= temperature')%Q -> (humidity' <= humidity)%Q ->
  (wind_speed <= wind_speed')%Q -> (rainfall_last_24h' <= rainfall_last_24h)%Q ->
  (0 <= veg)%Q ->
  (FirePredictor.risk_score temperature humidity wind_speed rainfall_last_24h veg
   <= FirePredictor.risk_score temperature' humidity' wind_speed' rainfall_last_24h' veg)%Q /\
  (FirePredictor._get_risk_status
     (FirePredictor.risk_score temperature humidity wind_speed rainfall_last_24h veg)
     = "🔴 EXTREME" ->
   FirePredictor._get_risk_status
     (FirePredictor.risk_score temperature' humidity' wind_speed' rainfall_last_24h' veg)
     = "🔴 EXTREME").
Proof.
  intros Ht Hh Hw Hr Hveg.
  assert (Hle : (FirePredictor.risk_score temperature humidity wind_speed
                   rainfall_last_24h veg
                 <= FirePredictor.risk_score temperature' humidity' wind_speed'
                      rainfall_last_24h' veg)%Q).
  { unfold FirePredictor.risk_score. cbv zeta.
    assert (H1 : (py_max 0 ((temperature - 10) / 40.0)
                  <= py_max 0 ((temperature' - 10) / 40.0))%Q)
      by (apply py_max_mono; cbv [Qdiv Qinv Qnum Qden]; lra).
    assert (H2 : (py_max 0 ((100 - humidity) / 100.0)
                  <= py_max 0 ((100 - humidity') / 100.0))%Q)
      by (apply py_max_mono; cbv [Qdiv Qinv Qnum Qden]; lra).
    assert (H3 : (py_min (wind_speed / 30.0) 1.0 <= py_min (wind_speed' / 30.0) 1.0)%Q)
      by (apply py_min_mono; cbv [Qdiv Qinv Qnum Qden]; lra).
    assert (H4 : (py_max 0 ((50 - rainfall_last_24h) / 50.0)
                  <= py_max 0 ((50 - rainfall_last_24h') / 50.0))%Q)
      by (apply py_max_mono; cbv [Qdiv Qinv Qnum Qden]; lra).
    apply py_min_mono. apply Qmult_le_compat_r; [lra|exact Hveg]. }
  split; [exact Hle|].
  unfold FirePredictor._get_risk_status.
  set (s := FirePredictor.risk_score _ _ _ _ _) in *.
  set (s' := FirePredictor.risk_score _ _ _ _ _) in *.
  q_cases; intros; try reflexivity; try discriminate; exfalso; lra.
Qed.

Lemma fire_risk_is_monotone_witness :
  (FirePredictor.risk_score 20 60 5 10 1.2 <= FirePredictor.risk_score 35 20 5 10 1.2)%Q.
Proof.
  apply (fire_risk_is_monotone 20 60 5 10 35 20 5 10 1.2);
    unfold Qle; cbn; lia.
Defined.

(** X29.  With the same pollutant readings, more wind never raises the
    overall AQI; the AQI is never below half of its value in still air;
    and from 10 km/h on, more wind changes nothing (the wind factor has
    reached its floor). *)
Theorem wind_never_raises_the_aqi (pm25 pm10 no2 o3 co wind_speed wind_speed' : Q) :
  (wind_speed <= wind_speed')%Q ->
  (PollutionPredictor.overall_aqi pm25 pm10 no2 o3 co wind_speed'
   <= PollutionPredictor.overall_aqi pm25 pm10 no2 o3 co wind_speed)%Q /\
  (PollutionPredictor.overall_aqi pm25 pm10 no2 o3 co 0 * 0.5
   <= PollutionPredictor.overall_aqi pm25 pm10 no2 o3 co wind_speed')%Q /\
  ((10 <= wind_speed)%Q ->
     PollutionPredictor.overall_aqi pm25 pm10 no2 o3 co wind_speed'
     == PollutionPredictor.overall_aqi pm25 pm10 no2 o3 co wind_speed).
Proof.
  intros Hw. unfold PollutionPredictor.overall_aqi. cbv zeta.
  destruct (largest_component_bounds pm25 pm10 no2 o3 co) as (M0 & _ & _).
  cbv zeta in M0. set (m := py_max _ _) in *.
  assert (Hf : (PollutionPredictor.wind_factor wind_speed'
                <= PollutionPredictor.wind_factor wind_speed)%Q).
  { unfold PollutionPredictor.wind_factor. apply py_max_mono.
    cbv [Qdiv Qinv Qnum Qden]. lra. }
  destruct (wind_factor_bounds wind_speed') as (F0 & _).
  assert (F1 : PollutionPredictor.wind_factor 0 == 1) by reflexivity.
  split; [nra|]. split; [rewrite F1; nra|].
  intros H10.
  assert (Hflat : forall v, (10 <= v)%Q -> PollutionPredictor.wind_factor v == 0.5).
  { intros v Hv. unfold PollutionPredictor.wind_factor, py_max. q_cases; lra. }
  rewrite (Hflat wind_speed), (Hflat wind_speed') by lra. reflexivity.
Qed.

Lemma wind_never_raises_the_aqi_witness :
  (PollutionPredictor.overall_aqi 80 40 30 50 1 12
   <= PollutionPredictor.overall_aqi 80 40 30 50 1 2)%Q.
Proof.
  apply (wind_never_raises_the_aqi 80 40 30 50 1 2 12).
  unfold Qle; cbn; lia.
Defined.

(** X30.  [_get_aqi_category] and [_get_health_advisory] cut the scale
    at the same points: two AQI values have the same category exactly when
    they have the same advisory.  The category is Hazardous exactly above
    300, and the advisory says that outdoor activities are safe exactly up
    to 50. *)
Theorem health_advisory_matches_category (aqi aqi' : Q) :
  (PollutionPredictor._get_aqi_category aqi = PollutionPredictor._get_aqi_category aqi' <->
   PollutionPredictor._get_health_advisory aqi = PollutionPredictor._get_health_advisory aqi') /\
  (PollutionPredictor._get_aqi_category aqi = "🔴 Hazardous" <-> (300 < aqi)%Q) /\
  (PollutionPredictor._get_health_advisory aqi =
     "Air quality is satisfactory. Outdoor activities are safe." <-> (aqi <= 50)%Q).
Proof.
  unfold PollutionPredictor._get_aqi_category, PollutionPredictor._get_health_advisory.
  repeat (match goal with
          | |- context [Qle_bool ?a ?b] =>
              let E := fresh "E" in
              destruct (Qle_bool a b) eqn:E;
              [apply Qle_bool_iff in E
              |rewrite <- not_true_iff_false, Qle_bool_iff in E]
          end);
    (split; [split; intros H; first [reflexivity|discriminate H]
            |split; split; intros H; first [reflexivity|discriminate H|lra|exfalso; lra]]).
Qed.

(** ** The alert object, the store and the text channels *)

Section AlertStore.
Context {E : Env}.

Lemma new_alert_dom i t d :
  dom (AlertEngine.new_alert i t d) =
    list_to_set (map fst alert_defaults) ∪
    {[ "id"; "created_at"; "status"; "channels_sent" ]}.
Proof.
  unfold AlertEngine.new_alert, list_to_map. cbn [fold_right fst snd].
  rewrite !dom_insert_L, dom_empty_L. cbn [alert_defaults map fst list_to_set].
  set_solver.
Qed.

Lemma dispatch_dom cs alert : has_sent alert -> dom (dispatch_alert cs alert) = dom alert.
Proof.
  intros [l Hl]. erewrite dispatch_sent by exact Hl.
  rewrite dom_insert_L. apply elem_of_dom_2 in Hl. set_solver.
Qed.

Lemma new_alert_default i t d key dflt :
  In (key, dflt) alert_defaults ->
  AlertEngine.new_alert i t d !! key = Some (dict_get d key dflt).
Proof.
  intros Hin. cbn in Hin.
  unfold AlertEngine.new_alert, list_to_map; cbn [fold_right fst snd].
  destruct Hin as [[= <- <-]|[[= <- <-]|[[= <- <-]|[[= <- <-]|[[= <- <-]|
                  [[= <- <-]|[[= <- <-]|[[= <- <-]|[[= <- <-]|[]]]]]]]]]];
    repeat (rewrite lookup_insert_ne by done); by rewrite lookup_insert_eq.
Qed.

Lemma new_alert_created_at i t d :
  AlertEngine.new_alert i t d !! "created_at" = Some (PStr t).
Proof.
  unfold AlertEngine.new_alert, list_to_map; cbn [fold_right fst snd].
  repeat (rewrite lookup_insert_ne by done); by rewrite lookup_insert_eq.
Qed.

(** X11.  The alert [send_alert] returns has exactly thirteen keys: the
    nine fields copied from [alert_data] (each with the default of its
    [get] when it is missing), and "id", "created_at", "status" and
    "channels_sent".  The id is the fresh uuid, "created_at" the clock and
    "status" is "active": a caller cannot choose them, and any other key of
    [alert_data] is dropped. *)
Theorem send_alert_builds_alert_from_known_fields (alert_data : dict) (w : World) :
  exists alert w',
    AlertEngine.send_alert alert_data w = (Ok alert, w') /\
    dom alert = list_to_set (map fst alert_defaults) ∪
                {[ "id"; "created_at"; "status"; "channels_sent" ]} /\
    (forall key dflt, In (key, dflt) alert_defaults ->
       alert !! key = Some (dict_get alert_data key dflt)) /\
    alert !! "id" = Some (PStr (uuid4_str (ticks w))) /\
    alert !! "created_at" = Some (PStr (utcnow_isoformat (S (ticks w)))) /\
    alert !! "status" = Some (PStr "active").
Proof.
  eexists _, _. split; [apply send_alert_run|].
  split.
  { rewrite dispatch_dom by (eexists; apply new_alert_sent). apply new_alert_dom. }
  split.
  { intros key dflt Hin. rewrite dispatch_other.
    - by apply new_alert_default.
    - intros ->. cbn in Hin. intuition congruence. }
  split; [rewrite dispatch_other by done; apply new_alert_id|].
  split; [rewrite dispatch_other by done; apply new_alert_created_at|].
  rewrite dispatch_other by done; apply new_alert_status.
Qed.

(** X12.  An alert without a "severity" is handled as "moderate": push
    and email are attempted, in this order, and the returned alert has
    severity "moderate". *)
Theorem send_alert_missing_severity_is_moderate (alert_data : dict) (w : World) :
  alert_data !! "severity" = None ->
  exists alert w',
    AlertEngine.send_alert alert_data w = (Ok alert, w') /\
    channels_attempted alert_data w = [Push; Email] /\
    alert !! "severity" = Some (PStr "moderate") /\
    alert !! "channels_sent" = Some (PList [PStr "push_notification"; PStr "email"]).
Proof.
  intros Hsev.
  assert (Hd : dict_get alert_data "severity" (PStr "moderate") = PStr "moderate")
    by (unfold dict_get; by rewrite Hsev).
  eexists _, _. split; [apply send_alert_run|].
  rewrite channels_attempted_eq, Hd.
  split; [reflexivity|]. split.
  - rewrite dispatch_other by done. by rewrite new_alert_severity, Hd.
  - apply final_alert_sent.
Qed.

(** X13.  [send_alert] changes the store of alerts at one key only, the
    id of the new alert: every alert stored under another id is left as it
    was, the set of connected clients is untouched, and the call reads the
    environment twice (the uuid, then the clock). *)
Theorem send_alert_adds_one_entry_to_the_store (alert_data : dict) (w : World) :
  exists alert w',
    AlertEngine.send_alert alert_data w = (Ok alert, w') /\
    alerts w' = <[uuid4_str (ticks w) := alert]> (alerts w) /\
    (forall k, k <> uuid4_str (ticks w) -> alerts w' !! k = alerts w !! k) /\
    connected_clients w' = connected_clients w /\
    ticks w' = S (S (ticks w)).
Proof.
  eexists _, _. split; [apply send_alert_run|]. cbn [alerts connected_clients ticks].
  split; [done|]. split; [|done].
  intros k Hk. by rewrite lookup_insert_ne.
Qed.

(** X14.  Two calls of [send_alert] in a row, with distinct uuids, leave
    both alerts in the store, each under its own id, and do not touch any
    other entry; the second call does not overwrite the first alert. *)
Theorem consecutive_alerts_are_both_stored (first second : dict) (w : World) :
  uuid4_str (ticks w) <> uuid4_str (S (S (ticks w))) ->
  exists alert1 alert2 w',
    bind (AlertEngine.send_alert first)
      (fun alert1 => bind (AlertEngine.send_alert second)
         (fun alert2 => ret (alert1, alert2))) w = (Ok (alert1, alert2), w') /\
    alerts w' !! uuid4_str (ticks w) = Some alert1 /\
    alerts w' !! uuid4_str (S (S (ticks w))) = Some alert2 /\
    alert1 !! "id" = Some (PStr (uuid4_str (ticks w))) /\
    alert2 !! "id" = Some (PStr (uuid4_str (S (S (ticks w))))) /\
    (forall k, k <> uuid4_str (ticks w) -> k <> uuid4_str (S (S (ticks w))) ->
       alerts w' !! k = alerts w !! k).
Proof.
  intros Hne. eexists _, _, _. split.
  { eapply bind_run; [apply send_alert_run|].
    eapply bind_run; [apply send_alert_run|]. reflexivity. }
  cbn [alerts ticks].
  split; [by rewrite lookup_insert_ne, lookup_insert_eq|].
  split; [by rewrite lookup_insert_eq|].
  split; [rewrite dispatch_other by done; apply new_alert_id|].
  split; [rewrite dispatch_other by done; apply new_alert_id|].
  intros k Hk1 Hk2. by rewrite !lookup_insert_ne.
Qed.

(** X15.  One [send_alert] writes exactly as many ERROR lines to the log
    as channels failed, every failed channel is one of the attempted ones,
    and the log has no ERROR line exactly when no channel failed. *)
Theorem send_alert_logs_each_failed_channel (alert_data : dict) (w : World) :
  length (List.filter is_error_log (run_events (AlertEngine.send_alert alert_data) w))
    = length (channels_failed alert_data w) /\
  (forall c, In c (channels_failed alert_data w) -> In c (channels_attempted alert_data w)) /\
  (channels_failed alert_data w = [] <->
     List.filter is_error_log (run_events (AlertEngine.send_alert alert_data) w) = []).
Proof.
  unfold channels_failed, channels_attempted. rewrite send_alert_events.
  set (cs := selected_channels _). set (alert := AlertEngine.new_alert _ _ _).
  rewrite awaited_app. cbn [awaited created_line omap list_omap]. rewrite app_nil_r.
  assert (Hlen : length (List.filter is_error_log (dispatch_trace cs alert ++
                                                   [created_line alert_data]))
                 = length (failed_channels (awaited (dispatch_trace cs alert)))).
  { rewrite List.filter_app, length_app, errors_dispatch. cbn. lia. }
  split; [exact Hlen|]. split.
  - intros c Hin. rewrite attempted_app, attempted_awaited.
    apply in_or_app. left. unfold failed_channels in Hin.
    apply in_map_iff in Hin as (ca & <- & Hca). apply in_map.
    by apply List.filter_In in Hca as [? _].
  - rewrite <- !length_zero_iff_nil. by rewrite Hlen.
Qed.

Lemma text_body_reads_no_channels_sent c alert name :
  c = Push \/ c = Sms ->
  channel_fails c (append_sent alert name) = channel_fails c alert.
Proof.
  intros [-> | ->]; unfold channel_fails, try_block, AlertEngine.push_body,
    AlertEngine.sms_body, getitem;
    by rewrite !append_sent_other by done.
Qed.

Lemma text_channel_fails c alert :
  c = Push \/ c = Sms ->
  is_Some (alert !! "location") -> is_Some (alert !! "id") ->
  is_Some (alert !! "severity") ->
  channel_fails c alert = negb (renderable alert).
Proof.
  intros Hc [location Hl] [alert_id Hi] [severity Hs].
  unfold renderable.
  destruct Hc as [-> | ->]; unfold channel_fails, try_block, AlertEngine.push_body,
    AlertEngine.sms_body, getitem, bind; rewrite ?Hl, ?Hi, ?Hs;
    destruct (alert !! "type") as [[]|]; try reflexivity;
    destruct (alert !! "message") as [[]|]; reflexivity.
Qed.

Lemma failed_text_channel c cs alert :
  c = Push \/ c = Sms ->
  (In c (failed_channels (awaited (dispatch_trace cs alert)))
   <-> In c cs /\ channel_fails c alert = true).
Proof.
  intros Hc. revert alert. induction cs as [|c' cs IH]; intros alert.
  - cbn. tauto.
  - cbn [dispatch_trace]. unfold failed_channels in *.
    rewrite awaited_app, List.filter_app, map_app, in_app_iff, IH.
    rewrite awaited_helper, text_body_reads_no_channels_sent by done.
    cbn [List.filter fst snd].
    destruct (channel_fails c' alert) eqn:Hf'; cbn [map In fst].
    + split.
      * intros [[<-|[]]|[Hin Hf]]; [split; [by left|done]|split; [by right|done]].
      * intros [[<-|Hin] Hf]; [left; by left|right; done].
    + split.
      * intros [[]|[Hin Hf]]. split; [by right|done].
      * intros [[<-|Hin] Hf]; [congruence|right; done].
Qed.

(** X16.  The push and the SMS helper fail during a dispatch exactly
    when they are among the channels of the severity and the alert cannot
    be rendered: its type is not a string (no [upper]), or its message is
    neither a string nor a list (no slice).  The keys they read are always
    present in the alert [send_alert] builds, so nothing else makes them
    fail. *)
Theorem text_channels_fail_on_unrenderable_alert
    (alert_data : dict) (w : World) (c : channel) :
  c = Push \/ c = Sms ->
  (In c (channels_failed alert_data w) <->
   In c (channels_attempted alert_data w) /\
   match dict_get alert_data "type" (PStr "unknown"),
         dict_get alert_data "message" (PStr "") with
   | PStr _, (PStr _ | PList _) => False
   | _, _ => True
   end).
Proof.
  intros Hc. rewrite channels_attempted_eq.
  unfold channels_failed. rewrite send_alert_events, awaited_app.
  cbn [awaited created_line omap list_omap]. rewrite app_nil_r.
  rewrite failed_text_channel by done.
  rewrite text_channel_fails; [|done|rewrite (new_alert_default _ _ _ "location" (PStr "Unknown")) by (cbn; tauto); done
                              |rewrite new_alert_id; done
                              |rewrite new_alert_severity; done].
  unfold renderable.
  rewrite (new_alert_default _ _ _ "type" (PStr "unknown")) by (cbn; tauto).
  rewrite (new_alert_default _ _ _ "message" (PStr "")) by (cbn; tauto).
  destruct (dict_get alert_data "type" (PStr "unknown"));
    try (cbn; intuition done);
    destruct (dict_get alert_data "message" (PStr "")); cbn; intuition done.
Qed.
End AlertStore.

Lemma send_alert_missing_severity_is_moderate_witness :
  exists alert w',
    AlertEngine.send_alert (H := sample_env None nobody []) flood_notice empty_world
      = (Ok alert, w') /\
    channels_attempted (H := sample_env None nobody []) flood_notice empty_world
      = [Push; Email] /\
    alert !! "severity" = Some (PStr "moderate") /\
    alert !! "channels_sent" = Some (PList [PStr "push_notification"; PStr "email"]).
Proof.
  apply (send_alert_missing_severity_is_moderate (E := sample_env None nobody [])
           flood_notice empty_world).
  vm_compute. reflexivity.
Defined.

Lemma consecutive_alerts_are_both_stored_witness :
  exists alert1 alert2 w',
    bind (AlertEngine.send_alert (H := sample_env None nobody []) flood_notice)
      (fun alert1 => bind (AlertEngine.send_alert (H := sample_env None nobody [])
                             critical_alert)
         (fun alert2 => ret (alert1, alert2))) empty_world = (Ok (alert1, alert2), w') /\
    alerts w' !! "uuid-0" = Some alert1 /\
    alerts w' !! "uuid-2" = Some alert2.
Proof.
  destruct (consecutive_alerts_are_both_stored (E := sample_env None nobody [])
              flood_notice critical_alert empty_world)
    as (alert1 & alert2 & w' & Hrun & H1 & H2 & _).
  - vm_compute. discriminate.
  - exists alert1, alert2, w'. split; [exact Hrun|]. split; [exact H1|exact H2].
Defined.

Lemma text_channels_fail_on_unrenderable_alert_witness :
  In Sms (channels_failed (H := sample_env None nobody []) untyped_critical_alert empty_world).
Proof.
  apply (text_channels_fail_on_unrenderable_alert (E := sample_env None nobody [])
           untyped_critical_alert empty_world Sms).
  - right. reflexivity.
  - split.
    + vm_compute. right. left. reflexivity.
    + vm_compute. exact I.
Defined.

(** ** Fan-out and the prediction loop *)

Lemma emits_info_only {A} P (m : M A) :
  info_only m -> (forall e, is_info_log e -> P e) -> emits P m.
Proof.
  intros (r & evs & Hf & Hi) HP. eapply emits_frame; [exact Hf|].
  eapply Forall_impl; [exact Hi|exact HP].
Qed.

Lemma emits_for_each_In {A} P (xs : list A) (body : A -> M unit) :
  (forall x, In x xs -> emits P (body x)) -> emits P (for_each xs body).
Proof.
  induction xs as [|x xs IH]; intros Hb; cbn [for_each].
  - apply emits_ret.
  - apply emits_bind; [apply Hb; by left|]. intros _. apply IH.
    intros y Hy. apply Hb. by right.
Qed.

Lemma emits_bind_ret {A B} P (m : M A) (k : A -> M B) (R : A -> Prop) :
  (forall w a w', m w = (Ok a, w') -> R a) ->
  emits P m -> (forall a, R a -> emits P (k a)) -> emits P (bind m k).
Proof.
  intros HR Hm Hk w. destruct (Hm w) as (evs & Ht & Hevs).
  unfold bind. destruct (m w) as [[a|e] w1] eqn:Hrun; cbn [snd] in *.
  - destruct (Hk a (HR _ _ _ Hrun) w1) as (evs' & Ht' & Hevs').
    exists (evs ++ evs'). split; [by rewrite Ht', Ht, app_assoc|by apply Forall_app].
  - by exists evs.
Qed.

Section Fanout.
Context {E : Env}.

(** X17.  For any message and any set of connected clients, when no
    client connects or disconnects while a send of the sweep is awaited,
    [broadcast_update] returns normally; the clients left in
    [connected_clients] are exactly those whose [send_json] did not raise,
    each of them got the message exactly once and nobody else got anything;
    the stored alerts are untouched, and with no client connected the call
    does nothing at all. *)
Theorem broadcast_update_keeps_reachable_clients (message : dict) (w : World) :
  (forall c, c ∈ connected_clients w -> registry_resized c message = false) ->
  exists w',
    App.broadcast_update message w = (Ok tt, w') /\
    (forall c, c ∈ connected_clients w' <->
               c ∈ connected_clients w /\ send_json_outcome c message = None) /\
    (forall c m, In (c, m) (deliveries (run_events (App.broadcast_update message) w))
                 <-> m = message /\ c ∈ connected_clients w') /\
    NoDup (deliveries (run_events (App.broadcast_update message) w)) /\
    length (deliveries (run_events (App.broadcast_update message) w))
      = size (connected_clients w') /\
    alerts w' = alerts w /\
    (connected_clients w = ∅ -> w' = w).
Proof.
  intros Hq.
  assert (Hquiet : sweep_aborts message (elements (connected_clients w)) = false).
  { apply sweep_aborts_false. intros c Hc. apply Hq.
    by rewrite <- elem_of_elements, list_elem_of_In. }
  destruct (quiet_sweep_outcome message w Hq) as (w' & Hrun & Hkeep & Hdel & Hnodup & Hlen).
  exists w'. repeat (split; [assumption|]).
  rewrite (broadcast_update_run message w Hquiet) in Hrun.
  injection Hrun as <-. split; [reflexivity|].
  intros Hempty. rewrite Hempty, elements_empty. cbn. rewrite app_nil_r.
  destruct w; cbn in *. subst. f_equal; set_solver.
Qed.

Lemma helper_no_loop_error c alert : emits no_loop_error (run_helper c alert).
Proof.
  assert (Hinfo : forall e, is_info_log e -> no_loop_error e).
  { intros [[] ? ?| | | | | | |] He; try done; by intros Hl. }
  destruct c; cbn [run_helper];
    (apply emits_bind; [apply emits_emit; by intros Hl|]; intros _;
     apply emits_try_except;
     [apply emits_info_only; [|exact Hinfo]
     |intros e; apply emits_emit; intros Hl; cbn in Hl; discriminate]).
  - apply info_only_push_body.
  - apply info_only_sms_body.
  - apply info_only_oracle_body.
  - apply info_only_oracle_body.
  - apply info_only_oracle_body.
Qed.

Lemma dispatch_no_loop_error cs alert : Forall no_loop_error (dispatch_trace cs alert).
Proof.
  revert alert. induction cs as [|c cs IH]; intros alert; cbn [dispatch_trace]; [done|].
  apply Forall_app. split; [|apply IH].
  destruct (helper_no_loop_error c alert empty_world) as (evs & Ht & Hevs).
  unfold helper_events. by rewrite Ht.
Qed.

Lemma send_alert_no_loop_error alert_data :
  emits no_loop_error (AlertEngine.send_alert alert_data).
Proof.
  intros w. eexists. rewrite send_alert_run. cbn [snd trace]. split; [done|].
  apply Forall_app. split; [apply dispatch_no_loop_error|].
  constructor; [by intros Hl|done].
Qed.

Lemma process_location_no_loop_error location_data :
  emits no_loop_error (App.process_location location_data).
Proof.
  assert (Hp : forall h, emits no_loop_error (App.run_predict h location_data)).
  { intros h. apply emits_bind; [apply emits_emit; by intros Hl|].
    intros _. apply emits_env_read. }
  unfold App.process_location.
  apply emits_bind; [apply Hp|]. intros flood_risk.
  apply emits_bind; [apply Hp|]. intros fire_risk.
  apply emits_bind; [apply Hp|]. intros pollution_risk.
  apply emits_bind.
  { unfold App.evaluate. apply emits_bind; [apply emits_emit; by intros Hl|]. intros _.
    destruct (alert_rules_evaluate _ _ _ _); [apply emits_ret|apply emits_raise]. }
  intros alerts_triggered. apply emits_for_each. intros alert.
  apply emits_bind; [apply send_alert_no_loop_error|]. intros _.
  unfold App.broadcast_alert. apply emits_bind_env_read. intros n.
  apply emits_broadcast_update; intros c Hl; exact Hl.
Qed.

(** X18.  When the database can be read and the [for] statement over
    its locations returns in this run (neither the rules nor a broadcast
    raise for any of them), the turn of the prediction loop has run the
    three predictors and the rules on every location, in the order of the
    database, logs no loop error (channel failures are logged by the
    helpers, with other lines) and sleeps 300 s once.  An empty database
    gives a turn that only sleeps. *)
Theorem prediction_cycle_processes_every_location (w : World) (sensor_data : list dict) :
  get_latest_sensor_data (ticks w) = Ok sensor_data ->
  fst (for_each sensor_data App.process_location (cycle_start w)) = Ok tt ->
  fst (App.prediction_iteration w) = Ok tt /\
  evaluated (run_events App.prediction_iteration w) = sensor_data /\
  predicted (run_events App.prediction_iteration w) =
    flat_map (fun l => [l; l; l]) sensor_data /\
  sleeps (run_events App.prediction_iteration w) = [300%Z] /\
  Forall no_loop_error (run_events App.prediction_iteration w).
Proof.
  intros Hdata Hall.
  set (w1 := cycle_start w) in *.
  destruct (locations_returned sensor_data w1 Hall) as (evs & Ht & He & Hp & Hs).
  assert (Hq : Forall no_loop_error evs).
  { destruct (emits_for_each no_loop_error sensor_data App.process_location
                process_location_no_loop_error w1) as (evs' & Ht' & Hq).
    rewrite Ht in Ht'. by apply app_inv_head in Ht' as <-. }
  destruct (for_each sensor_data App.process_location w1) as [[[]|e] w2] eqn:Hrun; [|done].
  cbn [snd] in Ht.
  assert (Hiter : App.prediction_iteration w = (Ok tt, add_events [EvSleep 300] w2)).
  { unfold App.prediction_iteration, try_except, App.prediction_cycle.
    unfold bind at 1. cbn [log emit]. unfold bind at 1.
    unfold env_call, bind at 1, env_read. cbn [ticks emit_w].
    rewrite Hdata. unfold ret at 1. fold (cycle_start w). fold w1.
    unfold bind at 1.
    assert (Hfor : (match sensor_data with
                    | [] => ret tt
                    | _ :: _ => for_each sensor_data App.process_location
                    end) w1 = (Ok tt, w2)).
    { destruct sensor_data; [|exact Hrun]. exact Hrun. }
    cbn [emit_w alerts connected_clients ticks trace]. fold (cycle_start w). fold w1.
    rewrite Hfor. unfold sleep, emit. by rewrite emit_w_add. }
  assert (Hev : run_events App.prediction_iteration w =
            (EvLog INFO "🤖 Running AI predictions..." [] :: evs) ++ [EvSleep 300]).
  { apply run_events_trace. rewrite Hiter. cbn [snd add_events trace].
    rewrite Ht. unfold w1, cycle_start; cbn [trace]. by rewrite <- !app_assoc. }
  rewrite Hev, Hiter.
  split; [done|]. split; [|split; [|split]].
  - rewrite evaluated_app. cbn. fold (evaluated evs). rewrite He. by rewrite app_nil_r.
  - rewrite predicted_app. cbn. fold (predicted evs). rewrite Hp. by rewrite app_nil_r.
  - rewrite sleeps_app. cbn. fold (sleeps evs). by rewrite Hs.
  - apply Forall_app. split; [|by repeat constructor; intros Hl].
    constructor; [by intros Hl|exact Hq].
Qed.

(** X19.  When [get_latest_sensor_data] raises, the turn of the
    prediction loop logs the error, sleeps 300 s and returns: no predictor
    runs, nothing is sent, and the stored alerts and the connected clients
    are as before. *)
Theorem prediction_cycle_survives_unreadable_database (w : World) (e : exn) :
  get_latest_sensor_data (ticks w) = Raise e ->
  fst (App.prediction_iteration w) = Ok tt /\
  run_events App.prediction_iteration w =
    [ EvLog INFO "🤖 Running AI predictions..." [];
      EvLog ERROR "Error in prediction loop: {}" [LExn e];
      EvSleep 300 ] /\
  alerts (snd (App.prediction_iteration w)) = alerts w /\
  connected_clients (snd (App.prediction_iteration w)) = connected_clients w.
Proof.
  intros Hdata.
  assert (Hiter : App.prediction_iteration w =
            (Ok tt, mkWorld (alerts w) (connected_clients w) (S (ticks w))
                      (trace w ++ [ EvLog INFO "🤖 Running AI predictions..." [];
                                    EvLog ERROR "Error in prediction loop: {}" [LExn e];
                                    EvSleep 300 ]))).
  { unfold App.prediction_iteration, try_except, App.prediction_cycle.
    unfold bind at 1. cbn [log emit]. unfold bind at 1.
    unfold env_call, bind at 1, env_read. cbn [ticks emit_w].
    rewrite Hdata. unfold raise at 1.
    unfold bind, log, sleep, emit, emit_w. cbn [alerts connected_clients ticks trace].
    by rewrite <- !app_assoc. }
  split; [by rewrite Hiter|]. split; [|by rewrite Hiter].
  eapply run_events_eq. exact Hiter.
Qed.

(** X20.  Every message a client receives while a location is processed
    is an "alert" envelope whose data is one of the alerts the rules
    returned for that location, as the rules returned it: the object
    [send_alert] builds from it (with its id and [channels_sent]) is not
    what is broadcast. *)
Theorem process_location_broadcasts_rule_alerts
    (location_data : dict) (w : World) (m : dict) :
  In m (delivered_messages (run_events (App.process_location location_data) w)) ->
  wire_envelope "alert" m /\
  exists flood_risk fire_risk pollution_risk alerts_triggered alert,
    alert_rules_evaluate location_data flood_risk fire_risk pollution_risk
      = Ok alerts_triggered /\
    In alert alerts_triggered /\
    m !! "data" = Some (PDict alert).
Proof.
  set (P := fun m : dict =>
         wire_envelope "alert" m /\
         exists flood_risk fire_risk pollution_risk alerts_triggered alert,
           alert_rules_evaluate location_data flood_risk fire_risk pollution_risk
             = Ok alerts_triggered /\
           In alert alerts_triggered /\
           m !! "data" = Some (PDict alert)).
  assert (Hemits : emits (delivers P) (App.process_location location_data)).
  { assert (Hp : forall h, emits (delivers P) (App.run_predict h location_data)).
    { intros h. apply emits_bind; [by apply emits_emit|]. intros _. apply emits_env_read. }
    unfold App.process_location.
    apply emits_bind; [apply Hp|]. intros flood_risk.
    apply emits_bind; [apply Hp|]. intros fire_risk.
    apply emits_bind; [apply Hp|]. intros pollution_risk.
    apply (emits_bind_ret _ _ _
             (fun triggered =>
                alert_rules_evaluate location_data flood_risk fire_risk pollution_risk
                  = Ok triggered)).
    - intros w0 triggered w0'. unfold App.evaluate, bind, emit, ret, raise.
      destruct (alert_rules_evaluate _ _ _ _); [|done]. by intros [= ->].
    - unfold App.evaluate. apply emits_bind; [by apply emits_emit|]. intros _.
      destruct (alert_rules_evaluate _ _ _ _); [apply emits_ret|apply emits_raise].
    - intros alerts_triggered Hrules.
      apply emits_for_each_In. intros alert Hin.
      apply emits_bind; [apply emits_send_alert; by intros []|]. intros _.
      eapply emits_weaken; [|apply emits_broadcast_alert].
      intros []; cbn; try done. intros [Henv Hdata]. split; [exact Henv|].
      by exists flood_risk, fire_risk, pollution_risk, alerts_triggered, alert. }
  intros Hin.
  pose proof (delivered_messages_Forall _ _ (emits_run_events _ _ w Hemits)) as Hall.
  rewrite List.Forall_forall in Hall. by apply Hall.
Qed.
End Fanout.

(** ** [background_data_collection] and [websocket_live_data] *)

Section Collection.
Context {E : Env}.

Lemma data_collection_iteration_cases w :
  (exists e t,
     App.data_collection_iteration w =
       (Ok tt, mkWorld (alerts w) (connected_clients w) t
                 (trace w ++
                  [EvLog INFO "📊 Collecting external environmental data..." [];
                   EvLog ERROR "Error in background data collection:  {}" [LExn e];
                   EvSleep 60]))) \/
  (exists weather_data air_quality_data water_level_data,
     fetch_weather (ticks w) = Ok weather_data /\
     fetch_air_quality (S (ticks w)) = Ok air_quality_data /\
     fetch_water_levels (S (S (ticks w))) = Ok water_level_data /\
     let all_data := simulate_iot_data (S (S (S (ticks w)))) ∪
                     (water_level_data ∪ (air_quality_data ∪ weather_data)) in
     let message : dict :=
       list_to_map [("type", PStr "sensor_update"); ("data", PDict all_data);
                    ("timestamp", PStr (utcnow_isoformat (S (S (S (S (ticks w)))))))] in
     let aborted := sweep_aborts message (elements (connected_clients w)) in
     save_sensor_data all_data = None /\
     App.data_collection_iteration w =
       (Ok tt,
        mkWorld (alerts w)
          (if aborted then connected_clients w
           else connected_clients w ∖
                  list_to_set (List.filter (send_fails message)
                                 (elements (connected_clients w))))
          (S (S (S (S (S (ticks w))))))
          (trace w ++
           EvLog INFO "📊 Collecting external environmental data..." [] ::
           EvSaved all_data ::
           sweep_events message (swept message (elements (connected_clients w))) ++
           (if aborted
            then [EvLog ERROR "Error in background data collection:  {}"
                    [LExn (RuntimeError "Set changed size during iteration")];
                  EvSleep 60]
            else [EvSleep 60])))).
Proof.
  set (w0 := emit_w (EvLog INFO "📊 Collecting external environmental data..." []) w).
  assert (Hfail : forall e w1 (rest : M unit),
            rest w0 = (Raise e, w1) ->
            alerts w1 = alerts w -> connected_clients w1 = connected_clients w ->
            trace w1 = trace w0 ->
            exists e t,
              try_except
                (bind (log INFO "📊 Collecting external environmental data..." [])
                   (fun _ => rest))
                (fun e => bind (log ERROR "Error in background data collection:  {}" [LExn e])
                            (fun _ => sleep 60)) w =
              (Ok tt, mkWorld (alerts w) (connected_clients w) t
                 (trace w ++
                  [EvLog INFO "📊 Collecting external environmental data..." [];
                   EvLog ERROR "Error in background data collection:  {}" [LExn e];
                   EvSleep 60]))).
  { intros e w1 rest Hrest Ha Hc Ht. exists e, (ticks w1).
    erewrite try_except_raise.
    2:{ eapply bind_run; [reflexivity|]. exact Hrest. }
    unfold bind, log, sleep, emit, emit_w. cbn [alerts connected_clients ticks trace].
    rewrite Ha, Hc, Ht. unfold w0, emit_w. cbn [trace].
    by rewrite <- !app_assoc. }
  unfold App.data_collection_iteration.
  destruct (fetch_weather (ticks w)) as [weather_data|e] eqn:Hw.
  2:{ left. eapply Hfail; [eapply bind_raise, env_call_raise; exact Hw|reflexivity..]. }
  destruct (fetch_air_quality (S (ticks w))) as [air_quality_data|e] eqn:Ha.
  2:{ left. eapply Hfail;
        [eapply bind_run; [apply env_call_ok; exact Hw|];
         eapply bind_raise, env_call_raise; exact Ha
        |reflexivity..]. }
  destruct (fetch_water_levels (S (S (ticks w)))) as [water_level_data|e] eqn:Hl.
  2:{ left. eapply Hfail;
        [eapply bind_run; [apply env_call_ok; exact Hw|];
         eapply bind_run; [apply env_call_ok; exact Ha|];
         eapply bind_raise, env_call_raise; exact Hl
        |reflexivity..]. }
  destruct (save_sensor_data (simulate_iot_data (S (S (S (ticks w)))) ∪
                              (water_level_data ∪ (air_quality_data ∪ weather_data))))
    as [e|] eqn:Hs.
  { left. eapply Hfail;
      [eapply bind_run; [apply env_call_ok; exact Hw|];
       eapply bind_run; [apply env_call_ok; exact Ha|];
       eapply bind_run; [apply env_call_ok; exact Hl|];
       eapply bind_run; [reflexivity|]; unfold w0; cbn [ticks emit_w];
       eapply bind_raise; unfold App.save; rewrite Hs; reflexivity
      |reflexivity..]. }
  right. exists weather_data, air_quality_data, water_level_data.
  split; [done|]. split; [done|]. split; [done|]. cbv zeta. split; [done|].
  destruct (sweep_aborts _ (elements (connected_clients w))) eqn:Hab.
  - erewrite try_except_raise.
    2:{ eapply bind_run; [reflexivity|].
        eapply bind_run; [apply env_call_ok; exact Hw|].
        eapply bind_run; [apply env_call_ok; exact Ha|].
        eapply bind_run; [apply env_call_ok; exact Hl|].
        eapply bind_run; [reflexivity|]. cbn [ticks emit_w].
        eapply bind_run; [unfold App.save; rewrite Hs; reflexivity|].
        eapply bind_run; [reflexivity|]. cbn [ticks emit_w].
        eapply bind_raise. apply broadcast_update_aborted. exact Hab. }
    unfold bind, log, sleep, emit, emit_w, add_events.
    cbn [alerts connected_clients ticks trace].
    by rewrite <- !app_assoc.
  - apply try_except_ok.
    eapply bind_run; [reflexivity|].
    eapply bind_run; [apply env_call_ok; exact Hw|].
    eapply bind_run; [apply env_call_ok; exact Ha|].
    eapply bind_run; [apply env_call_ok; exact Hl|].
    eapply bind_run; [reflexivity|]. cbn [ticks emit_w].
    eapply bind_run; [unfold App.save; rewrite Hs; reflexivity|].
    eapply bind_run; [reflexivity|]. cbn [ticks emit_w].
    eapply bind_run; [apply broadcast_update_run; exact Hab|].
    unfold sleep, emit, emit_w. cbn [alerts connected_clients ticks trace].
    rewrite swept_quiet by exact Hab.
    by rewrite <- !app_assoc.
Qed.
End Collection.

Lemma delivered_messages_app evs1 evs2 :
  delivered_messages (evs1 ++ evs2) = delivered_messages evs1 ++ delivered_messages evs2.
Proof. apply omap_app. Qed.

Lemma saved_app evs1 evs2 : saved (evs1 ++ evs2) = saved evs1 ++ saved evs2.
Proof. apply omap_app. Qed.

Section CollectionTurn.
Context {E : Env}.

Lemma sweep_events_quiet message clients :
  sleeps (sweep_events message clients) = [] /\
  saved (sweep_events message clients) = [] /\
  Forall (fun m => m = message) (delivered_messages (sweep_events message clients)).
Proof.
  induction clients as [|c clients (IHs & IHv & IHd)]; [done|].
  cbn [sweep_events map]. destruct (send_fails message c); cbn; [done|].
  split; [done|]. split; [done|]. by constructor.
Qed.

Lemma data_collection_iteration_run w :
  exists w' evs,
    App.data_collection_iteration w = (Ok tt, w') /\
    trace w' = trace w ++ evs /\
    sleeps evs = [60%Z] /\
    alerts w' = alerts w /\
    connected_clients w' ⊆ connected_clients w.
Proof.
  destruct (data_collection_iteration_cases w)
    as [(e & t & Hrun)|(wd & ad & ld & _ & _ & _ & Hrest)].
  - eexists _, _. split; [exact Hrun|]. cbn [trace alerts connected_clients].
    split; [reflexivity|]. split; [reflexivity|]. done.
  - cbv zeta in Hrest. destruct Hrest as [_ Hrun].
    eexists _, _. split; [exact Hrun|]. cbn [trace alerts connected_clients].
    split; [reflexivity|].
    split; [|split; [done|destruct (sweep_aborts _ _); set_solver]].
    change (?a :: ?b :: ?l ++ ?r) with ([a; b] ++ l ++ r).
    rewrite !sleeps_app.
    destruct (sweep_events_quiet
      (list_to_map [("type", PStr "sensor_update");
                    ("data", PDict (simulate_iot_data (S (S (S (ticks w)))) ∪ (ld ∪ (ad ∪ wd))));
                    ("timestamp", PStr (utcnow_isoformat (S (S (S (S (ticks w)))))))])
      (swept
         (list_to_map [("type", PStr "sensor_update");
                       ("data", PDict (simulate_iot_data (S (S (S (ticks w)))) ∪ (ld ∪ (ad ∪ wd))));
                       ("timestamp", PStr (utcnow_isoformat (S (S (S (S (ticks w)))))))])
         (elements (connected_clients w)))) as [-> _].
    by destruct (sweep_aborts _ _).
Qed.

(** X21.  Whatever the external services, the database and the clients
    do, [n] turns of [background_data_collection] return normally and
    sleep 60 s exactly once per turn; the loop never touches the stored
    alerts and never adds a client. *)
Theorem data_collection_never_stops (n : nat) (w : World) :
  fst (App.background_data_collection n w) = Ok tt /\
  sleeps (run_events (App.background_data_collection n) w) = repeat 60%Z n /\
  alerts (snd (App.background_data_collection n w)) = alerts w /\
  connected_clients (snd (App.background_data_collection n w)) ⊆ connected_clients w.
Proof.
  assert (Hloop : exists w' evs,
            App.background_data_collection n w = (Ok tt, w') /\
            trace w' = trace w ++ evs /\ sleeps evs = repeat 60%Z n /\
            alerts w' = alerts w /\ connected_clients w' ⊆ connected_clients w).
  { revert w. induction n as [|n IH]; intros w.
    - exists w, []. by rewrite app_nil_r.
    - destruct (data_collection_iteration_run w) as (w1 & evs1 & Hrun1 & Ht1 & Hs1 & Ha1 & Hc1).
      destruct (IH w1) as (w' & evs & Hrun & Ht & Hs & Ha & Hc).
      exists w', (evs1 ++ evs). split; [|split; [|split; [|split]]].
      + cbn [App.background_data_collection]. eapply bind_run; [exact Hrun1|exact Hrun].
      + by rewrite Ht, Ht1, app_assoc.
      + by rewrite sleeps_app, Hs1, Hs.
      + congruence.
      + set_solver. }
  destruct Hloop as (w' & evs & Hrun & Ht & Hs & Ha & Hc).
  rewrite Hrun. cbn [fst snd]. split; [done|]. split; [|done].
  erewrite run_events_trace; [exact Hs|]. by rewrite Hrun.
Qed.

(** X22.  A message delivered during a turn of
    [background_data_collection] means that the three fetches returned and
    that the turn saved one dict, the very dict the message carries as its
    data (so a failed fetch or save broadcasts nothing).  In that dict a
    key reported by several sources holds the IoT value first, then the
    water-level, air-quality and weather value. *)
Theorem data_collection_broadcasts_what_it_saved (w : World) (m : dict) :
  In m (delivered_messages (run_events App.data_collection_iteration w)) ->
  exists weather_data air_quality_data water_level_data all_data,
    fetch_weather (ticks w) = Ok weather_data /\
    fetch_air_quality (S (ticks w)) = Ok air_quality_data /\
    fetch_water_levels (S (S (ticks w))) = Ok water_level_data /\
    saved (run_events App.data_collection_iteration w) = [all_data] /\
    m !! "data" = Some (PDict all_data) /\
    forall key,
      all_data !! key =
        match simulate_iot_data (S (S (S (ticks w)))) !! key with
        | Some v => Some v
        | None =>
            match water_level_data !! key with
            | Some v => Some v
            | None =>
                match air_quality_data !! key with
                | Some v => Some v
                | None => weather_data !! key
                end
            end
        end.
Proof.
  destruct (data_collection_iteration_cases w)
    as [(e & t & Hrun)|(wd & ad & ld & Hw & Ha & Hl & Hrest)].
  - erewrite run_events_eq by exact Hrun. cbn. tauto.
  - cbv zeta in Hrest. destruct Hrest as [_ Hrun].
    erewrite !run_events_eq by exact Hrun.
    set (all_data := simulate_iot_data (S (S (S (ticks w)))) ∪ (ld ∪ (ad ∪ wd))).
    set (message := list_to_map _).
    destruct (sweep_events_quiet message (swept message (elements (connected_clients w))))
      as (_ & Hsaved & Hmsgs).
    change (?a :: ?b :: ?l ++ ?r) with ([a; b] ++ l ++ r).
    rewrite !delivered_messages_app, !saved_app, Hsaved.
    assert (Htail : forall tail : list event,
              tail = (if sweep_aborts message (elements (connected_clients w))
                      then [EvLog ERROR "Error in background data collection:  {}"
                              [LExn (RuntimeError "Set changed size during iteration")];
                            EvSleep 60]
                      else [EvSleep 60]) ->
              delivered_messages tail = [] /\ saved tail = []).
    { intros tail ->. by destruct (sweep_aborts _ _). }
    destruct (Htail _ eq_refl) as [-> ->].
    cbn [delivered_messages saved omap list_omap app]. rewrite !app_nil_r.
    intros Hin. rewrite List.Forall_forall in Hmsgs. apply Hmsgs in Hin as ->.
    exists wd, ad, ld, all_data. split; [done|]. split; [done|]. split; [done|].
    split; [reflexivity|]. split.
    + unfold message, list_to_map. cbn [fold_right fst snd].
      by rewrite lookup_insert_ne, lookup_insert_eq by done.
    + intros key. unfold all_data. rewrite !lookup_union.
      destruct (simulate_iot_data _ !! key), (ld !! key), (ad !! key), (wd !! key);
        reflexivity.
Qed.
End CollectionTurn.

Section LiveData.
Context {E : Env}.

(** The loop of [websocket_live_data]: [k] turns complete (one delivery to
    [websocket] and one 2 s sleep each) before the loop raises or the
    [n] turns are over. *)
Lemma live_data_turns_run (websocket : client) (n : nat) w :
  exists r w' evs k,
    App.live_data_turns websocket n w = (r, w') /\
    trace w' = trace w ++ evs /\
    alerts w' = alerts w /\
    connected_clients w' = connected_clients w /\
    map fst (deliveries evs) = repeat websocket k /\
    sleeps evs = repeat 2%Z k /\
    List.filter is_error_log evs = [] /\
    ((r = Ok true /\ k = n) \/ (exists e, r = Raise e) /\ (k < n)%nat).
Proof.
  revert w. induction n as [|n IH]; intros w.
  - exists (Ok true), w, [], 0%nat. rewrite app_nil_r. cbn. tauto.
  - cbn [App.live_data_turns].
    destruct (get_latest_sensor_data (ticks w)) as [data|e] eqn:Hdata.
    2:{ eexists (Raise e), _, [], 0%nat. split.
        - eapply bind_raise, env_call_raise. exact Hdata.
        - cbn. rewrite app_nil_r. repeat split; try done. right. split; [by eexists|lia]. }
    set (message := list_to_map
           [("type", PStr "sensor_update"); ("data", PList (map PDict data));
            ("timestamp", PStr (utcnow_isoformat (S (ticks w))))] : dict).
    destruct (send_json_outcome websocket message) as [e|] eqn:Hsend.
    { eexists (Raise e), _, [EvSendFailed websocket message], 0%nat. split.
      - eapply bind_run; [apply env_call_ok; exact Hdata|].
        eapply bind_run; [reflexivity|]. cbn [ticks]. fold message.
        eapply bind_raise. unfold App.send_json. rewrite Hsend. reflexivity.
      - cbn. repeat split; try done. right. split; [by eexists|lia]. }
    set (w1 := mkWorld (alerts w) (connected_clients w) (S (S (ticks w)))
                 (trace w ++ [EvDelivered websocket message; EvSleep 2])).
    destruct (IH w1) as (r & w' & evs & k & Hrun & Ht & Ha & Hc & Hd & Hs & He & Hk).
    exists r, w', ([EvDelivered websocket message; EvSleep 2] ++ evs), (S k).
    split; [|split; [|split; [|split; [|split; [|split; [|split]]]]]].
    + eapply bind_run; [apply env_call_ok; exact Hdata|].
      eapply bind_run; [reflexivity|]. cbn [ticks]. fold message.
      eapply bind_run; [unfold App.send_json; rewrite Hsend; reflexivity|].
      eapply bind_run; [reflexivity|].
      unfold emit_w; cbn [alerts connected_clients ticks trace].
      rewrite <- app_assoc. exact Hrun.
    + rewrite Ht. unfold w1; cbn [trace]. by rewrite <- app_assoc.
    + by rewrite Ha.
    + by rewrite Hc.
    + rewrite deliveries_app, map_app, Hd. reflexivity.
    + rewrite sleeps_app, Hs. reflexivity.
    + rewrite List.filter_app, He. reflexivity.
    + destruct Hk as [[-> ->]|[Hr Hlt]]; [by left|right; split; [done|lia]].
Qed.

(** X23.  [websocket_live_data] registers its client, then sends one
    update and sleeps 2 s per turn.  After [n] turns it is either still in
    its loop, with the client registered, [n] updates sent and no ERROR
    line; or a send or a database read has raised after fewer turns, and
    then the handler returns normally, having logged the error once,
    removed the client from [connected_clients] and logged the number of
    clients left. *)
Theorem websocket_live_data_unregisters_on_failure
    (websocket : client) (n : nat) (w : World) :
  exists running w' k,
    App.websocket_live_data websocket n w = (Ok running, w') /\
    alerts w' = alerts w /\
    map fst (deliveries (run_events (App.websocket_live_data websocket n) w))
      = repeat websocket k /\
    sleeps (run_events (App.websocket_live_data websocket n) w) = repeat 2%Z k /\
    (running = true ->
       k = n /\
       connected_clients w' = {[websocket]} ∪ connected_clients w /\
       List.filter is_error_log (run_events (App.websocket_live_data websocket n) w) = []) /\
    (running = false ->
       (k < n)%nat /\
       connected_clients w' = connected_clients w ∖ {[websocket]} /\
       length (List.filter is_websocket_error
                 (run_events (App.websocket_live_data websocket n) w)) = 1%nat /\
       last (run_events (App.websocket_live_data websocket n) w) =
         Some (EvLog INFO "❌ WebSocket disconnected. Total clients: {}"
                 [LVal (PInt (Z.of_nat (size (connected_clients w ∖ {[websocket]}))))])).
Proof.
  set (w1 := mkWorld (alerts w) ({[websocket]} ∪ connected_clients w) (ticks w)
               (trace w ++
                [EvLog INFO "✅ WebSocket connected.  Total clients: {}"
                   [LVal (PInt (Z.of_nat (size ({[websocket]} ∪ connected_clients w))))]])).
  destruct (live_data_turns_run websocket n w1)
    as (r & w2 & evs & k & Hrun & Ht & Ha & Hc & Hd & Hs & He & Hk).
  destruct Hk as [[-> ->]|[[e ->] Hlt]].
  - exists true, w2, n.
    assert (Hall : App.websocket_live_data websocket n w = (Ok true, w2)).
    { unfold App.websocket_live_data.
      eapply bind_run; [reflexivity|].
      eapply bind_run;
        [apply try_except_ok;
         eapply bind_run; [reflexivity|];
         eapply bind_run; [reflexivity|]; exact Hrun
        |reflexivity]. }
    assert (Hev : run_events (App.websocket_live_data websocket n) w =
              EvLog INFO "✅ WebSocket connected.  Total clients: {}"
                [LVal (PInt (Z.of_nat (size ({[websocket]} ∪ connected_clients w))))] :: evs).
    { apply run_events_trace. rewrite Hall. cbn [snd]. rewrite Ht. unfold w1; cbn [trace].
      by rewrite <- app_assoc. }
    split; [exact Hall|]. split; [by rewrite Ha|]. rewrite Hev.
    split; [exact Hd|]. split; [exact Hs|]. split; [|done].
    intros _. split; [done|]. split; [by rewrite Hc|]. cbn. exact He.
  - set (w3 := mkWorld (alerts w2) (connected_clients w2 ∖ {[websocket]}) (ticks w2)
                 (trace w2 ++
                  [EvLog ERROR "WebSocket error: {}" [LExn e];
                   EvLog INFO "❌ WebSocket disconnected. Total clients: {}"
                     [LVal (PInt (Z.of_nat (size (connected_clients w2 ∖ {[websocket]}))))]])).
    exists false, w3, k.
    assert (Hall : App.websocket_live_data websocket n w = (Ok false, w3)).
    { unfold App.websocket_live_data.
      eapply bind_run; [reflexivity|].
      eapply bind_run.
      - erewrite try_except_raise.
        2:{ eapply bind_run; [reflexivity|].
            eapply bind_run; [reflexivity|]. exact Hrun. }
        reflexivity.
      - cbn iota. eapply bind_run; [reflexivity|].
        eapply bind_run; [reflexivity|].
        eapply bind_run; [reflexivity|].
        unfold ret, emit_w, w3. cbn [alerts connected_clients ticks trace].
        by rewrite <- app_assoc. }
    assert (Hset : connected_clients w2 ∖ {[websocket]} = connected_clients w ∖ {[websocket]}).
    { rewrite Hc. unfold w1; cbn [connected_clients]. set_solver. }
    assert (Hev : run_events (App.websocket_live_data websocket n) w =
              (EvLog INFO "✅ WebSocket connected.  Total clients: {}"
                 [LVal (PInt (Z.of_nat (size ({[websocket]} ∪ connected_clients w))))] :: evs)
              ++ [EvLog ERROR "WebSocket error: {}" [LExn e];
                  EvLog INFO "❌ WebSocket disconnected. Total clients: {}"
                    [LVal (PInt (Z.of_nat (size (connected_clients w ∖ {[websocket]}))))]]).
    { apply run_events_trace. rewrite Hall. cbn [snd]. unfold w3; cbn [trace].
      rewrite Ht, Hset. unfold w1; cbn [trace]. by rewrite <- !app_assoc. }
    split; [exact Hall|]. split; [unfold w3; cbn [alerts]; by rewrite Ha|]. rewrite Hev.
    split; [rewrite deliveries_app; cbn; fold (deliveries evs);
            by rewrite app_nil_r|].
    split; [rewrite sleeps_app; cbn; fold (sleeps evs); by rewrite app_nil_r|].
    split; [done|]. intros _. split; [done|]. split; [exact Hset|].
    split.
    + rewrite List.filter_app, length_app. cbn.
      assert (Hnone : List.filter is_websocket_error evs = []).
      { clear -He. induction evs as [|ev evs IH]; [done|].
        cbn in He. destruct ev as [[] ? ?| | | | | | |]; cbn in *; try done; by apply IH. }
      by rewrite Hnone.
    + rewrite last_app. reflexivity.
Qed.
End LiveData.

Lemma broadcast_update_keeps_reachable_clients_witness :
  exists w',
    App.broadcast_update (H := sample_env None second_dead []) moderate_alert three_clients
      = (Ok tt, w') /\
    (3%nat ∈ connected_clients w') /\
    (2%nat ∉ connected_clients w').
Proof.
  destruct (broadcast_update_keeps_reachable_clients (E := sample_env None second_dead [])
              moderate_alert three_clients) as (w' & Hrun & Hkeep & _).
  - intros c _. reflexivity.
  - exists w'. split; [exact Hrun|]. split.
    + apply Hkeep. split; [vm_compute; reflexivity|reflexivity].
    + intros Hin. apply Hkeep in Hin as [_ Hsend]. discriminate.
Defined.

Lemma prediction_cycle_processes_every_location_witness :
  fst (App.prediction_iteration (H := sample_env None nobody [location_b; location_c])
         empty_world) = Ok tt /\
  evaluated (run_events
               (App.prediction_iteration (H := sample_env None nobody [location_b; location_c]))
               empty_world) = [location_b; location_c].
Proof.
  destruct (prediction_cycle_processes_every_location
              (E := sample_env None nobody [location_b; location_c])
              empty_world [location_b; location_c])
    as (Hok & Hev & _).
  - reflexivity.
  - vm_compute. reflexivity.
  - split; [exact Hok|exact Hev].
Defined.

Lemma prediction_cycle_survives_unreadable_database_witness :
  run_events (App.prediction_iteration (H := offline_env)) empty_world =
    [ EvLog INFO "🤖 Running AI predictions..." [];
      EvLog ERROR "Error in prediction loop: {}" [LExn (RuntimeError "database")];
      EvSleep 300 ].
Proof.
  apply (prediction_cycle_survives_unreadable_database (E := offline_env)
           empty_world (RuntimeError "database")).
  reflexivity.
Defined.

Lemma process_location_broadcasts_rule_alerts_witness :
  critical_envelope !! "data" = Some (PDict critical_alert).
Proof.
  destruct (process_location_broadcasts_rule_alerts (E := alarm_env [])
              location_b one_client critical_envelope)
    as (_ & f & fi & p & triggered & alert & Hrules & Hin & Hdata).
  - vm_compute. left. reflexivity.
  - injection Hrules as <-. destruct Hin as [<-|[]]. exact Hdata.
Defined.

Lemma data_collection_broadcasts_what_it_saved_witness :
  exists all_data,
    saved (run_events (App.data_collection_iteration (H := reporting_env)) one_client)
      = [all_data] /\
    temperature_update !! "data" = Some (PDict all_data) /\
    all_data !! "temperature" = Some (PInt 30).
Proof.
  destruct (data_collection_broadcasts_what_it_saved (E := reporting_env)
              one_client temperature_update)
    as (wd & ad & ld & all_data & _ & _ & _ & Hsaved & Hdata & Hmerge).
  - vm_compute. left. reflexivity.
  - exists all_data. split; [exact Hsaved|]. split; [exact Hdata|].
    rewrite Hmerge. reflexivity.
Defined.

(** ** [SensorDataManager.validate_and_process] *)

Section Validation.
Variable float_of_str : string -> option Q.

Lemma float_or_default (raw_data : dict) (key : string) (dflt : pyval) :
  SensorDataManager.py_float float_of_str dflt <> None ->
  (SensorDataManager.py_float float_of_str (dict_get raw_data key dflt) = None <->
   exists v, raw_data !! key = Some v /\ SensorDataManager.py_float float_of_str v = None).
Proof.
  intros Hd. unfold dict_get. destruct (raw_data !! key) as [v|]; cbn.
  - split; [intros Hv; by exists v|]. by intros (v' & [= <-] & Hv).
  - split; [done|]. by intros (v' & [=] & _).
Qed.

(** One [float] call of [validate_and_process]: [tac] closes the case in
    which it raises. *)
Ltac float_step raw_data key dflt tac :=
  let q := fresh "q" in
  let Eq := fresh "Eq" in
  destruct (SensorDataManager.py_float float_of_str (dict_get raw_data key dflt))
    as [q|] eqn:Eq; cbn [mbind option_bind]; [|tac].

Ltac float_steps raw_data tac :=
  float_step raw_data "temperature" (PInt 20) tac;
  float_step raw_data "humidity" (PInt 50) tac;
  float_step raw_data "pressure" (PInt 1013) tac;
  float_step raw_data "wind_speed" (PInt 5) tac;
  float_step raw_data "rainfall" (PInt 0) tac;
  float_step raw_data "water_level" (PInt 0) tac;
  float_step raw_data "pm25" (PInt 25) tac;
  float_step raw_data "pm10" (PInt 40) tac;
  float_step raw_data "no2" (PInt 30) tac;
  float_step raw_data "o3" (PInt 50) tac;
  float_step raw_data "co" (PNum 1.0) tac;
  float_step raw_data "smoke_level" (PInt 0) tac;
  float_step raw_data "radiation" (PInt 0) tac.

(** X24.  [validate_and_process] fails (raises [ValueError]) exactly when
    one of the thirteen measurements is present in [raw_data] with a value
    [float] cannot convert: [None], a list, a dict, a string that spells
    no number, or an int beyond the float range.  A missing measurement
    never makes it fail, and neither does any value of a descriptive
    field. *)
Theorem validate_and_process_rejects_unconvertible_measurement
    (new_id now : string) (raw_data : dict) :
  SensorDataManager.validate_and_process float_of_str new_id now raw_data = None <->
  exists key v, In key (map fst measurement_defaults) /\
                raw_data !! key = Some v /\
                SensorDataManager.py_float float_of_str v = None.
Proof.
  unfold SensorDataManager.validate_and_process.
  split.
  - float_steps raw_data
      ltac:(intros _;
            match goal with
            | Eq : SensorDataManager.py_float _ (dict_get _ ?key _) = None |- _ =>
                apply float_or_default in Eq as (v & Hv & Hnum); [|done];
                exists key, v; split; [cbn; tauto|done]
            end).
    discriminate.
  - intros (key & v & Hkey & Hv & Hnum).
    assert (Hnone : forall dflt,
              SensorDataManager.py_float float_of_str (dict_get raw_data key dflt) = None)
      by (intros dflt; unfold dict_get; by rewrite Hv).
    cbn in Hkey.
    float_steps raw_data ltac:(reflexivity).
    exfalso.
    repeat (destruct Hkey as [<-|Hkey]; [rewrite Hnone in *; discriminate|]); done.
Qed.

Lemma validation_rules_other (temperature humidity : Q) (d : dict) (key : string) :
  key <> "status" ->
  SensorDataManager.validation_rules temperature humidity d !! key = d !! key.
Proof.
  intros Hk. unfold SensorDataManager.validation_rules. cbv zeta.
  repeat (match goal with |- context [Qlt_le_dec ?a ?b] => destruct (Qlt_le_dec a b) end);
    by rewrite ?lookup_insert_ne by done.
Qed.

Lemma validation_rules_status (temperature humidity : Q) (d : dict) :
  d !! "status" = Some (PStr "processed") ->
  SensorDataManager.validation_rules temperature humidity d !! "status"
    = Some (PStr (reading_status temperature humidity)).
Proof.
  intros Hd. unfold SensorDataManager.validation_rules, reading_status. cbv zeta.
  repeat (match goal with |- context [Qlt_le_dec ?a ?b] => destruct (Qlt_le_dec a b) end);
    by rewrite ?lookup_insert_eq.
Qed.

Ltac record_lookup :=
  unfold SensorDataManager.processed_record, list_to_map; cbn [fold_right fst snd];
  repeat (rewrite lookup_insert_ne by done); rewrite ?lookup_insert_eq.

(** X25.  The status of a processed reading: a humidity outside 0..100
    gives "warning_invalid_humidity", also when the temperature is out of
    range too (the second rule overwrites the first); with the humidity in
    range, a temperature outside -50..70 gives "warning_invalid_temp"; and
    with both in range (bounds included) the status is "processed". *)
Theorem validate_and_process_status
    (new_id now : string) (raw_data processed : dict) :
  SensorDataManager.validate_and_process float_of_str new_id now raw_data = Some processed ->
  exists temperature humidity,
    SensorDataManager.py_float float_of_str (dict_get raw_data "temperature" (PInt 20))
      = Some temperature /\
    SensorDataManager.py_float float_of_str (dict_get raw_data "humidity" (PInt 50))
      = Some humidity /\
    processed !! "temperature" = Some (PNum temperature) /\
    processed !! "humidity" = Some (PNum humidity) /\
    ((humidity < 0)%Q \/ (100 < humidity)%Q ->
       processed !! "status" = Some (PStr "warning_invalid_humidity")) /\
    ((0 <= humidity)%Q -> (humidity <= 100)%Q ->
     (temperature < -50)%Q \/ (70 < temperature)%Q ->
       processed !! "status" = Some (PStr "warning_invalid_temp")) /\
    ((0 <= humidity)%Q -> (humidity <= 100)%Q ->
     (-50 <= temperature)%Q -> (temperature <= 70)%Q ->
       processed !! "status" = Some (PStr "processed")).
Proof.
  unfold SensorDataManager.validate_and_process.
  float_steps raw_data ltac:(discriminate).
  intros [= <-].
  exists q, q0. split; [done|]. split; [done|].
  assert (Hstatus : forall s, reading_status q q0 = s ->
            SensorDataManager.validation_rules q q0
              (SensorDataManager.processed_record new_id now raw_data
                 q q0 q1 q2 q3 q4 q5 q6 q7 q8 q9 q10 q11) !! "status" = Some (PStr s)).
  { intros s <-. apply validation_rules_status. by record_lookup. }
  split; [rewrite validation_rules_other by done; by record_lookup|].
  split; [rewrite validation_rules_other by done; by record_lookup|].
  split; [|split].
  - intros Hh. apply Hstatus. unfold reading_status.
    repeat (match goal with |- context [Qlt_le_dec ?a ?b] => destruct (Qlt_le_dec a b) end);
      try reflexivity; exfalso; lra.
  - intros Hh0 Hh1 Ht. apply Hstatus. unfold reading_status.
    repeat (match goal with |- context [Qlt_le_dec ?a ?b] => destruct (Qlt_le_dec a b) end);
      try reflexivity; exfalso; lra.
  - intros Hh0 Hh1 Ht0 Ht1. apply Hstatus. unfold reading_status.
    repeat (match goal with |- context [Qlt_le_dec ?a ?b] => destruct (Qlt_le_dec a b) end);
      try reflexivity; exfalso; lra.
Qed.

(** X26.  A processed reading has exactly twenty-three keys: the
    thirteen measurements, each stored as the float of the supplied value
    or of its default, the nine descriptive fields, copied as they are or
    defaulted ("sensor_id" and "sensor_type" to [None]), and "status"; any
    other key of [raw_data] is dropped. *)
Theorem validate_and_process_normalises_reading
    (new_id now : string) (raw_data processed : dict) :
  SensorDataManager.validate_and_process float_of_str new_id now raw_data = Some processed ->
  dom processed =
    list_to_set (map fst measurement_defaults) ∪
    list_to_set (map fst (descriptive_defaults new_id now)) ∪ {[ "status" ]} /\
  (forall key dflt, In (key, dflt) measurement_defaults ->
     exists q, SensorDataManager.py_float float_of_str (dict_get raw_data key dflt) = Some q /\
               processed !! key = Some (PNum q)) /\
  (forall key dflt, In (key, dflt) (descriptive_defaults new_id now) ->
     processed !! key = Some (dict_get raw_data key dflt)).
Proof.
  unfold SensorDataManager.validate_and_process.
  float_steps raw_data ltac:(discriminate).
  intros [= <-]. split; [|split].
  - apply set_eq. intros key. rewrite elem_of_dom.
    destruct (decide (key = "status")) as [->|Hkey].
    + rewrite validation_rules_status by by record_lookup. split; [set_solver|by eexists].
    + rewrite validation_rules_other by done.
      rewrite <- elem_of_dom.
      unfold SensorDataManager.processed_record, list_to_map; cbn [fold_right fst snd].
      rewrite !dom_insert, dom_empty.
      cbn [measurement_defaults descriptive_defaults map fst list_to_set].
      set_solver.
  - intros key dflt Hin. cbn in Hin.
    rewrite validation_rules_other by (intros ->; intuition congruence).
    repeat (destruct Hin as [[= <- <-]|Hin]; [eexists; split; [eassumption|by record_lookup]|]).
    done.
  - intros key dflt Hin. cbn in Hin.
    rewrite validation_rules_other by (intros ->; intuition congruence).
    repeat (destruct Hin as [[= <- <-]|Hin]; [by record_lookup|]).
    done.
Qed.
End Validation.

Lemma validate_and_process_rejects_unconvertible_measurement_witness :
  SensorDataManager.validate_and_process sample_float "uuid-0" "2024-05-01T12:00:00"
    broken_thermometer = None /\
  SensorDataManager.validate_and_process sample_float "uuid-0" "2024-05-01T12:00:00"
    pressure_beyond_float = None.
Proof.
  split.
  - apply validate_and_process_rejects_unconvertible_measurement.
    exists "temperature", (PStr "n/a"). repeat split. by left.
  - apply validate_and_process_rejects_unconvertible_measurement.
    exists "pressure", (PInt (10 ^ 400)). split; [cbn; tauto|]. split; reflexivity.
Defined.

Lemma validate_and_process_status_witness :
  exists processed,
    SensorDataManager.validate_and_process sample_float "uuid-0" "2024-05-01T12:00:00"
      scorching_and_soaked = Some processed /\
    processed !! "temperature" = Some (PNum 85.5) /\
    processed !! "status" = Some (PStr "warning_invalid_humidity").
Proof.
  destruct (validate_and_process_status sample_float "uuid-0" "2024-05-01T12:00:00"
              scorching_and_soaked
              (SensorDataManager.validation_rules 85.5 120
                 (SensorDataManager.processed_record "uuid-0" "2024-05-01T12:00:00"
                    scorching_and_soaked 85.5 120 1013 5 0 0 25 40 30 50 1.0 0 0)))
    as (temperature & humidity & Ht & Hh & Hpt & Hph & Hhum & _); [reflexivity|].
  injection Ht as <-. injection Hh as <-.
  eexists. split; [reflexivity|].
  split; [exact Hpt|]. apply Hhum. right. reflexivity.
Defined.

Lemma validate_and_process_normalises_reading_witness :
  exists processed,
    SensorDataManager.validate_and_process sample_float "uuid-0" "2024-05-01T12:00:00"
      scorching_and_soaked = Some processed /\
    processed !! "sensor_id" = Some PNone /\
    processed !! "id" = Some (PStr "uuid-0").
Proof.
  destruct (validate_and_process_normalises_reading sample_float "uuid-0"
              "2024-05-01T12:00:00" scorching_and_soaked
              (SensorDataManager.validation_rules 85.5 120
                 (SensorDataManager.processed_record "uuid-0" "2024-05-01T12:00:00"
                    scorching_and_soaked 85.5 120 1013 5 0 0 25 40 30 50 1.0 0 0)))
    as (_ & _ & Hcopy); [reflexivity|].
  eexists. split; [reflexivity|]. split.
  - apply (Hcopy "sensor_id" PNone). cbn. tauto.
  - apply (Hcopy "id" (PStr "uuid-0")). cbn. tauto.
Defined.
